(** * P1MeterParser: receiving, decoding and checking a P1 telegram

    A shallow embedding of the Arduino library [P1MeterParser]
    (files [CRC16.h], [P1MeterParser.h] and [P1Meter.cpp]) and the
    properties of its checksum engine, byte accumulator and line decoder.

    Conventions of the embedding.
    - A byte is a [Z] in [0, 256); a [char] array is a [list Z].
    - Fixed-width integers are [Z] with the wrap-around of each C
      conversion written out ([to_u8], [to_u16], [to_u32], [to_i8], [to_i16]).
    - Whether plain [char] is signed is implementation defined: it is signed
      on AVR boards and unsigned on ESP8266/ESP32.  The one place where the
      program depends on it (the widening of [buf[pos]] in the CRC) takes the
      signedness as a parameter.
    - Code that reads or writes outside an object has no defined result:
      the embedding returns [Fault] there, naming the object and the index.
      The conversion of a number that [EMBusDeviceType] cannot hold is
      treated in the same way.
    - The [double] that [strtod] returns is kept as the text it is read
      from: its value is left to the C library of the target. *)

From Stdlib Require Import String Ascii ZArith List Bool Lia.
Import ListNotations.
Local Open Scope Z_scope.

(** ** Fixed-width integer conversions *)

Definition to_u8 (z : Z) : Z := z mod 256.
Definition to_u16 (z : Z) : Z := z mod 65536.
Definition to_u32 (z : Z) : Z := z mod 4294967296.
Definition to_i8 (z : Z) : Z := (z + 128) mod 256 - 128.
Definition to_i16 (z : Z) : Z := (z + 32768) mod 65536 - 32768.

Definition is_byte (b : Z) : Prop := 0 <= b < 256.

(** The value of a [char] holding the byte [b], after the integer
    promotion of the platform. *)
Definition char_value (char_signed : bool) (b : Z) : Z :=
  if char_signed && (128 <=? b) then b - 256 else b.

(** ** Results of code that may leave its objects *)

Inductive object : Set :=
  | Buffer            (* the telegram buffer, [BUFFER_SIZE + 1] bytes *)
  | ValueBuffer       (* [char valueBuffer[10]] *)
  | MessageCRC        (* [char messageCRC[5]] *)
  | DateTimeField     (* a [char DateTime[14]] *)
  | UnitField         (* [char Unit[4]] *)
  | PowerFailureLogsArray  (* [PowerFailureLogStruct PowerFailureLogs[3]] *)
  | MBusDevicesArray       (* [MBusDevice MBusDevices[3]] *)
  | DeviceTypeValues.      (* the values 0 .. 255 of an [EMBusDeviceType] *)

Inductive result (A : Type) : Type :=
  | Ok (a : A)
  | Fault (o : object) (index : Z)   (* [index] lies outside object [o] *)
  | OutOfFuel.                       (* a loop of the model ran out of fuel *)

Arguments Ok {A} a.
Arguments Fault {A} o index.
Arguments OutOfFuel {A}.

Definition bind {A B : Type} (r : result A) (k : A -> result B) : result B :=
  match r with
  | Ok a => k a
  | Fault o i => Fault o i
  | OutOfFuel => OutOfFuel
  end.

Notation "x <- r ;; k" := (bind r (fun x => k))
  (at level 61, r at next level, right associativity).

(** ** CRC16.h *)

Module CRC16.

Definition POLYNOMIAL_IBM_REVERSED : Z := 0xA001.

(** One pass of the inner loop body: test the LSB, shift, maybe XOR. *)
Definition shift_step (crc : Z) : Z :=
  if negb (Z.land crc 0x0001 =? 0)
  then to_u16 (Z.lxor (Z.shiftr crc 1) POLYNOMIAL_IBM_REVERSED)
  else Z.shiftr crc 1.

(** [for (int16_t i = 8; i != 0; i--)] *)
Fixpoint bit_loop (i : nat) (crc : Z) : Z :=
  match i with
  | O => crc
  | S i' => bit_loop i' (shift_step crc)
  end.

(** The outer loop body: [crc ^= (uint16_t)buf[pos]] and the eight steps. *)
Definition byte_step (char_signed : bool) (crc b : Z) : Z :=
  bit_loop 8 (to_u16 (Z.lxor crc (to_u16 (char_value char_signed b)))).

(** [for (uint16_t pos = 0; pos < len; pos++)] over the bytes
    [buf[0] .. buf[len-1]], given as a list. *)
Definition crc_bytes (char_signed : bool) (bytes : list Z) : Z :=
  fold_left (byte_step char_signed) bytes 0x00.

(** [CRC16_IBM_REVERSED(buf, len)]: the first [len] bytes of [buf]; a
    fault when [len] exceeds the array, where the C code reads outside it. *)
Definition CRC16_IBM_REVERSED (char_signed : bool) (buf : list Z) (len : Z)
  : result Z :=
  if (0 <=? len) && (len <=? Z.of_nat (length buf))
  then Ok (crc_bytes char_signed (firstn (Z.to_nat len) buf))
  else Fault Buffer (Z.of_nat (length buf)).

(** The reference algorithm, following the words of the specification:
    the byte is XORed into the low byte of the running value, the high
    byte is kept, then eight conditional shift-and-XOR steps follow. *)
Definition ref_xor_low (crc b : Z) : Z :=
  256 * (crc / 256) + Z.lxor (crc mod 256) b.

Definition ref_step (crc : Z) : Z :=
  if Z.odd crc then Z.lxor (crc / 2) 0xA001 else crc / 2.

Definition ref_byte (crc b : Z) : Z :=
  ref_step (ref_step (ref_step (ref_step
    (ref_step (ref_step (ref_step (ref_step (ref_xor_low crc b)))))))).

Fixpoint ref_crc16 (bytes : list Z) (crc : Z) : Z :=
  match bytes with
  | [] => crc
  | b :: rest => ref_crc16 rest (ref_byte crc b)
  end.

End CRC16.

(** ** The C library functions the program calls

    A pointer into an array is the list of the bytes from the pointed
    position to the end of the array; a function that would read past
    that end returns [None]. *)

Module LibC.

Definition isspace (c : Z) : bool := (c =? 32) || ((9 <=? c) && (c <=? 13)).
Definition isdigit (c : Z) : bool := (48 <=? c) && (c <=? 57).
Definition isupper (c : Z) : bool := (65 <=? c) && (c <=? 90).
Definition islower (c : Z) : bool := (97 <=? c) && (c <=? 122).

(** [strchr(s, c)]: the offset of the first [c], [Some None] for [NULL]. *)
Fixpoint strchr (s : list Z) (c : Z) : option (option nat) :=
  match s with
  | [] => None
  | x :: s' =>
      if x =? c then Some (Some O)
      else if x =? 0 then Some None
      else match strchr s' c with
           | Some (Some k) => Some (Some (S k))
           | r => r
           end
  end.

(** [strrchr(s, c)]: the offset of the last [c] before the terminator. *)
Fixpoint strrchr (s : list Z) (c : Z) : option (option nat) :=
  match s with
  | [] => None
  | x :: s' =>
      if x =? 0 then Some (if c =? 0 then Some O else None)
      else match strrchr s' c with
           | None => None
           | Some (Some k) => Some (Some (S k))
           | Some None => Some (if x =? c then Some O else None)
           end
  end.

(** [strncmp(s, lit, strlen(lit)) == 0] for a literal [lit] without NUL. *)
Fixpoint strncmp_eq (s lit : list Z) : option bool :=
  match lit with
  | [] => Some true
  | c :: lit' =>
      match s with
      | [] => None
      | x :: s' => if x =? c then strncmp_eq s' lit' else Some false
      end
  end.

(** The [n] bytes that [strncpy(dst, src, n)] stores in [dst]: the
    characters of [src] up to its terminator, then NULs. *)
Fixpoint strncpy (src : list Z) (n : nat) {struct n} : option (list Z) :=
  match n with
  | O => Some []
  | S n' =>
      match src with
      | [] => None
      | c :: src' =>
          if c =? 0 then Some (repeat 0 n)
          else option_map (cons c) (strncpy src' n')
      end
  end.

(** The characters of the C string at [s], without its terminator. *)
Fixpoint cstring (s : list Z) : option (list Z) :=
  match s with
  | [] => None
  | c :: s' => if c =? 0 then Some [] else option_map (cons c) (cstring s')
  end.

Fixpoint skip_space (s : list Z) : option (list Z) :=
  match s with
  | [] => None
  | c :: s' => if isspace c then skip_space s' else Some s
  end.

(** The value of a character as a digit in bases up to 36. *)
Definition digit_value (c : Z) : option Z :=
  if isdigit c then Some (c - 48)
  else if isupper c then Some (c - 65 + 10)
  else if islower c then Some (c - 97 + 10)
  else None.

(** The digits of the number, accumulated until the first character that
    is not a digit of the base. *)
Fixpoint accumulate (base : Z) (s : list Z) (acc : Z) : option Z :=
  match s with
  | [] => None
  | c :: s' =>
      match digit_value c with
      | Some v => if v <? base then accumulate base s' (acc * base + v)
                  else Some acc
      | None => Some acc
      end
  end.

(** [unsigned long] has 32 bits on the AVR, ESP8266 and ESP32 targets. *)
Definition ULONG_MAX : Z := 4294967295.

Definition skip_sign (s : list Z) : bool * list Z :=
  match s with
  | c :: s' => if c =? 45 then (true, s')
               else if c =? 43 then (false, s') else (false, s)
  | [] => (false, s)
  end.

Definition skip_hex_prefix (base : Z) (s : list Z) : list Z :=
  match s with
  | c :: x :: s' =>
      if (base =? 16) && (c =? 48) && ((x =? 120) || (x =? 88)) then s' else s
  | _ => s
  end.

(** [strtoul(s, NULL, base)] for [base] 10 or 16: white space, an optional
    sign, for base 16 an optional [0x], the digits; a value that does not
    fit saturates, a leading minus negates modulo 2^32. *)
Definition strtoul (s : list Z) (base : Z) : option Z :=
  match skip_space s with
  | None => None
  | Some s1 =>
      let (neg, s2) := skip_sign s1 in
      match accumulate base (skip_hex_prefix base s2) 0 with
      | None => None
      | Some acc =>
          Some (if ULONG_MAX <? acc then ULONG_MAX
                else if neg then to_u32 (- acc) else acc)
      end
  end.

(** A [double] of the target, as far as the program determines it: the
    zero of a zero-initialised object, or the value that the [strtod] of
    the target's C library gives for a text.  The grammar of that function
    (exponents, hexadecimal numbers, [inf] and [nan] are read by some
    libraries and not by others) and its rounding, to 32 bits on the AVR
    boards and to 64 elsewhere, are the library's: two texts may give the
    same [double], which this type does not decide. *)
Inductive double : Set :=
  | double_zero
  | strtod_of (text : list Z).

(** The characters that continue a number for one C library or another:
    the signs, the digits, the point, the letters (of exponents,
    hexadecimal digits, [inf] and [nan]) and the parentheses and the
    underscore of [nan(...)]. *)
Definition number_char (c : Z) : bool :=
  isdigit c || isupper c || islower c
  || (c =? 43) || (c =? 45) || (c =? 46)
  || (c =? 40) || (c =? 41) || (c =? 95).

(** The text of the number at [s]: the characters in front of the first
    one that no number contains.  The library reads no further than that
    character, and the number it returns is decided by the text.  Where
    the array ends before such a character, whether the library has read
    past its end depends on its grammar; the call counts as having left
    the array. *)
Fixpoint number_text (s : list Z) : option (list Z) :=
  match s with
  | [] => None
  | c :: s' =>
      if number_char c then option_map (cons c) (number_text s') else Some []
  end.

(** [strtod(s, NULL)]: white space, then the number. *)
Definition strtod (s : list Z) : option double :=
  match skip_space s with
  | None => None
  | Some s1 => option_map strtod_of (number_text s1)
  end.

End LibC.

(** ** P1MeterParser.h: the registry codes and the data model *)

Definition bytes_of_string (s : string) : list Z :=
  map (fun c => Z.of_N (N_of_ascii c)) (list_ascii_of_string s).

(** OBIS codes for the master device *)
Definition OBIS_VERSION : list Z := Eval cbv in bytes_of_string "1-3:0.2.8".
Definition OBIS_DATETIME : list Z := Eval cbv in bytes_of_string "0-0:1.0.0".
Definition OBIS_EQUIPMENTID : list Z := Eval cbv in bytes_of_string "0-0:96.1.1".
Definition OBIS_TARIFF1_DELIVERED : list Z := Eval cbv in bytes_of_string "1-0:1.8.1".
Definition OBIS_TARIFF2_DELIVERED : list Z := Eval cbv in bytes_of_string "1-0:1.8.2".
Definition OBIS_TARIFF1_PRODUCED : list Z := Eval cbv in bytes_of_string "1-0:2.8.1".
Definition OBIS_TARIFF2_PRODUCED : list Z := Eval cbv in bytes_of_string "1-0:2.8.2".
Definition OBIS_TARIFF_INDICATOR : list Z := Eval cbv in bytes_of_string "0-0:96.14.0".
Definition OBIS_ACTUAL_DELIVERED : list Z := Eval cbv in bytes_of_string "1-0:1.7.0".
Definition OBIS_ACTUAL_PRODUCED : list Z := Eval cbv in bytes_of_string "1-0:2.7.0".
Definition OBIS_NUMBER_POWER_FAIL : list Z := Eval cbv in bytes_of_string "0-0:96.7.21".
Definition OBIS_LONG_POWER_FAIL : list Z := Eval cbv in bytes_of_string "0-0:96.7.9".
Definition OBIS_POWER_LOG : list Z := Eval cbv in bytes_of_string "1-0:99.97.0".
Definition OBIS_POWER_LOG_ITEM : list Z := Eval cbv in bytes_of_string "0-0:96.7.19".
Definition OBIS_NUM_VOLTAGE_SAG_L1 : list Z := Eval cbv in bytes_of_string "1-0:32.32.0".
Definition OBIS_NUM_VOLTAGE_SAG_L2 : list Z := Eval cbv in bytes_of_string "1-0:52.32.0".
Definition OBIS_NUM_VOLTAGE_SAG_L3 : list Z := Eval cbv in bytes_of_string "1-0:72.32.0".
Definition OBIS_NUM_VOLTAGE_SWL_L1 : list Z := Eval cbv in bytes_of_string "1-0:32.36.0".
Definition OBIS_NUM_VOLTAGE_SWL_L2 : list Z := Eval cbv in bytes_of_string "1-0:52.36.0".
Definition OBIS_NUM_VOLTAGE_SWL_L3 : list Z := Eval cbv in bytes_of_string "1-0:72.36.0".
Definition OBIS_TEXT_MESSAGE : list Z := Eval cbv in bytes_of_string "0-0:96.13.0".
Definition OBIS_VOLTAGE_L1 : list Z := Eval cbv in bytes_of_string "1-0:32.7.0".
Definition OBIS_VOLTAGE_L2 : list Z := Eval cbv in bytes_of_string "1-0:52.7.0".
Definition OBIS_VOLTAGE_L3 : list Z := Eval cbv in bytes_of_string "1-0:72.7.0".
Definition OBIS_CURRENT_L1 : list Z := Eval cbv in bytes_of_string "1-0:31.7.0".
Definition OBIS_CURRENT_L2 : list Z := Eval cbv in bytes_of_string "1-0:51.7.0".
Definition OBIS_CURRENT_L3 : list Z := Eval cbv in bytes_of_string "1-0:71.7.0".
Definition OBIS_POWER_POS_L1 : list Z := Eval cbv in bytes_of_string "1-0:21.7.0".
Definition OBIS_POWER_POS_L2 : list Z := Eval cbv in bytes_of_string "1-0:41.7.0".
Definition OBIS_POWER_POS_L3 : list Z := Eval cbv in bytes_of_string "1-0:61.7.0".
Definition OBIS_POWER_NEG_L1 : list Z := Eval cbv in bytes_of_string "1-0:22.7.0".
Definition OBIS_POWER_NEG_L2 : list Z := Eval cbv in bytes_of_string "1-0:42.7.0".
Definition OBIS_POWER_NEG_L3 : list Z := Eval cbv in bytes_of_string "1-0:62.7.0".

(** OBIS codes sub devices *)
Definition OBIS_DEVICE_TYPE : list Z := Eval cbv in bytes_of_string ":24.1.0".
Definition OBIS_EQUIPMENT_IDENT : list Z := Eval cbv in bytes_of_string ":96.1.0".
Definition OBIS_DEVICE_VALUE : list Z := Eval cbv in bytes_of_string ":24.2.1".

(** OBIS device types *)
Definition OBIS_DEV_TYPE_GAS : Z := 3.
Definition OBIS_DEV_TYPE_THERMAL : Z := 4.
Definition OBIS_DEV_TYPE_WATER : Z := 255.

Definition BUFFER_SIZE : Z := 1024.

Inductive EMBusDeviceType : Set := Gas | Thermal | Water.

Definition EMBusDeviceType_value (t : EMBusDeviceType) : Z :=
  match t with
  | Gas => OBIS_DEV_TYPE_GAS
  | Thermal => OBIS_DEV_TYPE_THERMAL
  | Water => OBIS_DEV_TYPE_WATER
  end.

(** The characters written in the source as ['/'], ['!'], ... *)
Definition ch_LF : Z := 10.
Definition ch_CR : Z := 13.
Definition ch_bang : Z := 33.
Definition ch_lparen : Z := 40.
Definition ch_rparen : Z := 41.
Definition ch_star : Z := 42.
Definition ch_minus : Z := 45.
Definition ch_dot : Z := 46.
Definition ch_slash : Z := 47.

Module PowerFailureLogStruct.

Record t : Type := mk {
  DateTime : list Z;  (* char DateTime[14] *)
  Duration : LibC.double  (* double *)
}.

Definition set_DateTime (v : list Z) (r : t) : t :=
  {| DateTime := v; Duration := Duration r |}.
Definition set_Duration (v : LibC.double) (r : t) : t :=
  {| DateTime := DateTime r; Duration := v |}.

End PowerFailureLogStruct.

Module MBusReading.

Record t : Type := mk {
  DateTime : list Z;  (* char DateTime[14] *)
  Value : Z;  (* uint32_t *)
  Unit : list Z  (* char Unit[4] *)
}.

Definition set_DateTime (v : list Z) (r : t) : t :=
  {| DateTime := v; Value := Value r; Unit := Unit r |}.
Definition set_Value (v : Z) (r : t) : t :=
  {| DateTime := DateTime r; Value := v; Unit := Unit r |}.
Definition set_Unit (v : list Z) (r : t) : t :=
  {| DateTime := DateTime r; Value := Value r; Unit := v |}.

End MBusReading.

Module MBusDevice.

(** [DeviceType] holds the value of the enumeration that the cast
    [(EMBusDeviceType)strtoul(..)] stores: a number from 0 to 255, which
    need not be one of the three enumerators. *)
Record t : Type := mk {
  DeviceType : Z;  (* EMBusDeviceType *)
  EquipmentID : list Z;  (* String *)
  Reading : MBusReading.t
}.

Definition set_DeviceType (v : Z) (r : t) : t :=
  {| DeviceType := v; EquipmentID := EquipmentID r; Reading := Reading r |}.
Definition set_EquipmentID (v : list Z) (r : t) : t :=
  {| DeviceType := DeviceType r; EquipmentID := v; Reading := Reading r |}.
Definition set_Reading (v : MBusReading.t) (r : t) : t :=
  {| DeviceType := DeviceType r; EquipmentID := EquipmentID r;
     Reading := v |}.

End MBusDevice.

(** Full P1 data object parsed from the telegram. *)
Record P1Data : Type := mkP1Data {
  HeaderInfo : list Z;  (* String *)
  P1Version : Z;  (* byte *)
  DateTime : list Z;  (* char DateTime[14] *)
  EquipmentID : list Z;  (* String *)
  DeliveredTariff1 : Z;  (* uint32_t *)
  DeliveredTariff2 : Z;  (* uint32_t *)
  ProducedTariff1 : Z;  (* uint32_t *)
  ProducedTariff2 : Z;  (* uint32_t *)
  CurrentTariff : Z;  (* byte *)
  ActualDelivered : Z;  (* uint32_t *)
  ActualProduced : Z;  (* uint32_t *)
  PowerFailures : Z;  (* uint32_t *)
  LongPowerFailures : Z;  (* uint32_t *)
  PowerFailureLogs : list PowerFailureLogStruct.t;  (* [3] *)
  VoltageSags : list Z;  (* uint32_t [3] *)
  VoltageSwells : list Z;  (* uint32_t [3] *)
  TextMessage : list Z;  (* String *)
  Voltage : list Z;  (* uint32_t [3] *)
  Current : list Z;  (* uint32_t [3] *)
  PowerDelivered : list Z;  (* uint32_t [3] *)
  PowerProduced : list Z;  (* uint32_t [3] *)
  MBusDevices : list MBusDevice.t;  (* [3] *)
  CRC : Z;  (* uint16_t *)
  ValidCRC : bool;
  NumberOfMBusDevices : Z  (* byte *)
}.

Definition set_HeaderInfo (v : list Z) (r : P1Data) : P1Data :=
  {| HeaderInfo := v; P1Version := P1Version r; DateTime := DateTime r;
     EquipmentID := EquipmentID r; DeliveredTariff1 := DeliveredTariff1 r;
     DeliveredTariff2 := DeliveredTariff2 r;
     ProducedTariff1 := ProducedTariff1 r;
     ProducedTariff2 := ProducedTariff2 r; CurrentTariff := CurrentTariff r;
     ActualDelivered := ActualDelivered r;
     ActualProduced := ActualProduced r; PowerFailures := PowerFailures r;
     LongPowerFailures := LongPowerFailures r;
     PowerFailureLogs := PowerFailureLogs r; VoltageSags := VoltageSags r;
     VoltageSwells := VoltageSwells r; TextMessage := TextMessage r;
     Voltage := Voltage r; Current := Current r;
     PowerDelivered := PowerDelivered r; PowerProduced := PowerProduced r;
     MBusDevices := MBusDevices r; CRC := CRC r; ValidCRC := ValidCRC r;
     NumberOfMBusDevices := NumberOfMBusDevices r |}.
Definition set_P1Version (v : Z) (r : P1Data) : P1Data :=
  {| HeaderInfo := HeaderInfo r; P1Version := v; DateTime := DateTime r;
     EquipmentID := EquipmentID r; DeliveredTariff1 := DeliveredTariff1 r;
     DeliveredTariff2 := DeliveredTariff2 r;
     ProducedTariff1 := ProducedTariff1 r;
     ProducedTariff2 := ProducedTariff2 r; CurrentTariff := CurrentTariff r;
     ActualDelivered := ActualDelivered r;
     ActualProduced := ActualProduced r; PowerFailures := PowerFailures r;
     LongPowerFailures := LongPowerFailures r;
     PowerFailureLogs := PowerFailureLogs r; VoltageSags := VoltageSags r;
     VoltageSwells := VoltageSwells r; TextMessage := TextMessage r;
     Voltage := Voltage r; Current := Current r;
     PowerDelivered := PowerDelivered r; PowerProduced := PowerProduced r;
     MBusDevices := MBusDevices r; CRC := CRC r; ValidCRC := ValidCRC r;
     NumberOfMBusDevices := NumberOfMBusDevices r |}.
Definition set_DateTime (v : list Z) (r : P1Data) : P1Data :=
  {| HeaderInfo := HeaderInfo r; P1Version := P1Version r; DateTime := v;
     EquipmentID := EquipmentID r; DeliveredTariff1 := DeliveredTariff1 r;
     DeliveredTariff2 := DeliveredTariff2 r;
     ProducedTariff1 := ProducedTariff1 r;
     ProducedTariff2 := ProducedTariff2 r; CurrentTariff := CurrentTariff r;
     ActualDelivered := ActualDelivered r;
     ActualProduced := ActualProduced r; PowerFailures := PowerFailures r;
     LongPowerFailures := LongPowerFailures r;
     PowerFailureLogs := PowerFailureLogs r; VoltageSags := VoltageSags r;
     VoltageSwells := VoltageSwells r; TextMessage := TextMessage r;
     Voltage := Voltage r; Current := Current r;
     PowerDelivered := PowerDelivered r; PowerProduced := PowerProduced r;
     MBusDevices := MBusDevices r; CRC := CRC r; ValidCRC := ValidCRC r;
     NumberOfMBusDevices := NumberOfMBusDevices r |}.
Definition set_EquipmentID (v : list Z) (r : P1Data) : P1Data :=
  {| HeaderInfo := HeaderInfo r; P1Version := P1Version r;
     DateTime := DateTime r; EquipmentID := v;
     DeliveredTariff1 := DeliveredTariff1 r;
     DeliveredTariff2 := DeliveredTariff2 r;
     ProducedTariff1 := ProducedTariff1 r;
     ProducedTariff2 := ProducedTariff2 r; CurrentTariff := CurrentTariff r;
     ActualDelivered := ActualDelivered r;
     ActualProduced := ActualProduced r; PowerFailures := PowerFailures r;
     LongPowerFailures := LongPowerFailures r;
     PowerFailureLogs := PowerFailureLogs r; VoltageSags := VoltageSags r;
     VoltageSwells := VoltageSwells r; TextMessage := TextMessage r;
     Voltage := Voltage r; Current := Current r;
     PowerDelivered := PowerDelivered r; PowerProduced := PowerProduced r;
     MBusDevices := MBusDevices r; CRC := CRC r; ValidCRC := ValidCRC r;
     NumberOfMBusDevices := NumberOfMBusDevices r |}.
Definition set_DeliveredTariff1 (v : Z) (r : P1Data) : P1Data :=
  {| HeaderInfo := HeaderInfo r; P1Version := P1Version r;
     DateTime := DateTime r; EquipmentID := EquipmentID r;
     DeliveredTariff1 := v; DeliveredTariff2 := DeliveredTariff2 r;
     ProducedTariff1 := ProducedTariff1 r;
     ProducedTariff2 := ProducedTariff2 r; CurrentTariff := CurrentTariff r;
     ActualDelivered := ActualDelivered r;
     ActualProduced := ActualProduced r; PowerFailures := PowerFailures r;
     LongPowerFailures := LongPowerFailures r;
     PowerFailureLogs := PowerFailureLogs r; VoltageSags := VoltageSags r;
     VoltageSwells := VoltageSwells r; TextMessage := TextMessage r;
     Voltage := Voltage r; Current := Current r;
     PowerDelivered := PowerDelivered r; PowerProduced := PowerProduced r;
     MBusDevices := MBusDevices r; CRC := CRC r; ValidCRC := ValidCRC r;
     NumberOfMBusDevices := NumberOfMBusDevices r |}.
Definition set_DeliveredTariff2 (v : Z) (r : P1Data) : P1Data :=
  {| HeaderInfo := HeaderInfo r; P1Version := P1Version r;
     DateTime := DateTime r; EquipmentID := EquipmentID r;
     DeliveredTariff1 := DeliveredTariff1 r; DeliveredTariff2 := v;
     ProducedTariff1 := ProducedTariff1 r;
     ProducedTariff2 := ProducedTariff2 r; CurrentTariff := CurrentTariff r;
     ActualDelivered := ActualDelivered r;
     ActualProduced := ActualProduced r; PowerFailures := PowerFailures r;
     LongPowerFailures := LongPowerFailures r;
     PowerFailureLogs := PowerFailureLogs r; VoltageSags := VoltageSags r;
     VoltageSwells := VoltageSwells r; TextMessage := TextMessage r;
     Voltage := Voltage r; Current := Current r;
     PowerDelivered := PowerDelivered r; PowerProduced := PowerProduced r;
     MBusDevices := MBusDevices r; CRC := CRC r; ValidCRC := ValidCRC r;
     NumberOfMBusDevices := NumberOfMBusDevices r |}.
Definition set_ProducedTariff1 (v : Z) (r : P1Data) : P1Data :=
  {| HeaderInfo := HeaderInfo r; P1Version := P1Version r;
     DateTime := DateTime r; EquipmentID := EquipmentID r;
     DeliveredTariff1 := DeliveredTariff1 r;
     DeliveredTariff2 := DeliveredTariff2 r; ProducedTariff1 := v;
     ProducedTariff2 := ProducedTariff2 r; CurrentTariff := CurrentTariff r;
     ActualDelivered := ActualDelivered r;
     ActualProduced := ActualProduced r; PowerFailures := PowerFailures r;
     LongPowerFailures := LongPowerFailures r;
     PowerFailureLogs := PowerFailureLogs r; VoltageSags := VoltageSags r;
     VoltageSwells := VoltageSwells r; TextMessage := TextMessage r;
     Voltage := Voltage r; Current := Current r;
     PowerDelivered := PowerDelivered r; PowerProduced := PowerProduced r;
     MBusDevices := MBusDevices r; CRC := CRC r; ValidCRC := ValidCRC r;
     NumberOfMBusDevices := NumberOfMBusDevices r |}.
Definition set_ProducedTariff2 (v : Z) (r : P1Data) : P1Data :=
  {| HeaderInfo := HeaderInfo r; P1Version := P1Version r;
     DateTime := DateTime r; EquipmentID := EquipmentID r;
     DeliveredTariff1 := DeliveredTariff1 r;
     DeliveredTariff2 := DeliveredTariff2 r;
     ProducedTariff1 := ProducedTariff1 r; ProducedTariff2 := v;
     CurrentTariff := CurrentTariff r; ActualDelivered := ActualDelivered r;
     ActualProduced := ActualProduced r; PowerFailures := PowerFailures r;
     LongPowerFailures := LongPowerFailures r;
     PowerFailureLogs := PowerFailureLogs r; VoltageSags := VoltageSags r;
     VoltageSwells := VoltageSwells r; TextMessage := TextMessage r;
     Voltage := Voltage r; Current := Current r;
     PowerDelivered := PowerDelivered r; PowerProduced := PowerProduced r;
     MBusDevices := MBusDevices r; CRC := CRC r; ValidCRC := ValidCRC r;
     NumberOfMBusDevices := NumberOfMBusDevices r |}.
Definition set_CurrentTariff (v : Z) (r : P1Data) : P1Data :=
  {| HeaderInfo := HeaderInfo r; P1Version := P1Version r;
     DateTime := DateTime r; EquipmentID := EquipmentID r;
     DeliveredTariff1 := DeliveredTariff1 r;
     DeliveredTariff2 := DeliveredTariff2 r;
     ProducedTariff1 := ProducedTariff1 r;
     ProducedTariff2 := ProducedTariff2 r; CurrentTariff := v;
     ActualDelivered := ActualDelivered r;
     ActualProduced := ActualProduced r; PowerFailures := PowerFailures r;
     LongPowerFailures := LongPowerFailures r;
     PowerFailureLogs := PowerFailureLogs r; VoltageSags := VoltageSags r;
     VoltageSwells := VoltageSwells r; TextMessage := TextMessage r;
     Voltage := Voltage r; Current := Current r;
     PowerDelivered := PowerDelivered r; PowerProduced := PowerProduced r;
     MBusDevices := MBusDevices r; CRC := CRC r; ValidCRC := ValidCRC r;
     NumberOfMBusDevices := NumberOfMBusDevices r |}.
Definition set_ActualDelivered (v : Z) (r : P1Data) : P1Data :=
  {| HeaderInfo := HeaderInfo r; P1Version := P1Version r;
     DateTime := DateTime r; EquipmentID := EquipmentID r;
     DeliveredTariff1 := DeliveredTariff1 r;
     DeliveredTariff2 := DeliveredTariff2 r;
     ProducedTariff1 := ProducedTariff1 r;
     ProducedTariff2 := ProducedTariff2 r; CurrentTariff := CurrentTariff r;
     ActualDelivered := v; ActualProduced := ActualProduced r;
     PowerFailures := PowerFailures r;
     LongPowerFailures := LongPowerFailures r;
     PowerFailureLogs := PowerFailureLogs r; VoltageSags := VoltageSags r;
     VoltageSwells := VoltageSwells r; TextMessage := TextMessage r;
     Voltage := Voltage r; Current := Current r;
     PowerDelivered := PowerDelivered r; PowerProduced := PowerProduced r;
     MBusDevices := MBusDevices r; CRC := CRC r; ValidCRC := ValidCRC r;
     NumberOfMBusDevices := NumberOfMBusDevices r |}.
Definition set_ActualProduced (v : Z) (r : P1Data) : P1Data :=
  {| HeaderInfo := HeaderInfo r; P1Version := P1Version r;
     DateTime := DateTime r; EquipmentID := EquipmentID r;
     DeliveredTariff1 := DeliveredTariff1 r;
     DeliveredTariff2 := DeliveredTariff2 r;
     ProducedTariff1 := ProducedTariff1 r;
     ProducedTariff2 := ProducedTariff2 r; CurrentTariff := CurrentTariff r;
     ActualDelivered := ActualDelivered r; ActualProduced := v;
     PowerFailures := PowerFailures r;
     LongPowerFailures := LongPowerFailures r;
     PowerFailureLogs := PowerFailureLogs r; VoltageSags := VoltageSags r;
     VoltageSwells := VoltageSwells r; TextMessage := TextMessage r;
     Voltage := Voltage r; Current := Current r;
     PowerDelivered := PowerDelivered r; PowerProduced := PowerProduced r;
     MBusDevices := MBusDevices r; CRC := CRC r; ValidCRC := ValidCRC r;
     NumberOfMBusDevices := NumberOfMBusDevices r |}.
Definition set_PowerFailures (v : Z) (r : P1Data) : P1Data :=
  {| HeaderInfo := HeaderInfo r; P1Version := P1Version r;
     DateTime := DateTime r; EquipmentID := EquipmentID r;
     DeliveredTariff1 := DeliveredTariff1 r;
     DeliveredTariff2 := DeliveredTariff2 r;
     ProducedTariff1 := ProducedTariff1 r;
     ProducedTariff2 := ProducedTariff2 r; CurrentTariff := CurrentTariff r;
     ActualDelivered := ActualDelivered r;
     ActualProduced := ActualProduced r; PowerFailures := v;
     LongPowerFailures := LongPowerFailures r;
     PowerFailureLogs := PowerFailureLogs r; VoltageSags := VoltageSags r;
     VoltageSwells := VoltageSwells r; TextMessage := TextMessage r;
     Voltage := Voltage r; Current := Current r;
     PowerDelivered := PowerDelivered r; PowerProduced := PowerProduced r;
     MBusDevices := MBusDevices r; CRC := CRC r; ValidCRC := ValidCRC r;
     NumberOfMBusDevices := NumberOfMBusDevices r |}.
Definition set_LongPowerFailures (v : Z) (r : P1Data) : P1Data :=
  {| HeaderInfo := HeaderInfo r; P1Version := P1Version r;
     DateTime := DateTime r; EquipmentID := EquipmentID r;
     DeliveredTariff1 := DeliveredTariff1 r;
     DeliveredTariff2 := DeliveredTariff2 r;
     ProducedTariff1 := ProducedTariff1 r;
     ProducedTariff2 := ProducedTariff2 r; CurrentTariff := CurrentTariff r;
     ActualDelivered := ActualDelivered r;
     ActualProduced := ActualProduced r; PowerFailures := PowerFailures r;
     LongPowerFailures := v; PowerFailureLogs := PowerFailureLogs r;
     VoltageSags := VoltageSags r; VoltageSwells := VoltageSwells r;
     TextMessage := TextMessage r; Voltage := Voltage r;
     Current := Current r; PowerDelivered := PowerDelivered r;
     PowerProduced := PowerProduced r; MBusDevices := MBusDevices r;
     CRC := CRC r; ValidCRC := ValidCRC r;
     NumberOfMBusDevices := NumberOfMBusDevices r |}.
Definition set_PowerFailureLogs (v : list PowerFailureLogStruct.t) (r : P1Data) : P1Data :=
  {| HeaderInfo := HeaderInfo r; P1Version := P1Version r;
     DateTime := DateTime r; EquipmentID := EquipmentID r;
     DeliveredTariff1 := DeliveredTariff1 r;
     DeliveredTariff2 := DeliveredTariff2 r;
     ProducedTariff1 := ProducedTariff1 r;
     ProducedTariff2 := ProducedTariff2 r; CurrentTariff := CurrentTariff r;
     ActualDelivered := ActualDelivered r;
     ActualProduced := ActualProduced r; PowerFailures := PowerFailures r;
     LongPowerFailures := LongPowerFailures r; PowerFailureLogs := v;
     VoltageSags := VoltageSags r; VoltageSwells := VoltageSwells r;
     TextMessage := TextMessage r; Voltage := Voltage r;
     Current := Current r; PowerDelivered := PowerDelivered r;
     PowerProduced := PowerProduced r; MBusDevices := MBusDevices r;
     CRC := CRC r; ValidCRC := ValidCRC r;
     NumberOfMBusDevices := NumberOfMBusDevices r |}.
Definition set_VoltageSags (v : list Z) (r : P1Data) : P1Data :=
  {| HeaderInfo := HeaderInfo r; P1Version := P1Version r;
     DateTime := DateTime r; EquipmentID := EquipmentID r;
     DeliveredTariff1 := DeliveredTariff1 r;
     DeliveredTariff2 := DeliveredTariff2 r;
     ProducedTariff1 := ProducedTariff1 r;
     ProducedTariff2 := ProducedTariff2 r; CurrentTariff := CurrentTariff r;
     ActualDelivered := ActualDelivered r;
     ActualProduced := ActualProduced r; PowerFailures := PowerFailures r;
     LongPowerFailures := LongPowerFailures r;
     PowerFailureLogs := PowerFailureLogs r; VoltageSags := v;
     VoltageSwells := VoltageSwells r; TextMessage := TextMessage r;
     Voltage := Voltage r; Current := Current r;
     PowerDelivered := PowerDelivered r; PowerProduced := PowerProduced r;
     MBusDevices := MBusDevices r; CRC := CRC r; ValidCRC := ValidCRC r;
     NumberOfMBusDevices := NumberOfMBusDevices r |}.
Definition set_VoltageSwells (v : list Z) (r : P1Data) : P1Data :=
  {| HeaderInfo := HeaderInfo r; P1Version := P1Version r;
     DateTime := DateTime r; EquipmentID := EquipmentID r;
     DeliveredTariff1 := DeliveredTariff1 r;
     DeliveredTariff2 := DeliveredTariff2 r;
     ProducedTariff1 := ProducedTariff1 r;
     ProducedTariff2 := ProducedTariff2 r; CurrentTariff := CurrentTariff r;
     ActualDelivered := ActualDelivered r;
     ActualProduced := ActualProduced r; PowerFailures := PowerFailures r;
     LongPowerFailures := LongPowerFailures r;
     PowerFailureLogs := PowerFailureLogs r; VoltageSags := VoltageSags r;
     VoltageSwells := v; TextMessage := TextMessage r; Voltage := Voltage r;
     Current := Current r; PowerDelivered := PowerDelivered r;
     PowerProduced := PowerProduced r; MBusDevices := MBusDevices r;
     CRC := CRC r; ValidCRC := ValidCRC r;
     NumberOfMBusDevices := NumberOfMBusDevices r |}.
Definition set_TextMessage (v : list Z) (r : P1Data) : P1Data :=
  {| HeaderInfo := HeaderInfo r; P1Version := P1Version r;
     DateTime := DateTime r; EquipmentID := EquipmentID r;
     DeliveredTariff1 := DeliveredTariff1 r;
     DeliveredTariff2 := DeliveredTariff2 r;
     ProducedTariff1 := ProducedTariff1 r;
     ProducedTariff2 := ProducedTariff2 r; CurrentTariff := CurrentTariff r;
     ActualDelivered := ActualDelivered r;
     ActualProduced := ActualProduced r; PowerFailures := PowerFailures r;
     LongPowerFailures := LongPowerFailures r;
     PowerFailureLogs := PowerFailureLogs r; VoltageSags := VoltageSags r;
     VoltageSwells := VoltageSwells r; TextMessage := v;
     Voltage := Voltage r; Current := Current r;
     PowerDelivered := PowerDelivered r; PowerProduced := PowerProduced r;
     MBusDevices := MBusDevices r; CRC := CRC r; ValidCRC := ValidCRC r;
     NumberOfMBusDevices := NumberOfMBusDevices r |}.
Definition set_Voltage (v : list Z) (r : P1Data) : P1Data :=
  {| HeaderInfo := HeaderInfo r; P1Version := P1Version r;
     DateTime := DateTime r; EquipmentID := EquipmentID r;
     DeliveredTariff1 := DeliveredTariff1 r;
     DeliveredTariff2 := DeliveredTariff2 r;
     ProducedTariff1 := ProducedTariff1 r;
     ProducedTariff2 := ProducedTariff2 r; CurrentTariff := CurrentTariff r;
     ActualDelivered := ActualDelivered r;
     ActualProduced := ActualProduced r; PowerFailures := PowerFailures r;
     LongPowerFailures := LongPowerFailures r;
     PowerFailureLogs := PowerFailureLogs r; VoltageSags := VoltageSags r;
     VoltageSwells := VoltageSwells r; TextMessage := TextMessage r;
     Voltage := v; Current := Current r; PowerDelivered := PowerDelivered r;
     PowerProduced := PowerProduced r; MBusDevices := MBusDevices r;
     CRC := CRC r; ValidCRC := ValidCRC r;
     NumberOfMBusDevices := NumberOfMBusDevices r |}.
Definition set_Current (v : list Z) (r : P1Data) : P1Data :=
  {| HeaderInfo := HeaderInfo r; P1Version := P1Version r;
     DateTime := DateTime r; EquipmentID := EquipmentID r;
     DeliveredTariff1 := DeliveredTariff1 r;
     DeliveredTariff2 := DeliveredTariff2 r;
     ProducedTariff1 := ProducedTariff1 r;
     ProducedTariff2 := ProducedTariff2 r; CurrentTariff := CurrentTariff r;
     ActualDelivered := ActualDelivered r;
     ActualProduced := ActualProduced r; PowerFailures := PowerFailures r;
     LongPowerFailures := LongPowerFailures r;
     PowerFailureLogs := PowerFailureLogs r; VoltageSags := VoltageSags r;
     VoltageSwells := VoltageSwells r; TextMessage := TextMessage r;
     Voltage := Voltage r; Current := v; PowerDelivered := PowerDelivered r;
     PowerProduced := PowerProduced r; MBusDevices := MBusDevices r;
     CRC := CRC r; ValidCRC := ValidCRC r;
     NumberOfMBusDevices := NumberOfMBusDevices r |}.
Definition set_PowerDelivered (v : list Z) (r : P1Data) : P1Data :=
  {| HeaderInfo := HeaderInfo r; P1Version := P1Version r;
     DateTime := DateTime r; EquipmentID := EquipmentID r;
     DeliveredTariff1 := DeliveredTariff1 r;
     DeliveredTariff2 := DeliveredTariff2 r;
     ProducedTariff1 := ProducedTariff1 r;
     ProducedTariff2 := ProducedTariff2 r; CurrentTariff := CurrentTariff r;
     ActualDelivered := ActualDelivered r;
     ActualProduced := ActualProduced r; PowerFailures := PowerFailures r;
     LongPowerFailures := LongPowerFailures r;
     PowerFailureLogs := PowerFailureLogs r; VoltageSags := VoltageSags r;
     VoltageSwells := VoltageSwells r; TextMessage := TextMessage r;
     Voltage := Voltage r; Current := Current r; PowerDelivered := v;
     PowerProduced := PowerProduced r; MBusDevices := MBusDevices r;
     CRC := CRC r; ValidCRC := ValidCRC r;
     NumberOfMBusDevices := NumberOfMBusDevices r |}.
Definition set_PowerProduced (v : list Z) (r : P1Data) : P1Data :=
  {| HeaderInfo := HeaderInfo r; P1Version := P1Version r;
     DateTime := DateTime r; EquipmentID := EquipmentID r;
     DeliveredTariff1 := DeliveredTariff1 r;
     DeliveredTariff2 := DeliveredTariff2 r;
     ProducedTariff1 := ProducedTariff1 r;
     ProducedTariff2 := ProducedTariff2 r; CurrentTariff := CurrentTariff r;
     ActualDelivered := ActualDelivered r;
     ActualProduced := ActualProduced r; PowerFailures := PowerFailures r;
     LongPowerFailures := LongPowerFailures r;
     PowerFailureLogs := PowerFailureLogs r; VoltageSags := VoltageSags r;
     VoltageSwells := VoltageSwells r; TextMessage := TextMessage r;
     Voltage := Voltage r; Current := Current r;
     PowerDelivered := PowerDelivered r; PowerProduced := v;
     MBusDevices := MBusDevices r; CRC := CRC r; ValidCRC := ValidCRC r;
     NumberOfMBusDevices := NumberOfMBusDevices r |}.
Definition set_MBusDevices (v : list MBusDevice.t) (r : P1Data) : P1Data :=
  {| HeaderInfo := HeaderInfo r; P1Version := P1Version r;
     DateTime := DateTime r; EquipmentID := EquipmentID r;
     DeliveredTariff1 := DeliveredTariff1 r;
     DeliveredTariff2 := DeliveredTariff2 r;
     ProducedTariff1 := ProducedTariff1 r;
     ProducedTariff2 := ProducedTariff2 r; CurrentTariff := CurrentTariff r;
     ActualDelivered := ActualDelivered r;
     ActualProduced := ActualProduced r; PowerFailures := PowerFailures r;
     LongPowerFailures := LongPowerFailures r;
     PowerFailureLogs := PowerFailureLogs r; VoltageSags := VoltageSags r;
     VoltageSwells := VoltageSwells r; TextMessage := TextMessage r;
     Voltage := Voltage r; Current := Current r;
     PowerDelivered := PowerDelivered r; PowerProduced := PowerProduced r;
     MBusDevices := v; CRC := CRC r; ValidCRC := ValidCRC r;
     NumberOfMBusDevices := NumberOfMBusDevices r |}.
Definition set_CRC (v : Z) (r : P1Data) : P1Data :=
  {| HeaderInfo := HeaderInfo r; P1Version := P1Version r;
     DateTime := DateTime r; EquipmentID := EquipmentID r;
     DeliveredTariff1 := DeliveredTariff1 r;
     DeliveredTariff2 := DeliveredTariff2 r;
     ProducedTariff1 := ProducedTariff1 r;
     ProducedTariff2 := ProducedTariff2 r; CurrentTariff := CurrentTariff r;
     ActualDelivered := ActualDelivered r;
     ActualProduced := ActualProduced r; PowerFailures := PowerFailures r;
     LongPowerFailures := LongPowerFailures r;
     PowerFailureLogs := PowerFailureLogs r; VoltageSags := VoltageSags r;
     VoltageSwells := VoltageSwells r; TextMessage := TextMessage r;
     Voltage := Voltage r; Current := Current r;
     PowerDelivered := PowerDelivered r; PowerProduced := PowerProduced r;
     MBusDevices := MBusDevices r; CRC := v; ValidCRC := ValidCRC r;
     NumberOfMBusDevices := NumberOfMBusDevices r |}.
Definition set_ValidCRC (v : bool) (r : P1Data) : P1Data :=
  {| HeaderInfo := HeaderInfo r; P1Version := P1Version r;
     DateTime := DateTime r; EquipmentID := EquipmentID r;
     DeliveredTariff1 := DeliveredTariff1 r;
     DeliveredTariff2 := DeliveredTariff2 r;
     ProducedTariff1 := ProducedTariff1 r;
     ProducedTariff2 := ProducedTariff2 r; CurrentTariff := CurrentTariff r;
     ActualDelivered := ActualDelivered r;
     ActualProduced := ActualProduced r; PowerFailures := PowerFailures r;
     LongPowerFailures := LongPowerFailures r;
     PowerFailureLogs := PowerFailureLogs r; VoltageSags := VoltageSags r;
     VoltageSwells := VoltageSwells r; TextMessage := TextMessage r;
     Voltage := Voltage r; Current := Current r;
     PowerDelivered := PowerDelivered r; PowerProduced := PowerProduced r;
     MBusDevices := MBusDevices r; CRC := CRC r; ValidCRC := v;
     NumberOfMBusDevices := NumberOfMBusDevices r |}.
Definition set_NumberOfMBusDevices (v : Z) (r : P1Data) : P1Data :=
  {| HeaderInfo := HeaderInfo r; P1Version := P1Version r;
     DateTime := DateTime r; EquipmentID := EquipmentID r;
     DeliveredTariff1 := DeliveredTariff1 r;
     DeliveredTariff2 := DeliveredTariff2 r;
     ProducedTariff1 := ProducedTariff1 r;
     ProducedTariff2 := ProducedTariff2 r; CurrentTariff := CurrentTariff r;
     ActualDelivered := ActualDelivered r;
     ActualProduced := ActualProduced r; PowerFailures := PowerFailures r;
     LongPowerFailures := LongPowerFailures r;
     PowerFailureLogs := PowerFailureLogs r; VoltageSags := VoltageSags r;
     VoltageSwells := VoltageSwells r; TextMessage := TextMessage r;
     Voltage := Voltage r; Current := Current r;
     PowerDelivered := PowerDelivered r; PowerProduced := PowerProduced r;
     MBusDevices := MBusDevices r; CRC := CRC r; ValidCRC := ValidCRC r;
     NumberOfMBusDevices := v |}.

(** The pin operations of the optional CTS line. *)
Inductive pin_event : Set :=
  | PinMode (pin : Z) (output : bool)
  | DigitalWrite (pin : Z) (high : bool).

(** The members of class [P1Meter], and two parts of its surroundings:
    [heap_before], the five bytes of memory just below the allocation of
    [buffer] (position [-1] first), which the lookbehind of
    [ReceiveTelegram] reads while fewer than six bytes are stored, and
    [pin_log], the pin operations issued so far (latest first).  The
    serial port [mySerial] is the list of bytes passed to
    [ReceiveTelegram]. *)
Record P1Meter : Type := mkP1Meter {
  buffer : list Z;  (* char *buffer, BUFFER_SIZE + 1 bytes *)
  heap_before : list Z;
  bufferIndex : Z;  (* int16_t *)
  data : P1Data;
  DataReady : bool;
  ctsPin : Z;  (* uint8_t *)
  ctsHigh : bool;
  pin_log : list pin_event
}.

Definition set_buffer (v : list Z) (r : P1Meter) : P1Meter :=
  {| buffer := v; heap_before := heap_before r; bufferIndex := bufferIndex r;
     data := data r; DataReady := DataReady r; ctsPin := ctsPin r;
     ctsHigh := ctsHigh r; pin_log := pin_log r |}.
Definition set_heap_before (v : list Z) (r : P1Meter) : P1Meter :=
  {| buffer := buffer r; heap_before := v; bufferIndex := bufferIndex r;
     data := data r; DataReady := DataReady r; ctsPin := ctsPin r;
     ctsHigh := ctsHigh r; pin_log := pin_log r |}.
Definition set_bufferIndex (v : Z) (r : P1Meter) : P1Meter :=
  {| buffer := buffer r; heap_before := heap_before r; bufferIndex := v;
     data := data r; DataReady := DataReady r; ctsPin := ctsPin r;
     ctsHigh := ctsHigh r; pin_log := pin_log r |}.
Definition set_data (v : P1Data) (r : P1Meter) : P1Meter :=
  {| buffer := buffer r; heap_before := heap_before r;
     bufferIndex := bufferIndex r; data := v; DataReady := DataReady r;
     ctsPin := ctsPin r; ctsHigh := ctsHigh r; pin_log := pin_log r |}.
Definition set_DataReady (v : bool) (r : P1Meter) : P1Meter :=
  {| buffer := buffer r; heap_before := heap_before r;
     bufferIndex := bufferIndex r; data := data r; DataReady := v;
     ctsPin := ctsPin r; ctsHigh := ctsHigh r; pin_log := pin_log r |}.
Definition set_ctsPin (v : Z) (r : P1Meter) : P1Meter :=
  {| buffer := buffer r; heap_before := heap_before r;
     bufferIndex := bufferIndex r; data := data r; DataReady := DataReady r;
     ctsPin := v; ctsHigh := ctsHigh r; pin_log := pin_log r |}.
Definition set_ctsHigh (v : bool) (r : P1Meter) : P1Meter :=
  {| buffer := buffer r; heap_before := heap_before r;
     bufferIndex := bufferIndex r; data := data r; DataReady := DataReady r;
     ctsPin := ctsPin r; ctsHigh := v; pin_log := pin_log r |}.
Definition set_pin_log (v : list pin_event) (r : P1Meter) : P1Meter :=
  {| buffer := buffer r; heap_before := heap_before r;
     bufferIndex := bufferIndex r; data := data r; DataReady := DataReady r;
     ctsPin := ctsPin r; ctsHigh := ctsHigh r; pin_log := v |}.
(** ** P1Meter.cpp *)

(** *** Arrays and pointers *)

Fixpoint list_set {A : Type} (l : list A) (i : nat) (v : A) : list A :=
  match l, i with
  | [], _ => []
  | _ :: l', O => v :: l'
  | x :: l', S i' => x :: list_set l' i' v
  end.

Definition in_bounds {A : Type} (l : list A) (i : Z) : bool :=
  (0 <=? i) && (i <? Z.of_nat (length l)).

(** [a[i]] read. *)
Definition load (o : object) (l : list Z) (i : Z) : result Z :=
  if in_bounds l i then Ok (nth (Z.to_nat i) l 0) else Fault o i.

(** [a[i] = v]. *)
Definition store {A : Type} (o : object) (l : list A) (i : Z) (v : A)
  : result (list A) :=
  if in_bounds l i then Ok (list_set l (Z.to_nat i) v) else Fault o i.

(** An assignment to a member of [a[i]]. *)
Definition update_elem {A : Type} (o : object) (l : list A) (i : Z)
    (f : A -> result A) : result (list A) :=
  match (if in_bounds l i then nth_error l (Z.to_nat i) else None) with
  | Some x => x' <- f x ;; Ok (list_set l (Z.to_nat i) x')
  | None => Fault o i
  end.

(** The pointer [a + i]: the bytes from position [i] to the end of [a]. *)
Definition ptr (o : object) (l : list Z) (i : Z) : result (list Z) :=
  if (0 <=? i) && (i <=? Z.of_nat (length l))
  then Ok (skipn (Z.to_nat i) l) else Fault o i.

(** A library call that ran past the end of the array it was given. *)
Definition past_end {A : Type} (o : object) (l : list Z) (r : option A)
  : result A :=
  match r with
  | Some a => Ok a
  | None => Fault o (Z.of_nat (length l))
  end.

(** The bytes of a [strncpy] stored at [dst + off]. *)
Definition store_bytes (o : object) (dst : list Z) (off : Z) (bytes : list Z)
  : result (list Z) :=
  if (0 <=? off) && (off + Z.of_nat (length bytes) <=? Z.of_nat (length dst))
  then Ok (firstn (Z.to_nat off) dst ++ bytes
           ++ skipn (Z.to_nat off + length bytes) dst)
  else Fault o (Z.of_nat (length dst)).

(** *** Construction *)

Definition PowerFailureLog_zero : PowerFailureLogStruct.t :=
  PowerFailureLogStruct.mk (repeat 0 14) LibC.double_zero.

Definition MBusDevice_zero : MBusDevice.t :=
  MBusDevice.mk 0 [] (MBusReading.mk (repeat 0 14) 0 (repeat 0 4)).

(** The zero-initialised [data] member of a meter object. *)
Definition P1Data_zero : P1Data :=
  {| HeaderInfo := []; P1Version := 0; DateTime := repeat 0 14;
     EquipmentID := []; DeliveredTariff1 := 0; DeliveredTariff2 := 0;
     ProducedTariff1 := 0; ProducedTariff2 := 0; CurrentTariff := 0;
     ActualDelivered := 0; ActualProduced := 0; PowerFailures := 0;
     LongPowerFailures := 0;
     PowerFailureLogs := repeat PowerFailureLog_zero 3;
     VoltageSags := repeat 0 3; VoltageSwells := repeat 0 3;
     TextMessage := []; Voltage := repeat 0 3; Current := repeat 0 3;
     PowerDelivered := repeat 0 3; PowerProduced := repeat 0 3;
     MBusDevices := repeat MBusDevice_zero 3;
     CRC := 0; ValidCRC := false; NumberOfMBusDevices := 0 |}.

(** [memset(buffer, 0, BUFFER_SIZE)]: the byte at [BUFFER_SIZE], the last
    of the [BUFFER_SIZE + 1] allocated, is not touched. *)
Definition memset_buffer (buf : list Z) : result (list Z) :=
  if BUFFER_SIZE <=? Z.of_nat (length buf)
  then Ok (repeat 0 (Z.to_nat BUFFER_SIZE) ++ skipn (Z.to_nat BUFFER_SIZE) buf)
  else Fault Buffer (Z.of_nat (length buf)).

(** The two constructors.  [realloc] hands out [BUFFER_SIZE + 1] bytes of
    unspecified contents, of which [memset] clears the first [BUFFER_SIZE]:
    [last] is the byte that stays as it was. *)
Definition P1Meter_new_with_pin (heap : list Z) (last : Z) (pin : Z)
  : P1Meter :=
  {| buffer := repeat 0 (Z.to_nat BUFFER_SIZE) ++ [last];
     heap_before := heap; bufferIndex := 0; data := P1Data_zero;
     DataReady := false; ctsPin := to_u8 pin; ctsHigh := false;
     pin_log := [] |}.

Definition P1Meter_new (heap : list Z) (last : Z) : P1Meter :=
  P1Meter_new_with_pin heap last 0xFF.

(** *** ReceiveTelegram *)

Inductive outcome : Type :=
  | Returned (m : P1Meter) (serial : list Z) (* with the bytes not yet read *)
  | Blocked (m : P1Meter)       (* waits for a byte that does not arrive *)
  | Faulted (o : object) (index : Z).

(** [buffer[bufferIndex - 6]]: below position 0 the read leaves the
    buffer and sees the memory in front of it. *)
Definition lookbehind (m : P1Meter) (i : Z) : result Z :=
  if 0 <=? i then load Buffer (buffer m) i
  else match nth_error (heap_before m) (Z.to_nat (- i - 1)) with
       | Some b => Ok b
       | None => Fault Buffer i
       end.

(** The ready transition: [DataReady = true] and the CTS pin released. *)
Definition make_ready (m : P1Meter) : P1Meter :=
  let m := set_DataReady true m in
  if negb (ctsPin m =? 0xFF)
  then set_ctsHigh false (set_pin_log (PinMode (ctsPin m) false :: pin_log m) m)
  else m.

(** The body of the receive loop once a byte is available:
    [buffer[bufferIndex] = mySerial->read();] and the test of the byte six
    positions back. *)
Definition receive_byte (m : P1Meter) (b : Z) : result P1Meter :=
  buf' <- store Buffer (buffer m) (bufferIndex m) (to_u8 b) ;;
  let m := set_buffer buf' m in
  c <- lookbehind m (bufferIndex m - 6) ;;
  if c =? ch_bang then Ok (make_ready m)
  else Ok (set_bufferIndex (to_i16 (bufferIndex m + 1)) m).

(** [while (!DataReady)]: every byte of [serial] is one pass in which
    [available()] held; when [serial] is used up the loop spins forever. *)
Fixpoint receive_loop (serial : list Z) (m : P1Meter) : outcome :=
  if DataReady m then Returned m serial
  else
    match serial with
    | [] => Blocked m
    | b :: serial' =>
        match receive_byte m b with
        | Ok m' => receive_loop serial' m'
        | Fault o i => Faulted o i
        | OutOfFuel => Faulted Buffer (bufferIndex m)
        end
    end.

Definition raise_cts (m : P1Meter) : P1Meter :=
  if negb (ctsHigh m) && negb (ctsPin m =? 0xFF)
  then set_ctsHigh true
         (set_pin_log (DigitalWrite (ctsPin m) true
                       :: PinMode (ctsPin m) true :: pin_log m) m)
  else m.

(** [serial] holds the bytes the port delivers, the first of them
    available at the call when there is one. *)
Definition ReceiveTelegram (m : P1Meter) (serial : list Z) : outcome :=
  let m := raise_cts m in
  match serial with
  | [] => Returned m []
  | d :: serial' =>
      if negb (to_u8 d =? ch_slash) then Returned m serial'
      else
        match store Buffer (buffer m) 0 (to_u8 d) with
        | Ok buf' =>
            receive_loop serial' (set_bufferIndex 1 (set_buffer buf' m))
        | _ => Faulted Buffer 0
        end
  end.

Definition GetBuffer (m : P1Meter) : list Z := buffer m.

Definition GetBufferLength (m : P1Meter) : Z := bufferIndex m.

(** *** Helper functions *)

Definition calcCRC16 (char_signed : bool) (buf : list Z) (len : Z) : result Z :=
  CRC16.CRC16_IBM_REVERSED char_signed buf (to_u16 len).

Definition indexOf (buf : list Z) (character : Z) (startIndex : Z) : result Z :=
  let startIndex := to_i16 startIndex in
  s <- ptr Buffer buf startIndex ;;
  temp <- past_end Buffer buf (LibC.strchr s (to_u8 character)) ;;
  match temp with
  | None => Ok (-1)
  | Some k => Ok (to_i16 (startIndex + Z.of_nat k))
  end.

Definition lastIndexOf (buf : list Z) (character : Z) (fromIndex : Z)
  : result Z :=
  let fromIndex := to_u16 fromIndex in
  s <- ptr Buffer buf fromIndex ;;
  temp <- past_end Buffer buf (LibC.strrchr s (to_u8 character)) ;;
  match temp with
  | None => Ok (-1)
  | Some k => Ok (to_i16 (fromIndex + Z.of_nat k))
  end.

Definition startsWith (buf : list Z) (findString : list Z) (offset : Z)
  : result bool :=
  s <- ptr Buffer buf (to_u16 offset) ;;
  past_end Buffer buf (LibC.strncmp_eq s findString).

(** [getSubString]: the byte at [endIndex] is replaced by NUL while the
    string is copied and put back afterwards, so the buffer is unchanged. *)
Definition getSubString (buf : list Z) (startIndex endIndex : Z)
  : result (list Z) :=
  let startIndex := to_u16 startIndex in
  let endIndex := to_u16 endIndex in
  cut <- store Buffer buf endIndex 0 ;;
  s <- ptr Buffer cut startIndex ;;
  past_end Buffer cut (LibC.cstring s).

(** *** The decode rules of ProcessTelegram

    The branches of [ProcessTelegram] repeat a few statements with
    different constants; each of them is one definition here. *)

(** [strtoul(&buffer[i], NULL, base)] *)
Definition number_at (buf : list Z) (i : Z) (base : Z) : result Z :=
  s <- ptr Buffer buf i ;;
  past_end Buffer buf (LibC.strtoul s base).

(** [strtoul(&buffer[indexOf(c, startOfLine) + 1], NULL, 10)] *)
Definition number_after (buf : list Z) (c : Z) (startOfLine : Z) : result Z :=
  i <- indexOf buf c startOfLine ;;
  number_at buf (i + 1) 10.

(** The bytes stored by [strncpy(dst, buffer + i, n)]. *)
Definition copy_from (buf : list Z) (i : Z) (n : nat) : result (list Z) :=
  s <- ptr Buffer buf i ;;
  past_end Buffer buf (LibC.strncpy s n).

(** The fixed-point rule, with [valueBuffer] cleared by the [memset] at the
    top of the loop body:
    [strncpy(valueBuffer, buffer + lparen + 1, whole);]
    [strncpy(&valueBuffer[whole], buffer + indexOf('.', dotFrom) + 1, frac);]
    [strtoul(valueBuffer, NULL, 10)] *)
Definition fixed_point (buf : list Z) (lparen dotFrom : Z) (whole frac : nat)
  : result Z :=
  a <- copy_from buf (lparen + 1) whole ;;
  valueBuffer <- store_bytes ValueBuffer (repeat 0 10) 0 a ;;
  dot <- indexOf buf ch_dot dotFrom ;;
  b <- copy_from buf (dot + 1) frac ;;
  valueBuffer <- store_bytes ValueBuffer valueBuffer (Z.of_nat whole) b ;;
  v <- past_end ValueBuffer valueBuffer (LibC.strtoul valueBuffer 10) ;;
  Ok (to_u32 v).

(** The rule of the energy, power and voltage lines. *)
Definition fixed_point_line (buf : list Z) (startOfLine : Z) (whole frac : nat)
  : result Z :=
  lparen <- indexOf buf ch_lparen startOfLine ;;
  fixed_point buf lparen (startOfLine + 10) whole frac.

(** [getSubString(indexOf('(', startOfLine) + 1, endOfLine - 2)] *)
Definition text_field (buf : list Z) (startOfLine endOfLine : Z)
  : result (list Z) :=
  lparen <- indexOf buf ch_lparen startOfLine ;;
  getSubString buf (lparen + 1) (endOfLine - 2).

(** [strncpy(dst.DateTime, buffer + i, 13)] *)
Definition copy_stamp (buf : list Z) (i : Z) (dst : list Z) : result (list Z) :=
  stamp <- copy_from buf i 13 ;;
  store_bytes DateTimeField dst 0 stamp.

(** The body of the loop over the power failure log, run [n] more times
    from counter [i]. *)
Fixpoint power_log_loop (n : nat) (buf : list Z) (i : Z) (index2 : Z)
    (d : P1Data) : result P1Data :=
  match n with
  | O => Ok d
  | S n' =>
      found <- indexOf buf ch_lparen (index2 + 1) ;;
      let index1 := to_u16 found in
      logs <- update_elem PowerFailureLogsArray (PowerFailureLogs d) i
                (fun e =>
                   stamp <- copy_stamp buf (index1 + 1)
                              (PowerFailureLogStruct.DateTime e) ;;
                   Ok (PowerFailureLogStruct.set_DateTime stamp e)) ;;
      let d := set_PowerFailureLogs logs d in
      found <- indexOf buf ch_lparen (index1 + 1) ;;
      let index2 := to_u16 found in
      logs <- update_elem PowerFailureLogsArray (PowerFailureLogs d) i
                (fun e =>
                   s <- ptr Buffer buf (index2 + 1) ;;
                   dur <- past_end Buffer buf (LibC.strtod s) ;;
                   Ok (PowerFailureLogStruct.set_Duration dur e)) ;;
      power_log_loop n' buf (to_u8 (i + 1)) index2
        (set_PowerFailureLogs logs d)
  end.

Definition power_log (buf : list Z) (startOfLine : Z) (d : P1Data)
  : result P1Data :=
  lparen <- indexOf buf ch_lparen startOfLine ;;
  let index1 := to_u16 (lparen + 1) in
  let index2 := to_u16 (index1 + 3) in
  count <- number_at buf index1 10 ;;
  let numberOfLogs := to_u8 count in
  power_log_loop (Z.to_nat numberOfLogs) buf 0 index2 d.

(** [int8_t currentDeviceNumber =
       strtoul(&buffer[indexOf('-', startOfLine) + 1], NULL, 10)] *)
Definition device_number (buf : list Z) (startOfLine : Z) : result Z :=
  v <- number_after buf ch_minus startOfLine ;;
  Ok (to_i8 v).

(** [(EMBusDeviceType)v] for an [unsigned long] [v].  The enumeration has
    no fixed underlying type, so its values are those of the smallest
    bit-field that holds its enumerators 3, 4 and 255: 0 to 255, and a
    number among them is kept.  What the conversion of a larger number
    gives is not settled by the language (an unspecified value before
    C++17, undefined since then) and differs with the width of [int],
    16 bits on the AVR boards and 32 on the others: it is a fault here. *)
Definition to_EMBusDeviceType (v : Z) : result Z :=
  if (0 <=? v) && (v <=? OBIS_DEV_TYPE_WATER) then Ok v
  else Fault DeviceTypeValues v.

Definition mbus_device_type (buf : list Z) (startOfLine : Z) (d : P1Data)
  : result P1Data :=
  currentDeviceNumber <- device_number buf startOfLine ;;
  devs <- update_elem MBusDevicesArray (MBusDevices d)
            (currentDeviceNumber - 1)
            (fun dev =>
               v <- number_after buf ch_lparen startOfLine ;;
               t <- to_EMBusDeviceType v ;;
               Ok (MBusDevice.set_DeviceType t dev)) ;;
  Ok (set_MBusDevices devs d).

Definition mbus_equipment (buf : list Z) (startOfLine endOfLine : Z)
    (d : P1Data) : result P1Data :=
  currentDeviceNumber <- device_number buf startOfLine ;;
  devs <- update_elem MBusDevicesArray (MBusDevices d)
            (currentDeviceNumber - 1)
            (fun dev =>
               v <- text_field buf startOfLine endOfLine ;;
               Ok (MBusDevice.set_EquipmentID v dev)) ;;
  Ok (set_MBusDevices devs d).

Definition mbus_value (buf : list Z) (startOfLine : Z) (d : P1Data)
  : result P1Data :=
  currentDeviceNumber <- device_number buf startOfLine ;;
  valueIndex <- indexOf buf ch_lparen startOfLine ;;
  devs <- update_elem MBusDevicesArray (MBusDevices d)
            (currentDeviceNumber - 1)
            (fun dev =>
               let r := MBusDevice.Reading dev in
               stamp <- copy_stamp buf (valueIndex + 1) (MBusReading.DateTime r) ;;
               let r := MBusReading.set_DateTime stamp r in
               valueIndex <- indexOf buf ch_lparen (valueIndex + 1) ;;
               v <- fixed_point buf valueIndex (valueIndex + 1) 5 3 ;;
               let r := MBusReading.set_Value v r in
               valueIndex <- indexOf buf ch_star (valueIndex + 1) ;;
               rparen <- indexOf buf ch_rparen valueIndex ;;
               let n := rparen - valueIndex - 1 in
               (* a negative count converts to a huge [size_t] *)
               if (n <? 0) || (4 <? n) then Fault UnitField 4
               else
                 unit <- copy_from buf (valueIndex + 1) (Z.to_nat n) ;;
                 unit <- store_bytes UnitField (MBusReading.Unit r) 0 unit ;;
                 Ok (MBusDevice.set_Reading (MBusReading.set_Unit unit r) dev)) ;;
  Ok (set_MBusDevices devs d).

(** *** ProcessTelegram *)

Notation "'IF' c 'THEN' t 'ELSE' e" :=
  (bind c (fun b : bool => if b then t else e))
  (at level 10, c at level 10, t at level 200, e at level 200,
   format "'[v' 'IF'  c  'THEN' '/  ' t '/' 'ELSE'  e ']'").

(** [data.F[i] = v] for a constant [i]. *)
Definition set_phase (i : nat) (v : Z) (a : list Z) : list Z := list_set a i v.

(** The chain of [if (startsWith(..)) .. else if ..] of the loop body, for
    the line from [startOfLine] to [endOfLine]. *)
Definition process_line (buf : list Z) (startOfLine endOfLine : Z) (d : P1Data)
  : result P1Data :=
  (* Default OBIS codes *)
  IF startsWith buf OBIS_VERSION startOfLine THEN
    v <- number_after buf ch_lparen startOfLine ;;
    Ok (set_P1Version (to_u8 v) d)
  ELSE IF startsWith buf OBIS_DATETIME startOfLine THEN
    lparen <- indexOf buf ch_lparen startOfLine ;;
    stamp <- copy_stamp buf (lparen + 1) (DateTime d) ;;
    Ok (set_DateTime stamp d)
  ELSE IF startsWith buf OBIS_EQUIPMENTID startOfLine THEN
    v <- text_field buf startOfLine endOfLine ;;
    Ok (set_EquipmentID v d)
  ELSE IF startsWith buf OBIS_TARIFF1_DELIVERED startOfLine THEN
    v <- fixed_point_line buf startOfLine 6 3 ;;
    Ok (set_DeliveredTariff1 v d)
  ELSE IF startsWith buf OBIS_TARIFF2_DELIVERED startOfLine THEN
    v <- fixed_point_line buf startOfLine 6 3 ;;
    Ok (set_DeliveredTariff2 v d)
  ELSE IF startsWith buf OBIS_TARIFF1_PRODUCED startOfLine THEN
    v <- fixed_point_line buf startOfLine 6 3 ;;
    Ok (set_ProducedTariff1 v d)
  ELSE IF startsWith buf OBIS_TARIFF2_PRODUCED startOfLine THEN
    v <- fixed_point_line buf startOfLine 6 3 ;;
    Ok (set_ProducedTariff2 v d)
  ELSE IF startsWith buf OBIS_TARIFF_INDICATOR startOfLine THEN
    v <- number_after buf ch_lparen startOfLine ;;
    Ok (set_CurrentTariff (to_u8 v) d)
  ELSE IF startsWith buf OBIS_ACTUAL_DELIVERED startOfLine THEN
    v <- fixed_point_line buf startOfLine 2 3 ;;
    Ok (set_ActualDelivered v d)
  ELSE IF startsWith buf OBIS_ACTUAL_PRODUCED startOfLine THEN
    v <- fixed_point_line buf startOfLine 2 3 ;;
    Ok (set_ActualProduced v d)
  ELSE IF startsWith buf OBIS_NUMBER_POWER_FAIL startOfLine THEN
    v <- number_after buf ch_lparen startOfLine ;;
    Ok (set_PowerFailures (to_u32 v) d)
  ELSE IF startsWith buf OBIS_LONG_POWER_FAIL startOfLine THEN
    v <- number_after buf ch_lparen startOfLine ;;
    Ok (set_LongPowerFailures (to_u32 v) d)
  ELSE IF startsWith buf OBIS_POWER_LOG startOfLine THEN
    power_log buf startOfLine d
  ELSE IF startsWith buf OBIS_NUM_VOLTAGE_SAG_L1 startOfLine THEN
    v <- number_after buf ch_lparen startOfLine ;;
    Ok (set_VoltageSags (set_phase 0 (to_u32 v) (VoltageSags d)) d)
  ELSE IF startsWith buf OBIS_NUM_VOLTAGE_SAG_L2 startOfLine THEN
    v <- number_after buf ch_lparen startOfLine ;;
    Ok (set_VoltageSags (set_phase 1 (to_u32 v) (VoltageSags d)) d)
  ELSE IF startsWith buf OBIS_NUM_VOLTAGE_SAG_L3 startOfLine THEN
    v <- number_after buf ch_lparen startOfLine ;;
    Ok (set_VoltageSags (set_phase 2 (to_u32 v) (VoltageSags d)) d)
  ELSE IF startsWith buf OBIS_NUM_VOLTAGE_SWL_L1 startOfLine THEN
    v <- number_after buf ch_lparen startOfLine ;;
    Ok (set_VoltageSwells (set_phase 0 (to_u32 v) (VoltageSwells d)) d)
  ELSE IF startsWith buf OBIS_NUM_VOLTAGE_SWL_L2 startOfLine THEN
    v <- number_after buf ch_lparen startOfLine ;;
    Ok (set_VoltageSwells (set_phase 1 (to_u32 v) (VoltageSwells d)) d)
  ELSE IF startsWith buf OBIS_NUM_VOLTAGE_SWL_L3 startOfLine THEN
    v <- number_after buf ch_lparen startOfLine ;;
    Ok (set_VoltageSwells (set_phase 2 (to_u32 v) (VoltageSwells d)) d)
  ELSE IF startsWith buf OBIS_TEXT_MESSAGE startOfLine THEN
    v <- text_field buf startOfLine endOfLine ;;
    Ok (set_TextMessage v d)
  ELSE IF startsWith buf OBIS_VOLTAGE_L1 startOfLine THEN
    v <- fixed_point_line buf startOfLine 3 1 ;;
    Ok (set_Voltage (set_phase 0 v (Voltage d)) d)
  ELSE IF startsWith buf OBIS_VOLTAGE_L2 startOfLine THEN
    v <- fixed_point_line buf startOfLine 3 1 ;;
    Ok (set_Voltage (set_phase 1 v (Voltage d)) d)
  ELSE IF startsWith buf OBIS_VOLTAGE_L3 startOfLine THEN
    v <- fixed_point_line buf startOfLine 3 1 ;;
    Ok (set_Voltage (set_phase 2 v (Voltage d)) d)
  ELSE IF startsWith buf OBIS_CURRENT_L1 startOfLine THEN
    v <- number_after buf ch_lparen startOfLine ;;
    Ok (set_Current (set_phase 0 (to_u32 v) (Current d)) d)
  ELSE IF startsWith buf OBIS_CURRENT_L2 startOfLine THEN
    v <- number_after buf ch_lparen startOfLine ;;
    Ok (set_Current (set_phase 1 (to_u32 v) (Current d)) d)
  ELSE IF startsWith buf OBIS_CURRENT_L3 startOfLine THEN
    v <- number_after buf ch_lparen startOfLine ;;
    Ok (set_Current (set_phase 2 (to_u32 v) (Current d)) d)
  ELSE IF startsWith buf OBIS_POWER_POS_L1 startOfLine THEN
    v <- fixed_point_line buf startOfLine 2 3 ;;
    Ok (set_PowerDelivered (set_phase 0 v (PowerDelivered d)) d)
  ELSE IF startsWith buf OBIS_POWER_POS_L2 startOfLine THEN
    v <- fixed_point_line buf startOfLine 2 3 ;;
    Ok (set_PowerDelivered (set_phase 1 v (PowerDelivered d)) d)
  ELSE IF startsWith buf OBIS_POWER_POS_L3 startOfLine THEN
    v <- fixed_point_line buf startOfLine 2 3 ;;
    Ok (set_PowerDelivered (set_phase 2 v (PowerDelivered d)) d)
  (* the source tests the three POS codes a second time here *)
  ELSE IF startsWith buf OBIS_POWER_POS_L1 startOfLine THEN
    v <- fixed_point_line buf startOfLine 2 3 ;;
    Ok (set_PowerProduced (set_phase 0 v (PowerProduced d)) d)
  ELSE IF startsWith buf OBIS_POWER_POS_L2 startOfLine THEN
    v <- fixed_point_line buf startOfLine 2 3 ;;
    Ok (set_PowerProduced (set_phase 1 v (PowerProduced d)) d)
  ELSE IF startsWith buf OBIS_POWER_POS_L3 startOfLine THEN
    v <- fixed_point_line buf startOfLine 2 3 ;;
    Ok (set_PowerProduced (set_phase 2 v (PowerProduced d)) d)
  ELSE IF startsWith buf OBIS_DEVICE_TYPE (startOfLine + 3) THEN
    mbus_device_type buf startOfLine d
  ELSE IF startsWith buf OBIS_EQUIPMENT_IDENT (startOfLine + 3) THEN
    mbus_equipment buf startOfLine endOfLine d
  ELSE IF startsWith buf OBIS_DEVICE_VALUE (startOfLine + 3) THEN
    mbus_value buf startOfLine d
  ELSE Ok d.

(** [while (endOfLine < bufferIndex && endOfLine != -1)] *)
Fixpoint line_loop (fuel : nat) (buf : list Z) (bufferIndex endOfLine : Z)
    (d : P1Data) : result P1Data :=
  if (endOfLine <? bufferIndex) && negb (endOfLine =? -1) then
    match fuel with
    | O => OutOfFuel
    | S fuel' =>
        let startOfLine := to_i16 (endOfLine + 1) in
        endOfLine <- indexOf buf ch_LF (startOfLine + 1) ;;
        d <- process_line buf startOfLine endOfLine d ;;
        line_loop fuel' buf bufferIndex endOfLine d
    end
  else Ok d.

(** The last statements: the two checksums and their comparison. *)
Definition check_crc (char_signed : bool) (buf : list Z) (d : P1Data)
  : result P1Data :=
  found <- indexOf buf ch_bang 0 ;;
  let crcIndex := to_u16 found in
  calculatedCRC <- calcCRC16 char_signed buf (crcIndex + 1) ;;
  copied <- copy_from buf (crcIndex + 1) 4 ;;
  let messageCRC := copied ++ [0] in
  v <- past_end MessageCRC messageCRC (LibC.strtoul messageCRC 16) ;;
  let d := set_CRC (to_u16 v) d in
  Ok (set_ValidCRC (CRC d =? calculatedCRC) d).

(** Every pass of the line loop moves [endOfLine] forward, so the length
    of the buffer bounds the number of passes. *)
Definition ProcessTelegram (char_signed : bool) (m : P1Meter)
  : result (P1Data * P1Meter) :=
  let buf := buffer m in
  (* Check the number of MBus devices attached *)
  last <- lastIndexOf buf ch_minus 0 ;;
  n <- number_at buf (last + 1) 10 ;;
  let d := set_NumberOfMBusDevices (to_u8 n) (data m) in
  startOfLine <- indexOf buf ch_slash 0 ;;
  endOfLine <- indexOf buf ch_LF 0 ;;
  (* Fill in the header info *)
  header <- getSubString buf (startOfLine + 1) endOfLine ;;
  let d := set_HeaderInfo header d in
  (* Parse the telegram *)
  d <- line_loop (length buf) buf (bufferIndex m) endOfLine d ;;
  (* Calculate CRC and check against message CRC *)
  d <- check_crc char_signed buf d ;;
  (* Clear buffer *)
  cleared <- memset_buffer buf ;;
  Ok (d, set_DataReady false (set_data d (set_buffer cleared m))).

(** *** The sketch ParseTelegram.ino

    One pass of [loop()]: [meter.ReceiveTelegram();] and, when
    [meter.DataReady], [meter.ProcessTelegram()].  The result is the
    reading, if one was decoded, and the meter afterwards. *)
Inductive pass : Type :=
  | Decoded (d : P1Data) (m : P1Meter) (serial : list Z)
  | Idle (m : P1Meter) (serial : list Z)
  | Stuck                                  (* [ReceiveTelegram] blocks *)
  | Crashed (o : object) (index : Z).

Definition loop (char_signed : bool) (m : P1Meter) (serial : list Z) : pass :=
  match ReceiveTelegram m serial with
  | Returned m serial' =>
      if DataReady m then
        match ProcessTelegram char_signed m with
        | Ok (d, m') => Decoded d m' serial'
        | Fault o i => Crashed o i
        | OutOfFuel => Crashed Buffer 0
        end
      else Idle m serial'
  | Blocked _ => Stuck
  | Faulted o i => Crashed o i
  end.

(** ** Notions used to state the properties *)

(** The buffer has the size the constructors give it, and five bytes of
    memory are known below it. *)
Definition meter_wf (m : P1Meter) : Prop :=
  Z.of_nat (length (buffer m)) = BUFFER_SIZE + 1
  /\ length (heap_before m) = 5%nat.

(** The bytes in front of the write position, in address order: the
    memory below the buffer, then the bytes stored so far. *)
Definition history (m : P1Meter) : list Z :=
  rev (heap_before m) ++ firstn (Z.to_nat (bufferIndex m)) (buffer m).

(** A body free of the terminator (and of NUL, which ends a C string). *)
Definition plain (c : Z) : Prop := is_byte c /\ c <> ch_bang /\ c <> 0.

(** The trailer digits, read case-insensitively, as the specification
    words it. *)
Definition hexdigit (c : Z) : bool :=
  LibC.isdigit c || ((65 <=? c) && (c <=? 70)) || ((97 <=? c) && (c <=? 102)).

Definition hexval (c : Z) : Z :=
  if LibC.isdigit c then c - 48
  else if c <=? 70 then c - 65 + 10
  else c - 97 + 10.

Definition hex4 (a b c e : Z) : Z :=
  ((hexval a * 16 + hexval b) * 16 + hexval c) * 16 + hexval e.

(** A telegram on the wire: start marker, body, terminator, four trailer
    characters and the line ending. *)
Definition telegram (body : list Z) (a b c e : Z) : list Z :=
  ch_slash :: body ++ ch_bang :: [a; b; c; e; ch_CR; ch_LF].

(** The wire form of a fixed-point value, as the specification words it:
    [whole] digits, the decimal point, [frac] digits, for the value [v]
    counted in the minor unit. *)
Fixpoint digits (width : nat) (v : Z) : list Z :=
  match width with
  | O => []
  | S w => digits w (v / 10) ++ [48 + v mod 10]
  end.

Definition render_fixed (whole frac : nat) (v : Z) : list Z :=
  digits whole (v / 10 ^ Z.of_nat frac) ++ ch_dot
    :: digits frac (v mod 10 ^ Z.of_nat frac).

(** The starts of the lines that the loop of [ProcessTelegram] visits. *)
Fixpoint line_starts (fuel : nat) (buf : list Z) (bufferIndex endOfLine : Z)
  : list Z :=
  if (endOfLine <? bufferIndex) && negb (endOfLine =? -1) then
    match fuel with
    | O => []
    | S fuel' =>
        let startOfLine := to_i16 (endOfLine + 1) in
        startOfLine ::
          match indexOf buf ch_LF (startOfLine + 1) with
          | Ok endOfLine => line_starts fuel' buf bufferIndex endOfLine
          | _ => []
          end
    end
  else [].

Definition visited_lines (m : P1Meter) : list Z :=
  match indexOf (buffer m) ch_LF 0 with
  | Ok endOfLine =>
      line_starts (length (buffer m)) (buffer m) (bufferIndex m) endOfLine
  | _ => []
  end.

(** The bytes of [buf] from position [s] on begin with [l]. *)
Definition spells (buf : list Z) (s : Z) (l : list Z) : Prop :=
  0 <= s /\ exists rest, skipn (Z.to_nat s) buf = l ++ rest.

(** The meter after a byte that does not complete the telegram. *)
Definition push (m : P1Meter) (b : Z) : P1Meter :=
  set_bufferIndex (to_i16 (bufferIndex m + 1))
    (set_buffer (list_set (buffer m) (Z.to_nat (bufferIndex m)) (to_u8 b)) m).

(** The meter after the byte that completes the telegram. *)
Definition finish (m : P1Meter) (b : Z) : P1Meter :=
  make_ready
    (set_buffer (list_set (buffer m) (Z.to_nat (bufferIndex m)) (to_u8 b)) m).

(** The byte that [receive_byte] consults: the sixth from the end of the
    history. *)
Definition consulted (m : P1Meter) : Z :=
  nth (Z.to_nat (bufferIndex m - 1)) (history m) 0.

(** ** Sample inputs *)

Definition line (s : string) : list Z := bytes_of_string s ++ [ch_CR; ch_LF].

(** A meter as the constructor leaves it, with zeros around the buffer. *)
Definition sample_meter : P1Meter := P1Meter_new [0; 0; 0; 0; 0] 0.

(** The meter after the bytes [/AB] of a telegram. *)
Definition receiving_meter : P1Meter :=
  push (push (set_bufferIndex 1
                (set_buffer (list_set (buffer sample_meter) 0 ch_slash)
                   sample_meter)) 65) 66.

(** A capture that a second start marker interrupts. *)
Definition preempted_stream : list Z :=
  bytes_of_string "/AB/CD" ++ line "!1234".

(** The meter once [ReceiveTelegram] has stored the start marker. *)
Definition started (m : P1Meter) : P1Meter :=
  set_bufferIndex 1
    (set_buffer (list_set (buffer (raise_cts m)) 0 ch_slash) (raise_cts m)).

(** The bytes of a telegram that follow the start marker and precede the
    last byte. *)
Definition inner (body : list Z) (a b c e : Z) : list Z :=
  body ++ ch_bang :: [a; b; c; e; ch_CR].

Definition no_bang (c : Z) : Prop := is_byte c /\ c <> ch_bang.

(** A character over which a search for [c] passes. *)
Definition quiet_for (c : Z) (x : Z) : Prop := x <> c /\ x <> 0.

(** The body of a telegram in the form of the example of the P1 companion
    standard, with one submeter; the start marker comes in front of it and
    the terminator and the checksum behind it. *)
Definition sample_body : list Z :=
  line "ISk5\2MT382-1000" ++ line ""
  ++ line "1-3:0.2.8(50)"
  ++ line "0-0:1.0.0(101209113020W)"
  ++ line "0-0:96.1.1(4B384547303034303436333935353037)"
  ++ line "1-0:1.8.1(001234.567*kWh)"
  ++ line "1-0:1.8.2(123456.789*kWh)"
  ++ line "1-0:2.8.1(123456.789*kWh)"
  ++ line "1-0:2.8.2(123456.789*kWh)"
  ++ line "0-0:96.14.0(0002)"
  ++ line "1-0:1.7.0(01.193*kW)"
  ++ line "1-0:2.7.0(00.000*kW)"
  ++ line "0-0:96.7.21(00004)"
  ++ line "0-0:96.7.9(00002)"
  ++ line "1-0:99.97.0(2)(0-0:96.7.19)(101208152415W)(0000000240*s)(101208151004W)(0000000301*s)"
  ++ line "1-0:32.32.0(00002)"
  ++ line "1-0:52.32.0(00001)"
  ++ line "1-0:72.32.0(00000)"
  ++ line "1-0:32.36.0(00000)"
  ++ line "1-0:52.36.0(00003)"
  ++ line "1-0:72.36.0(00000)"
  ++ line "0-0:96.13.0(303132333435363738393A3B3C3D3E3F)"
  ++ line "1-0:32.7.0(220.1*V)"
  ++ line "1-0:52.7.0(220.2*V)"
  ++ line "1-0:72.7.0(220.3*V)"
  ++ line "1-0:31.7.0(001*A)"
  ++ line "1-0:51.7.0(002*A)"
  ++ line "1-0:71.7.0(003*A)"
  ++ line "1-0:21.7.0(01.111*kW)"
  ++ line "1-0:41.7.0(02.222*kW)"
  ++ line "1-0:61.7.0(03.333*kW)"
  ++ line "1-0:22.7.0(04.444*kW)"
  ++ line "1-0:42.7.0(05.555*kW)"
  ++ line "1-0:62.7.0(06.666*kW)"
  ++ line "0-1:24.1.0(003)"
  ++ line "0-1:96.1.0(3232323241424344313233343536373839)"
  ++ line "0-1:24.2.1(101209112500W)(12785.123*m3)".

(** Its trailer is [3FD7]. *)
Definition sample_telegram : list Z := telegram sample_body 51 70 68 55.

Definition received_meter (o : outcome) (m : P1Meter) : P1Meter :=
  match o with
  | Returned m' _ => m'
  | _ => m
  end.

Definition reading_of (r : result (P1Data * P1Meter)) : P1Data :=
  match r with
  | Ok (d, _) => d
  | _ => P1Data_zero
  end.

Definition meter_of (r : result (P1Data * P1Meter)) (m : P1Meter) : P1Meter :=
  match r with
  | Ok (_, m') => m'
  | _ => m
  end.

(** The meter with the sample telegram received, the reading decoded from
    it and the meter afterwards. *)
Definition sample_ready : P1Meter :=
  Eval vm_compute in
    received_meter (ReceiveTelegram sample_meter sample_telegram) sample_meter.

Definition sample_reading : P1Data :=
  Eval vm_compute in reading_of (ProcessTelegram false sample_ready).

Definition sample_after : P1Meter :=
  Eval vm_compute in meter_of (ProcessTelegram false sample_ready) sample_ready.

(** Two streams that differ in the byte at position 2 only: the second has
    a ['!'] there, followed by the checksum of the three bytes [/A!]. *)
Definition forged_original : list Z := line "/A?81C1" ++ line "!F7EF".
Definition forged_changed : list Z := line "/A!81C1" ++ line "!F7EF".

Definition plainb (c : Z) : bool :=
  (0 <=? c) && (c <? 256) && negb (c =? ch_bang) && negb (c =? 0).

(** The ready meter with the second byte of the sample telegram changed
    from [I] to [J], its reading and the meter afterwards. *)
Definition changed_ready : P1Meter :=
  Eval vm_compute in set_buffer (list_set (buffer sample_ready) 1 74) sample_ready.

Definition changed_reading : P1Data :=
  Eval vm_compute in reading_of (ProcessTelegram false changed_ready).

Definition changed_after : P1Meter :=
  Eval vm_compute in meter_of (ProcessTelegram false changed_ready) changed_ready.

(** ** The fixed-point fields *)

Inductive phase : Set := L1 | L2 | L3.

Definition phase_index (p : phase) : nat :=
  match p with
  | L1 => 0
  | L2 => 1
  | L3 => 2
  end.

(** The fields of the reading that the chain fills by the fixed-point
    rule, from a line that begins with a code of its own. *)
Inductive fixed_field : Set :=
  | FDeliveredTariff1 | FDeliveredTariff2
  | FProducedTariff1 | FProducedTariff2
  | FActualDelivered | FActualProduced
  | FVoltage (p : phase)
  | FPowerDelivered (p : phase).

Definition field_code (f : fixed_field) : list Z :=
  match f with
  | FDeliveredTariff1 => OBIS_TARIFF1_DELIVERED
  | FDeliveredTariff2 => OBIS_TARIFF2_DELIVERED
  | FProducedTariff1 => OBIS_TARIFF1_PRODUCED
  | FProducedTariff2 => OBIS_TARIFF2_PRODUCED
  | FActualDelivered => OBIS_ACTUAL_DELIVERED
  | FActualProduced => OBIS_ACTUAL_PRODUCED
  | FVoltage L1 => OBIS_VOLTAGE_L1
  | FVoltage L2 => OBIS_VOLTAGE_L2
  | FVoltage L3 => OBIS_VOLTAGE_L3
  | FPowerDelivered L1 => OBIS_POWER_POS_L1
  | FPowerDelivered L2 => OBIS_POWER_POS_L2
  | FPowerDelivered L3 => OBIS_POWER_POS_L3
  end.

(** The digits in front of and behind the decimal point on the wire. *)
Definition field_whole (f : fixed_field) : nat :=
  match f with
  | FDeliveredTariff1 | FDeliveredTariff2
  | FProducedTariff1 | FProducedTariff2 => 6
  | FActualDelivered | FActualProduced => 2
  | FVoltage _ => 3
  | FPowerDelivered _ => 2
  end.

Definition field_frac (f : fixed_field) : nat :=
  match f with
  | FVoltage _ => 1
  | _ => 3
  end.

Definition field_store (f : fixed_field) (v : Z) (d : P1Data) : P1Data :=
  match f with
  | FDeliveredTariff1 => set_DeliveredTariff1 v d
  | FDeliveredTariff2 => set_DeliveredTariff2 v d
  | FProducedTariff1 => set_ProducedTariff1 v d
  | FProducedTariff2 => set_ProducedTariff2 v d
  | FActualDelivered => set_ActualDelivered v d
  | FActualProduced => set_ActualProduced v d
  | FVoltage p => set_Voltage (set_phase (phase_index p) v (Voltage d)) d
  | FPowerDelivered p =>
      set_PowerDelivered (set_phase (phase_index p) v (PowerDelivered d)) d
  end.

Definition field_value (f : fixed_field) (d : P1Data) : Z :=
  match f with
  | FDeliveredTariff1 => DeliveredTariff1 d
  | FDeliveredTariff2 => DeliveredTariff2 d
  | FProducedTariff1 => ProducedTariff1 d
  | FProducedTariff2 => ProducedTariff2 d
  | FActualDelivered => ActualDelivered d
  | FActualProduced => ActualProduced d
  | FVoltage p => nth (phase_index p) (Voltage d) 0
  | FPowerDelivered p => nth (phase_index p) (PowerDelivered d) 0
  end.

(** The per-phase arrays hold three elements. *)
Definition data_wf (d : P1Data) : Prop :=
  length (Voltage d) = 3%nat /\ length (PowerDelivered d) = 3%nat.

Definition is_digit (c : Z) : Prop := 48 <= c <= 57.

(** The number that a run of decimal digits denotes. *)
Definition decimal_value (l : list Z) : Z :=
  fold_left (fun acc c => acc * 10 + (c - 48)) l 0.

Definition tariff1_line : list Z :=
  Eval cbv in bytes_of_string "1-0:1.8.1(001234.567*kWh)".

(** A telegram whose power failure log announces four entries, and one
    with a line for the power produced on phase L1. *)
Definition overflow_telegram : list Z :=
  line "/X"
  ++ line "1-0:99.97.0(4)(0-0:96.7.19)(101208152415W)(0000000240*s)(101208151004W)(0000000301*s)(101208150000W)(0000000302*s)(101208140000W)(0000000303*s)"
  ++ line "!0000".

Definition produced_telegram : list Z :=
  line "/X" ++ line "1-0:22.7.0(04.444*kW)" ++ line "!0000".

(** ** The helper endsWith *)

Module LibCString.

(** [strlen(s)] *)
Fixpoint strlen (s : list Z) : option nat :=
  match s with
  | [] => None
  | c :: s' => if c =? 0 then Some O else option_map S (strlen s')
  end.

(** [strcmp(s, lit) == 0] for a literal [lit] without NUL: the characters
    of [lit], then the terminator of [s]. *)
Fixpoint strcmp_eq (s lit : list Z) : option bool :=
  match s with
  | [] => None
  | x :: s' =>
      match lit with
      | [] => Some (x =? 0)
      | c :: lit' => if x =? c then strcmp_eq s' lit' else Some false
      end
  end.

End LibCString.

(** [strcmp(&buffer[dataLength - stringLength], findString) == 0]; when
    the string in the buffer is the shorter one the index lies in front
    of the buffer. *)
Definition endsWith (buf findString : list Z) : result bool :=
  n <- past_end Buffer buf (LibCString.strlen buf) ;;
  let dataLength := to_u16 (Z.of_nat n) in
  let stringLength := to_u16 (Z.of_nat (length findString)) in
  s <- ptr Buffer buf (dataLength - stringLength) ;;
  past_end Buffer buf (LibCString.strcmp_eq s findString).

(** ** The plain-integer and the text fields *)

(** The fields that the chain fills with
    [strtoul(&buffer[indexOf('(', startOfLine) + 1], NULL, 10)]. *)
Inductive number_field : Set :=
  | NVersion | NTariffIndicator | NPowerFailures | NLongPowerFailures
  | NVoltageSags (p : phase)
  | NVoltageSwells (p : phase)
  | NCurrent (p : phase).

Definition number_code (f : number_field) : list Z :=
  match f with
  | NVersion => OBIS_VERSION
  | NTariffIndicator => OBIS_TARIFF_INDICATOR
  | NPowerFailures => OBIS_NUMBER_POWER_FAIL
  | NLongPowerFailures => OBIS_LONG_POWER_FAIL
  | NVoltageSags L1 => OBIS_NUM_VOLTAGE_SAG_L1
  | NVoltageSags L2 => OBIS_NUM_VOLTAGE_SAG_L2
  | NVoltageSags L3 => OBIS_NUM_VOLTAGE_SAG_L3
  | NVoltageSwells L1 => OBIS_NUM_VOLTAGE_SWL_L1
  | NVoltageSwells L2 => OBIS_NUM_VOLTAGE_SWL_L2
  | NVoltageSwells L3 => OBIS_NUM_VOLTAGE_SWL_L3
  | NCurrent L1 => OBIS_CURRENT_L1
  | NCurrent L2 => OBIS_CURRENT_L2
  | NCurrent L3 => OBIS_CURRENT_L3
  end.

(** The conversion of the [unsigned long] to the type of the member. *)
Definition number_wrap (f : number_field) (v : Z) : Z :=
  match f with
  | NVersion | NTariffIndicator => to_u8 v
  | _ => to_u32 v
  end.

Definition number_store (f : number_field) (v : Z) (d : P1Data) : P1Data :=
  match f with
  | NVersion => set_P1Version (to_u8 v) d
  | NTariffIndicator => set_CurrentTariff (to_u8 v) d
  | NPowerFailures => set_PowerFailures (to_u32 v) d
  | NLongPowerFailures => set_LongPowerFailures (to_u32 v) d
  | NVoltageSags p =>
      set_VoltageSags (set_phase (phase_index p) (to_u32 v) (VoltageSags d)) d
  | NVoltageSwells p =>
      set_VoltageSwells
        (set_phase (phase_index p) (to_u32 v) (VoltageSwells d)) d
  | NCurrent p =>
      set_Current (set_phase (phase_index p) (to_u32 v) (Current d)) d
  end.

Definition number_value (f : number_field) (d : P1Data) : Z :=
  match f with
  | NVersion => P1Version d
  | NTariffIndicator => CurrentTariff d
  | NPowerFailures => PowerFailures d
  | NLongPowerFailures => LongPowerFailures d
  | NVoltageSags p => nth (phase_index p) (VoltageSags d) 0
  | NVoltageSwells p => nth (phase_index p) (VoltageSwells d) 0
  | NCurrent p => nth (phase_index p) (Current d) 0
  end.

Definition counters_wf (d : P1Data) : Prop :=
  length (VoltageSags d) = 3%nat /\ length (VoltageSwells d) = 3%nat
  /\ length (Current d) = 3%nat.

(** The value [strtoul] returns for a number that may not fit. *)
Definition saturate (v : Z) : Z :=
  if LibC.ULONG_MAX <? v then LibC.ULONG_MAX else v.

(** The fields that the chain fills with
    [getSubString(indexOf('(', startOfLine) + 1, endOfLine - 2)]. *)
Inductive text_kind : Set := TEquipmentID | TTextMessage.

Definition text_code (k : text_kind) : list Z :=
  match k with
  | TEquipmentID => OBIS_EQUIPMENTID
  | TTextMessage => OBIS_TEXT_MESSAGE
  end.

Definition text_store (k : text_kind) (v : list Z) (d : P1Data) : P1Data :=
  match k with
  | TEquipmentID => set_EquipmentID v d
  | TTextMessage => set_TextMessage v d
  end.

Definition text_value (k : text_kind) (d : P1Data) : list Z :=
  match k with
  | TEquipmentID => EquipmentID d
  | TTextMessage => TextMessage d
  end.

(** ** Submeter lines and the failure log *)

(** The beginning of a device-type line for the submeter slot written with
    the digit [48 + k]: [0-k:24.1.0(], then the characters [ds]. *)
Definition mbus_type_line (k : Z) (ds : list Z) : list Z :=
  48 :: ch_minus :: (48 + k) :: OBIS_DEVICE_TYPE ++ ch_lparen :: ds.

(** The count a failure-log line declares:
    [uint8_t numberOfLogs = strtoul(&buffer[index1], NULL, 10)]. *)
Definition declared_logs (buf : list Z) (startOfLine : Z) : result Z :=
  lparen <- indexOf buf ch_lparen startOfLine ;;
  count <- number_at buf (to_u16 (lparen + 1)) 10 ;;
  Ok (to_u8 count).

(** A result other than the exhaustion of the fuel of the model. *)
Definition fueled {A : Type} (r : result A) : Prop := r <> OutOfFuel.

(** The first [BUFFER_SIZE] bytes of the buffer are zero, as the
    constructors and [ProcessTelegram] leave them. *)
Definition cleared (m : P1Meter) : Prop :=
  forall i, 0 <= i < BUFFER_SIZE -> nth (Z.to_nat i) (buffer m) 0 = 0.

(** ** Further sample inputs *)

(** The meter with the telegram of the produced-power line received, its
    reading and the meter afterwards. *)
Definition produced_ready : P1Meter :=
  Eval vm_compute in
    received_meter (ReceiveTelegram sample_meter produced_telegram) sample_meter.

Definition produced_reading : P1Data :=
  Eval vm_compute in reading_of (ProcessTelegram false produced_ready).

Definition produced_after : P1Meter :=
  Eval vm_compute in
    meter_of (ProcessTelegram false produced_ready) produced_ready.

(** A buffer that holds one line and its terminator. *)
Definition line_buffer (s : string) : list Z := line s ++ [0].

(** A telegram with a byte above 0x7F in its first line, followed by the
    reference checksum of its bytes from the start marker to the
    terminator, 0xDDBC. *)
Definition high_byte_telegram : list Z := telegram [200; 13; 10] 68 68 66 67.

(** The codes of the lines of the power produced per phase, and such a
    line for the value [v], in watts, in the form the meter writes it. *)
Definition power_neg_code (p : phase) : list Z :=
  match p with
  | L1 => OBIS_POWER_NEG_L1
  | L2 => OBIS_POWER_NEG_L2
  | L3 => OBIS_POWER_NEG_L3
  end.

Definition produced_power_line (p : phase) (v : Z) : list Z :=
  power_neg_code p ++ ch_lparen :: render_fixed 2 3 v
    ++ bytes_of_string "*kW)" ++ [ch_CR; ch_LF; 0].

(** * Properties *)

(** ** Fixed-width conversions *)

Lemma to_u8_small (z : Z) : 0 <= z < 256 -> to_u8 z = z.
Proof. intros H. unfold to_u8. apply Z.mod_small. exact H. Qed.

Lemma to_u16_small (z : Z) : 0 <= z < 65536 -> to_u16 z = z.
Proof. intros H. unfold to_u16. apply Z.mod_small. exact H. Qed.

Lemma to_u32_small (z : Z) : 0 <= z < 4294967296 -> to_u32 z = z.
Proof. intros H. unfold to_u32. apply Z.mod_small. exact H. Qed.

Lemma to_i16_small (z : Z) : -32768 <= z < 32768 -> to_i16 z = z.
Proof. intros H. unfold to_i16. rewrite Z.mod_small; lia. Qed.

Lemma to_u16_range (z : Z) : 0 <= to_u16 z < 65536.
Proof. unfold to_u16. apply Z.mod_pos_bound. lia. Qed.

(** ** The checksum engine *)

Module CRC16Facts.
Import CRC16.

Definition word16 (z : Z) : Prop := 0 <= z < 65536.

Lemma lxor_word16 (a b : Z) : word16 a -> word16 b -> word16 (Z.lxor a b).
Proof.
  unfold word16. intros [Ha Ha'] [Hb Hb'].
  assert (Hn : 0 <= Z.lxor a b) by (apply Z.lxor_nonneg; lia).
  split; [exact Hn|].
  destruct (Z.eq_dec (Z.lxor a b) 0) as [->|Hz]; [lia|].
  change 65536 with (2 ^ 16). apply Z.log2_lt_pow2; [lia|].
  pose proof (Z.log2_lxor a b Ha Hb) as Hl.
  assert (Z.log2 a < 16).
  { destruct (Z.eq_dec a 0) as [->|]; [cbn; lia|]. apply Z.log2_lt_pow2; lia. }
  assert (Z.log2 b < 16).
  { destruct (Z.eq_dec b 0) as [->|]; [cbn; lia|]. apply Z.log2_lt_pow2; lia. }
  lia.
Qed.

Lemma testbit_high (a n : Z) : 0 <= a < 2 ^ n -> 0 <= n -> Z.testbit a n = false.
Proof.
  intros Ha Hn. rewrite <- (Z.mod_small a (2 ^ n)) by exact Ha.
  apply Z.mod_pow2_bits_high. lia.
Qed.

(** XOR with the polynomial sets bit 15 of a value below [2^15]. *)
Lemma lxor_poly_high (q : Z) : 0 <= q < 32768 -> 32768 <= Z.lxor q 0xA001.
Proof.
  intros Hq.
  destruct (Z_lt_le_dec (Z.lxor q 0xA001) 32768) as [Hlt|]; [|assumption].
  exfalso.
  assert (Hn : 0 <= Z.lxor q 0xA001) by (apply Z.lxor_nonneg; lia).
  assert (Hb : Z.testbit (Z.lxor q 0xA001) 15 = false)
    by (apply testbit_high; [change (2 ^ 15) with 32768|]; lia).
  rewrite Z.lxor_spec in Hb.
  rewrite (testbit_high q 15) in Hb by (change (2 ^ 15) with 32768; lia).
  cbn in Hb. discriminate.
Qed.

Lemma land_1_odd (c : Z) : (Z.land c 1 =? 0) = negb (Z.odd c).
Proof.
  change 1 with (Z.ones 1). rewrite Z.land_ones by lia.
  change (2 ^ 1) with 2. rewrite Zmod_odd.
  destruct (Z.odd c); reflexivity.
Qed.

Lemma shift_step_ref (c : Z) : word16 c -> shift_step c = ref_step c.
Proof.
  intros Hc. unfold shift_step, ref_step, POLYNOMIAL_IBM_REVERSED.
  rewrite land_1_odd, Bool.negb_involutive.
  rewrite Z.shiftr_div_pow2 by lia. change (2 ^ 1) with 2.
  destruct (Z.odd c); [|reflexivity].
  apply to_u16_small. apply lxor_word16; unfold word16 in *; [|lia].
  split; [apply Z.div_pos; lia|]. apply Z.div_lt_upper_bound; lia.
Qed.

Lemma ref_step_word16 (c : Z) : word16 c -> word16 (ref_step c).
Proof.
  intros Hc. unfold ref_step.
  assert (Hh : word16 (c / 2)).
  { unfold word16 in *. split; [apply Z.div_pos; lia|].
    apply Z.div_lt_upper_bound; lia. }
  destruct (Z.odd c); [|exact Hh].
  apply lxor_word16; [exact Hh|]. unfold word16. lia.
Qed.

Lemma shift_step_word16 (c : Z) : word16 c -> word16 (shift_step c).
Proof. intros Hc. rewrite shift_step_ref by exact Hc. now apply ref_step_word16. Qed.

Lemma lxor_cancel_l (a b c : Z) : Z.lxor a b = Z.lxor a c -> b = c.
Proof.
  intros E.
  rewrite <- (Z.lxor_0_l b), <- (Z.lxor_0_l c), <- (Z.lxor_nilpotent a).
  rewrite !Z.lxor_assoc. now rewrite E.
Qed.

Lemma lxor_cancel_r (a b c : Z) : Z.lxor b a = Z.lxor c a -> b = c.
Proof. rewrite !(Z.lxor_comm _ a). apply lxor_cancel_l. Qed.

Lemma ref_step_inj (c1 c2 : Z) :
  word16 c1 -> word16 c2 -> ref_step c1 = ref_step c2 -> c1 = c2.
Proof.
  unfold word16, ref_step. intros H1 H2.
  generalize (Zmod_odd c1) (Zmod_odd c2).
  destruct (Z.odd c1), (Z.odd c2); intros O1 O2 E.
  - apply lxor_cancel_r in E. Z.div_mod_to_equations. lia.
  - pose proof (lxor_poly_high (c1 / 2)). Z.div_mod_to_equations. lia.
  - pose proof (lxor_poly_high (c2 / 2)). Z.div_mod_to_equations. lia.
  - Z.div_mod_to_equations. lia.
Qed.

Lemma bit_loop_word16 (n : nat) (c : Z) : word16 c -> word16 (bit_loop n c).
Proof.
  revert c. induction n as [|n IH]; intros c Hc; cbn; [exact Hc|].
  apply IH. now apply shift_step_word16.
Qed.

Lemma bit_loop_inj (n : nat) (c1 c2 : Z) :
  word16 c1 -> word16 c2 -> bit_loop n c1 = bit_loop n c2 -> c1 = c2.
Proof.
  revert c1 c2. induction n as [|n IH]; intros c1 c2 H1 H2 E; cbn in E; [exact E|].
  apply IH in E; try now apply shift_step_word16.
  rewrite !shift_step_ref in E by assumption.
  now apply ref_step_inj.
Qed.

(** The widened byte. *)
Lemma widen_word16 (cs : bool) (b : Z) :
  is_byte b -> word16 (to_u16 (char_value cs b)).
Proof. intros _. apply to_u16_range. Qed.

Lemma widen_unsigned (b : Z) : is_byte b -> to_u16 (char_value false b) = b.
Proof. unfold is_byte. intros H. cbn. apply to_u16_small. lia. Qed.

Lemma widen_ascii (cs : bool) (b : Z) :
  0 <= b < 128 -> to_u16 (char_value cs b) = b.
Proof.
  intros H. unfold char_value.
  replace (128 <=? b) with false by (symmetry; apply Z.leb_gt; lia).
  rewrite Bool.andb_false_r. apply to_u16_small. lia.
Qed.

Lemma widen_signed_high (b : Z) :
  128 <= b < 256 -> to_u16 (char_value true b) = 0xFF00 + b.
Proof.
  intros H. unfold char_value.
  replace (128 <=? b) with true by (symmetry; apply Z.leb_le; lia).
  cbn [andb]. unfold to_u16.
  replace (b - 256) with ((0xFF00 + b) + (-1) * 65536) by lia.
  rewrite Z.mod_add by lia. apply Z.mod_small. lia.
Qed.

Lemma widen_inj (cs : bool) (b1 b2 : Z) :
  is_byte b1 -> is_byte b2 ->
  to_u16 (char_value cs b1) = to_u16 (char_value cs b2) -> b1 = b2.
Proof.
  unfold is_byte. intros H1 H2.
  destruct cs.
  - destruct (Z_lt_le_dec b1 128), (Z_lt_le_dec b2 128);
      rewrite ?(widen_ascii true b1), ?(widen_ascii true b2),
              ?(widen_signed_high b1), ?(widen_signed_high b2) by lia; lia.
  - rewrite !widen_unsigned by assumption. auto.
Qed.

Lemma byte_step_word16 (cs : bool) (c b : Z) :
  word16 c -> word16 (byte_step cs c b).
Proof.
  intros Hc. unfold byte_step. apply bit_loop_word16. apply to_u16_range.
Qed.

Lemma byte_step_inj_crc (cs : bool) (b c1 c2 : Z) :
  word16 c1 -> word16 c2 ->
  byte_step cs c1 b = byte_step cs c2 b -> c1 = c2.
Proof.
  intros H1 H2 E. unfold byte_step in E.
  apply bit_loop_inj in E; try apply to_u16_range.
  rewrite (to_u16_small (Z.lxor c1 _)), (to_u16_small (Z.lxor c2 _)) in E
    by (apply lxor_word16; [assumption|apply to_u16_range]).
  now apply lxor_cancel_r in E.
Qed.

Lemma byte_step_inj_byte (cs : bool) (c b1 b2 : Z) :
  word16 c -> is_byte b1 -> is_byte b2 ->
  byte_step cs c b1 = byte_step cs c b2 -> b1 = b2.
Proof.
  intros Hc H1 H2 E. unfold byte_step in E.
  apply bit_loop_inj in E; try apply to_u16_range.
  rewrite (to_u16_small (Z.lxor c (to_u16 (char_value cs b1)))),
          (to_u16_small (Z.lxor c (to_u16 (char_value cs b2)))) in E
    by (apply lxor_word16; [assumption|apply to_u16_range]).
  apply lxor_cancel_l in E. now apply widen_inj in E.
Qed.

Lemma fold_byte_step_word16 (cs : bool) (l : list Z) (c : Z) :
  word16 c -> word16 (fold_left (byte_step cs) l c).
Proof.
  revert c. induction l as [|b l IH]; intros c Hc; cbn; [exact Hc|].
  apply IH. now apply byte_step_word16.
Qed.

Lemma fold_byte_step_inj (cs : bool) (l : list Z) (c1 c2 : Z) :
  word16 c1 -> word16 c2 ->
  fold_left (byte_step cs) l c1 = fold_left (byte_step cs) l c2 -> c1 = c2.
Proof.
  revert c1 c2. induction l as [|b l IH]; intros c1 c2 H1 H2 E; cbn in E; [exact E|].
  apply IH in E; try now apply byte_step_word16.
  now apply byte_step_inj_crc in E.
Qed.

Lemma crc_bytes_word16 (cs : bool) (l : list Z) : word16 (crc_bytes cs l).
Proof. unfold crc_bytes. apply fold_byte_step_word16. unfold word16. lia. Qed.

(** Two byte sequences that differ in exactly one byte have different
    checksums. *)
Lemma crc_bytes_one_byte (cs : bool) (pre post : list Z) (b1 b2 : Z) :
  is_byte b1 -> is_byte b2 -> b1 <> b2 ->
  crc_bytes cs (pre ++ b1 :: post) <> crc_bytes cs (pre ++ b2 :: post).
Proof.
  intros H1 H2 Hne E. unfold crc_bytes in E.
  rewrite !fold_left_app in E. cbn [fold_left] in E.
  assert (Hc : word16 (fold_left (byte_step cs) pre 0))
    by (apply fold_byte_step_word16; unfold word16; lia).
  apply fold_byte_step_inj in E; try now apply byte_step_word16.
  now apply byte_step_inj_byte in E.
Qed.

(** XOR with a byte touches the low byte only. *)
Lemma lxor_low_byte (c b : Z) :
  0 <= c -> 0 <= b < 256 -> Z.lxor c b = ref_xor_low c b.
Proof.
  intros Hc Hb. unfold ref_xor_low.
  rewrite (Z.div_mod (Z.lxor c b) 256) at 1 by lia.
  f_equal.
  - f_equal. change 256 with (2 ^ 8). rewrite <- !Z.shiftr_div_pow2 by lia.
    rewrite Z.shiftr_lxor. rewrite (Z.shiftr_div_pow2 b) by lia.
    rewrite (Z.div_small b) by (change (2 ^ 8) with 256; lia).
    apply Z.lxor_0_r.
  - change 256 with (2 ^ 8). apply Z.bits_inj'. intros n Hn.
    rewrite Z.lxor_spec, !Z.testbit_mod_pow2, Z.lxor_spec by lia.
    destruct (Z.ltb_spec n 8) as [Hlt|Hge]; cbn [andb]; [reflexivity|].
    rewrite (Z.bits_above_log2 b n); [reflexivity|lia|].
    destruct (Z.eq_dec b 0) as [->|]; [cbn; lia|].
    apply Z.lt_le_trans with 8; [|exact Hge].
    apply Z.log2_lt_pow2; [lia|]. change (2 ^ 8) with 256. lia.
Qed.

Lemma byte_step_ref (cs : bool) (c b : Z) :
  word16 c -> 0 <= b < 256 -> to_u16 (char_value cs b) = b ->
  byte_step cs c b = ref_byte c b.
Proof.
  intros Hc Hb Hw. unfold byte_step, ref_byte. rewrite Hw.
  assert (Hx : word16 (Z.lxor c b)) by (apply lxor_word16; unfold word16 in *; lia).
  rewrite to_u16_small by exact Hx.
  rewrite <- lxor_low_byte by (unfold word16 in *; lia).
  cbn [bit_loop].
  repeat match goal with
         | |- context [shift_step ?x] =>
             rewrite (shift_step_ref x)
               by (repeat apply ref_step_word16; exact Hx)
         end.
  reflexivity.
Qed.

Lemma fold_byte_step_ref (cs : bool) (l : list Z) :
  forall c : Z,
    word16 c ->
    Forall (fun b => 0 <= b < 256 /\ to_u16 (char_value cs b) = b) l ->
    fold_left (byte_step cs) l c = ref_crc16 l c.
Proof.
  induction l as [|b l IH]; intros c Hc Hl; cbn; [reflexivity|].
  inversion Hl as [|? ? [Hb Hw] Hl']; subst.
  rewrite <- (byte_step_ref cs) by assumption.
  apply IH; [|assumption]. now apply byte_step_word16.
Qed.

(** The code computes the reference checksum on every sequence whose
    bytes widen to themselves. *)
Lemma crc_bytes_ref (cs : bool) (l : list Z) :
  Forall (fun b => 0 <= b < 256 /\ to_u16 (char_value cs b) = b) l ->
  crc_bytes cs l = ref_crc16 l 0.
Proof.
  intros Hl. unfold crc_bytes. apply fold_byte_step_ref; [|exact Hl].
  unfold word16. lia.
Qed.

(** The function returns a 16-bit value for every buffer and every
    length within it. *)
Lemma CRC16_IBM_REVERSED_total (cs : bool) (buf : list Z) (len : Z) :
  0 <= len <= Z.of_nat (length buf) ->
  exists crc, CRC16_IBM_REVERSED cs buf len = Ok crc /\ word16 crc.
Proof.
  intros H. unfold CRC16_IBM_REVERSED.
  replace (0 <=? len) with true by (symmetry; apply Z.leb_le; lia).
  replace (len <=? Z.of_nat (length buf)) with true
    by (symmetry; apply Z.leb_le; lia).
  eexists. split; [reflexivity|]. apply crc_bytes_word16.
Qed.

(** Where [char] is unsigned, and on 7-bit text where it is signed, the
    function computes the reference checksum. *)
Lemma CRC16_IBM_REVERSED_unsigned (buf : list Z) :
  Forall is_byte buf ->
  CRC16_IBM_REVERSED false buf (Z.of_nat (length buf))
  = Ok (ref_crc16 buf 0).
Proof.
  intros H. unfold CRC16_IBM_REVERSED.
  replace (0 <=? Z.of_nat (length buf)) with true
    by (symmetry; apply Z.leb_le; lia).
  rewrite Z.leb_refl, Nat2Z.id, firstn_all. cbn [andb]. f_equal.
  apply crc_bytes_ref. eapply Forall_impl; [|exact H].
  intros b Hb. split; [exact Hb|]. now apply widen_unsigned.
Qed.

Lemma CRC16_IBM_REVERSED_ascii (cs : bool) (buf : list Z) :
  Forall (fun b => 0 <= b < 128) buf ->
  CRC16_IBM_REVERSED cs buf (Z.of_nat (length buf))
  = Ok (ref_crc16 buf 0).
Proof.
  intros H. unfold CRC16_IBM_REVERSED.
  replace (0 <=? Z.of_nat (length buf)) with true
    by (symmetry; apply Z.leb_le; lia).
  rewrite Z.leb_refl, Nat2Z.id, firstn_all. cbn [andb]. f_equal.
  apply crc_bytes_ref. eapply Forall_impl; [|exact H].
  intros b Hb. cbv beta in Hb. split; [lia|]. now apply widen_ascii.
Qed.

(** C2 fails on the code where [char] is signed (the AVR boards): the
    byte 0x80 is widened to 0xFF80 before the XOR, which changes the high
    byte of the running value, and the result for the one-byte buffer
    [0x80] is 0xA0FE, not the reference checksum 0xA001. *)
Theorem C2_signed_char_reaches_high_byte :
  Z.lxor 0 (to_u16 (char_value true 0x80)) = 0xFF80
  /\ ref_xor_low 0 0x80 = 0x0080
  /\ CRC16_IBM_REVERSED true [0x80] 1 = Ok 0xA0FE
  /\ ref_crc16 [0x80] 0 = 0xA001
  /\ CRC16_IBM_REVERSED false [0x80] 1 = Ok 0xA001.
Proof. vm_compute. repeat split; reflexivity. Qed.

End CRC16Facts.

(** ** Lists and arrays *)

Lemma list_set_length {A : Type} (l : list A) (i : nat) (v : A) :
  length (list_set l i v) = length l.
Proof.
  revert i. induction l as [|x l IH]; intros [|i]; cbn; auto.
Qed.

Lemma list_set_firstn_snoc {A : Type} (l : list A) (i : nat) (v : A) :
  (i < length l)%nat -> firstn (S i) (list_set l i v) = firstn i l ++ [v].
Proof.
  revert i. induction l as [|x l IH]; intros [|i] H; cbn in *; try lia.
  - reflexivity.
  - f_equal. apply IH. lia.
Qed.

Lemma list_set_firstn {A : Type} (l : list A) (i : nat) (v : A) :
  firstn i (list_set l i v) = firstn i l.
Proof.
  revert i. induction l as [|x l IH]; intros [|i]; cbn; auto. now rewrite IH.
Qed.

Lemma list_set_skipn {A : Type} (l : list A) (i : nat) (v : A) :
  skipn (S i) (list_set l i v) = skipn (S i) l.
Proof.
  revert i. induction l as [|x l IH]; intros [|i]; cbn; auto. apply IH.
Qed.

Lemma list_set_nth_other (l : list Z) (i j : nat) (v : Z) :
  i <> j -> nth j (list_set l i v) 0 = nth j l 0.
Proof.
  revert i j. induction l as [|x l IH]; intros [|i] [|j] H; cbn; auto; try lia.
Qed.

Lemma list_set_nth_same (l : list Z) (i : nat) (v : Z) :
  (i < length l)%nat -> nth i (list_set l i v) 0 = v.
Proof.
  revert i. induction l as [|x l IH]; intros [|i] H; cbn in *; auto; try lia.
  apply IH. lia.
Qed.

Lemma Forall_prefix {A : Type} (P : A -> Prop) (n : nat) (l : list A) :
  Forall P l -> Forall P (firstn n l).
Proof.
  intros H. revert n. induction H as [|x l Hx _ IH]; intros [|n]; cbn;
    constructor; auto.
Qed.

Lemma skipn_exact {A : Type} (n : nat) (l r : list A) :
  length l = n -> skipn n (l ++ r) = r.
Proof.
  intros <-. rewrite skipn_app, Nat.sub_diag, skipn_all. reflexivity.
Qed.

Lemma store_ok {A : Type} (o : object) (l : list A) (i : Z) (v : A) :
  0 <= i < Z.of_nat (length l) ->
  store o l i v = Ok (list_set l (Z.to_nat i) v).
Proof.
  intros H. unfold store, in_bounds.
  replace (0 <=? i) with true by (symmetry; apply Z.leb_le; lia).
  replace (i <? Z.of_nat (length l)) with true by (symmetry; apply Z.ltb_lt; lia).
  reflexivity.
Qed.

Lemma store_inv {A : Type} (o : object) (l l' : list A) (i : Z) (v : A) :
  store o l i v = Ok l' ->
  0 <= i < Z.of_nat (length l) /\ l' = list_set l (Z.to_nat i) v.
Proof.
  unfold store, in_bounds.
  destruct (Z.leb_spec 0 i), (Z.ltb_spec i (Z.of_nat (length l)));
    cbn; intros E; inversion E; subst; auto.
Qed.

(** ** The byte accumulator *)

Module Accumulator.

Lemma make_ready_DataReady (m : P1Meter) : DataReady (make_ready m) = true.
Proof. unfold make_ready. cbn. destruct (negb _); reflexivity. Qed.

Lemma make_ready_bufferIndex (m : P1Meter) :
  bufferIndex (make_ready m) = bufferIndex m.
Proof. unfold make_ready. cbn. destruct (negb _); reflexivity. Qed.

Lemma make_ready_buffer (m : P1Meter) : buffer (make_ready m) = buffer m.
Proof. unfold make_ready. cbn. destruct (negb _); reflexivity. Qed.

Lemma make_ready_heap (m : P1Meter) :
  heap_before (make_ready m) = heap_before m.
Proof. unfold make_ready. cbn. destruct (negb _); reflexivity. Qed.

Lemma raise_cts_frame (m : P1Meter) :
  buffer (raise_cts m) = buffer m /\ heap_before (raise_cts m) = heap_before m
  /\ bufferIndex (raise_cts m) = bufferIndex m
  /\ DataReady (raise_cts m) = DataReady m /\ data (raise_cts m) = data m.
Proof. unfold raise_cts. destruct (_ && _); cbn; auto. Qed.

(** The lookbehind reads the history. *)
Lemma lookbehind_consulted (m : P1Meter) :
  length (heap_before m) = 5%nat ->
  1 <= bufferIndex m <= Z.of_nat (length (buffer m)) ->
  lookbehind m (bufferIndex m - 6) = Ok (consulted m).
Proof.
  intros Hh Hi. unfold lookbehind, consulted, history.
  destruct (Z.leb_spec 0 (bufferIndex m - 6)) as [Hge|Hlt].
  - unfold load, in_bounds.
    replace (0 <=? bufferIndex m - 6) with true by (symmetry; apply Z.leb_le; lia).
    replace (bufferIndex m - 6 <? Z.of_nat (length (buffer m))) with true
      by (symmetry; apply Z.ltb_lt; lia).
    cbn [andb]. f_equal.
    rewrite app_nth2 by (rewrite length_rev; lia).
    rewrite length_rev, Hh.
    replace (Z.to_nat (bufferIndex m - 1) - 5)%nat
      with (Z.to_nat (bufferIndex m - 6)) by lia.
    rewrite nth_firstn.
    replace (Z.to_nat (bufferIndex m - 6) <? Z.to_nat (bufferIndex m))%nat
      with true by (symmetry; apply Nat.ltb_lt; lia).
    reflexivity.
  - assert (Hn : (Z.to_nat (- (bufferIndex m - 6) - 1) < length (heap_before m))%nat)
      by lia.
    destruct (nth_error (heap_before m) (Z.to_nat (- (bufferIndex m - 6) - 1)))
      as [c|] eqn:E; [|apply nth_error_None in E; lia].
    f_equal.
    rewrite app_nth1 by (rewrite length_rev; lia).
    rewrite rev_nth by lia.
    replace (length (heap_before m) - S (Z.to_nat (bufferIndex m - 1)))%nat
      with (Z.to_nat (- (bufferIndex m - 6) - 1)) by lia.
    symmetry. now apply nth_error_nth.
Qed.

Lemma lookbehind_stored (m : P1Meter) (b : Z) (i : Z) :
  0 <= bufferIndex m -> i <> bufferIndex m ->
  lookbehind
    (set_buffer (list_set (buffer m) (Z.to_nat (bufferIndex m)) b) m) i
  = lookbehind m i.
Proof.
  intros Hpos Hne. unfold lookbehind. cbn.
  destruct (Z.leb_spec 0 i); [|reflexivity].
  unfold load, in_bounds. rewrite list_set_length.
  destruct ((0 <=? i) && (i <? Z.of_nat (length (buffer m)))) eqn:E; [|reflexivity].
  f_equal. apply list_set_nth_other.
  apply andb_prop in E. destruct E as [E1 E2].
  apply Z.leb_le in E1. apply Z.ltb_lt in E2.
  lia.
Qed.

(** What one byte does, in terms of the consulted byte. *)
Lemma receive_byte_spec (m : P1Meter) (b : Z) :
  length (heap_before m) = 5%nat ->
  1 <= bufferIndex m < Z.of_nat (length (buffer m)) ->
  receive_byte m b =
    Ok (if consulted m =? ch_bang then finish m b else push m b).
Proof.
  intros Hh Hi. unfold receive_byte.
  rewrite store_ok by lia. cbn [bind].
  change (bufferIndex (set_buffer _ m)) with (bufferIndex m).
  rewrite lookbehind_stored by lia.
  rewrite lookbehind_consulted by (assumption || lia). cbn [bind].
  destruct (consulted m =? ch_bang); reflexivity.
Qed.

Lemma push_history (m : P1Meter) (b : Z) :
  0 <= bufferIndex m < Z.of_nat (length (buffer m)) ->
  Z.of_nat (length (buffer m)) <= 32767 ->
  history (push m b) = history m ++ [to_u8 b].
Proof.
  intros Hi Hl. unfold history, push. cbn.
  rewrite to_i16_small by lia.
  replace (Z.to_nat (bufferIndex m + 1)) with (S (Z.to_nat (bufferIndex m))) by lia.
  rewrite list_set_firstn_snoc by lia. now rewrite app_assoc.
Qed.

Lemma push_frame (m : P1Meter) (b : Z) :
  0 <= bufferIndex m < Z.of_nat (length (buffer m)) ->
  Z.of_nat (length (buffer m)) <= 32767 ->
  bufferIndex (push m b) = bufferIndex m + 1
  /\ length (buffer (push m b)) = length (buffer m)
  /\ heap_before (push m b) = heap_before m
  /\ DataReady (push m b) = DataReady m
  /\ data (push m b) = data m.
Proof.
  intros Hi Hl. unfold push. cbn. rewrite list_set_length.
  rewrite to_i16_small by lia. auto.
Qed.

(** A run of bytes none of which finds the terminator six places back. *)
Lemma receive_loop_quiet (seg : list Z) :
  forall (m : P1Meter) (rest : list Z),
    length (heap_before m) = 5%nat ->
    Z.of_nat (length (buffer m)) <= 32767 ->
    DataReady m = false ->
    1 <= bufferIndex m ->
    bufferIndex m + Z.of_nat (length seg) <= Z.of_nat (length (buffer m)) ->
    (forall j, (j < length seg)%nat ->
       nth (Z.to_nat (bufferIndex m - 1) + j) (history m ++ map to_u8 seg) 0
       <> ch_bang) ->
    receive_loop (seg ++ rest) m = receive_loop rest (fold_left push seg m)
    /\ history (fold_left push seg m) = history m ++ map to_u8 seg
    /\ bufferIndex (fold_left push seg m) = bufferIndex m + Z.of_nat (length seg)
    /\ length (buffer (fold_left push seg m)) = length (buffer m)
    /\ heap_before (fold_left push seg m) = heap_before m
    /\ DataReady (fold_left push seg m) = false.
Proof.
  induction seg as [|b seg IH]; intros m rest Hh Hl Hr Hi Hfit Hq.
  - cbn. rewrite app_nil_r, Z.add_0_r. repeat split; auto.
  - cbn [length] in Hfit. rewrite Nat2Z.inj_succ in Hfit.
    assert (Hlen : length (history m) = (5 + Z.to_nat (bufferIndex m))%nat).
    { unfold history. rewrite length_app, length_rev, Hh, length_firstn. lia. }
    assert (Hc : consulted m <> ch_bang).
    { specialize (Hq O ltac:(cbn; lia)). rewrite Nat.add_0_r in Hq.
      rewrite app_nth1 in Hq by lia. exact Hq. }
    destruct (push_frame m b ltac:(lia) Hl) as (Pi & Pl & Ph & Pr & _).
    pose proof (push_history m b ltac:(lia) Hl) as PH.
    cbn [app fold_left receive_loop]. rewrite Hr.
    rewrite receive_byte_spec by (assumption || lia).
    replace (consulted m =? ch_bang) with false
      by (symmetry; apply Z.eqb_neq; exact Hc).
    destruct (IH (push m b) rest) as (E & H1 & H2 & H3 & H4 & H5).
    + now rewrite Ph.
    + now rewrite Pl.
    + now rewrite Pr.
    + lia.
    + rewrite Pi, Pl. lia.
    + intros j Hj. rewrite PH, Pi, <- app_assoc. cbn [app].
      specialize (Hq (S j) ltac:(cbn; lia)). cbn [map] in Hq.
      replace (Z.to_nat (bufferIndex m + 1 - 1) + j)%nat
        with (Z.to_nat (bufferIndex m - 1) + S j)%nat by lia.
      exact Hq.
    + rewrite E, H1, H2, H3, H4, H5, PH, Pi, Pl, Ph, <- app_assoc.
      cbn [map app length]. rewrite Nat2Z.inj_succ.
      repeat split; try reflexivity. lia.
Qed.

End Accumulator.

Module AccumulatorClaims.
Import Accumulator.

Lemma lookbehind_ext (m1 m2 : P1Meter) (i : Z) :
  buffer m1 = buffer m2 -> heap_before m1 = heap_before m2 ->
  lookbehind m1 i = lookbehind m2 i.
Proof. intros Hb Hh. unfold lookbehind. now rewrite Hb, Hh. Qed.

(** The step taken on one byte is decided by the byte six positions
    behind the write position. *)
Lemma receive_byte_ready_iff (m : P1Meter) (b : Z) (m' : P1Meter) :
  DataReady m = false ->
  receive_byte m b = Ok m' ->
  (DataReady m' = true <-> lookbehind m' (bufferIndex m - 6) = Ok ch_bang).
Proof.
  intros Hr. unfold receive_byte.
  destruct (store Buffer (buffer m) (bufferIndex m) (to_u8 b)) as [buf'| |];
    cbn [bind]; try discriminate.
  change (bufferIndex (set_buffer buf' m)) with (bufferIndex m).
  destruct (lookbehind (set_buffer buf' m) (bufferIndex m - 6)) as [c| |] eqn:L;
    cbn [bind]; try discriminate.
  destruct (Z.eqb_spec c ch_bang) as [->|Hne]; intros E; inversion E; subst m'.
  - rewrite make_ready_DataReady.
    rewrite (lookbehind_ext _ (set_buffer buf' m))
      by (apply make_ready_buffer || apply make_ready_heap).
    rewrite L. tauto.
  - cbn [DataReady set_bufferIndex set_buffer]. rewrite Hr.
    rewrite (lookbehind_ext _ (set_buffer buf' m)) by reflexivity.
    rewrite L. split; [discriminate|]. intros X. inversion X. contradiction.
Qed.

Lemma receive_loop_ready (serial : list Z) (m : P1Meter) :
  DataReady m = true -> receive_loop serial m = Returned m serial.
Proof. intros H. destruct serial; cbn; rewrite H; reflexivity. Qed.

Lemma map_to_u8_bytes (l : list Z) : Forall is_byte l -> map to_u8 l = l.
Proof.
  induction 1 as [|x l Hx _ IH]; cbn; [reflexivity|].
  rewrite IH, to_u8_small by exact Hx. reflexivity.
Qed.

Lemma ReceiveTelegram_start (m : P1Meter) (serial : list Z) :
  (0 < length (buffer m))%nat ->
  ReceiveTelegram m (ch_slash :: serial) = receive_loop serial (started m).
Proof.
  intros Hl. unfold ReceiveTelegram, started.
  change (to_u8 ch_slash) with ch_slash. cbn [Z.eqb negb ch_slash Pos.eqb].
  destruct (raise_cts_frame m) as (Hb & _).
  rewrite store_ok by (rewrite Hb; lia). reflexivity.
Qed.

Lemma started_facts (m : P1Meter) :
  meter_wf m ->
  history (started m) = rev (heap_before m) ++ [ch_slash]
  /\ bufferIndex (started m) = 1
  /\ length (buffer (started m)) = length (buffer m)
  /\ heap_before (started m) = heap_before m
  /\ DataReady (started m) = DataReady m
  /\ data (started m) = data m.
Proof.
  intros [Hl Hh]. destruct (raise_cts_frame m) as (Hb & Hhp & _ & Hr & Hd).
  unfold history, started. cbn. rewrite list_set_length, Hb, Hhp, Hr, Hd.
  repeat split; try reflexivity.
  f_equal. destruct (buffer m); [cbn in Hl; unfold BUFFER_SIZE in Hl; lia|].
  reflexivity.
Qed.

(** No byte of a prefix of the inner part finds a terminator six places
    back. *)
Lemma telegram_quiet (heap body tail seg : list Z) :
  length heap = 5%nat ->
  Forall (fun c => c <> ch_bang) heap ->
  Forall no_bang body ->
  (length seg <= length body + 6)%nat ->
  seg = firstn (length seg) (body ++ tail) ->
  Forall is_byte seg ->
  forall j, (j < length seg)%nat ->
    nth (Z.to_nat (1 - 1) + j) ((rev heap ++ [ch_slash]) ++ map to_u8 seg) 0
    <> ch_bang.
Proof.
  intros Hh Hheap Hbody Hlen Hseg Hbytes j Hj. cbn [Z.sub Z.to_nat Nat.add Z.opp Z.add Z.pos_sub].
  rewrite map_to_u8_bytes by exact Hbytes.
  assert (Hr : length (rev heap ++ [ch_slash]) = 6%nat)
    by (rewrite length_app, length_rev, Hh; reflexivity).
  destruct (Nat.lt_ge_cases j 6) as [Hlt|Hge].
  - rewrite app_nth1 by lia.
    destruct (Nat.eq_dec j 5) as [->|Hne].
    + rewrite app_nth2 by (rewrite length_rev; lia).
      rewrite length_rev, Hh. cbn. unfold ch_slash, ch_bang. lia.
    + rewrite app_nth1 by (rewrite length_rev; lia).
      apply Forall_rev in Hheap. rewrite Forall_forall in Hheap.
      apply Hheap. apply nth_In. rewrite length_rev. lia.
  - rewrite app_nth2 by lia. rewrite Hr.
    rewrite Hseg, nth_firstn.
    replace (j - 6 <? length seg)%nat with true
      by (symmetry; apply Nat.ltb_lt; lia).
    rewrite app_nth1 by lia.
    rewrite Forall_forall in Hbody.
    apply (Hbody (nth (j - 6) body 0)). apply nth_In. lia.
Qed.

Lemma inner_bytes (body : list Z) (a b c e : Z) :
  Forall no_bang body -> is_byte a -> is_byte b -> is_byte c -> is_byte e ->
  Forall is_byte (inner body a b c e).
Proof.
  intros Hb Ha Hb' Hc He. unfold inner. apply Forall_app. split.
  - eapply Forall_impl; [|exact Hb]. intros x [Hx _]. exact Hx.
  - repeat apply Forall_cons; try assumption; try apply Forall_nil;
      unfold is_byte, ch_bang, ch_CR; lia.
Qed.

Lemma telegram_inner (body : list Z) (a b c e : Z) :
  telegram body a b c e = ch_slash :: inner body a b c e ++ [ch_LF].
Proof. unfold telegram, inner. rewrite <- app_assoc. reflexivity. Qed.

Lemma history_buffer (m : P1Meter) :
  length (heap_before m) = 5%nat ->
  firstn (Z.to_nat (bufferIndex m)) (buffer m) = skipn 5 (history m).
Proof.
  intros Hh. unfold history.
  rewrite skipn_app, length_rev, Hh, Nat.sub_diag.
  rewrite skipn_all2 by (rewrite length_rev; lia). reflexivity.
Qed.

(** Reception of a prefix of the inner part: the loop is still waiting. *)
Lemma receive_inner_prefix (m : P1Meter) (body : list Z) (a b c e : Z)
    (k : nat) (rest : list Z) :
  meter_wf m -> DataReady m = false ->
  Forall (fun x => x <> ch_bang) (heap_before m) ->
  Forall no_bang body -> is_byte a -> is_byte b -> is_byte c -> is_byte e ->
  Z.of_nat (length (telegram body a b c e)) <= BUFFER_SIZE + 1 ->
  (k <= length (inner body a b c e))%nat ->
  let seg := firstn k (inner body a b c e) in
  let m' := fold_left push seg (started m) in
  receive_loop (seg ++ rest) (started m) = receive_loop rest m'
  /\ history m' = (rev (heap_before m) ++ [ch_slash]) ++ seg
  /\ bufferIndex m' = 1 + Z.of_nat k
  /\ length (buffer m') = length (buffer m)
  /\ heap_before m' = heap_before m
  /\ DataReady m' = false.
Proof.
  intros Hwf Hr Hheap Hbody Ha Hb Hc He Hfit Hk seg m'.
  pose proof Hwf as [Hl Hh].
  destruct (started_facts m Hwf) as (SH & SI & SL & SP & SR & _).
  assert (Hin : length (inner body a b c e) = (length body + 6)%nat)
    by (unfold inner; rewrite length_app; cbn; lia).
  assert (Hsl : length seg = k) by (unfold seg; rewrite length_firstn; lia).
  assert (Hsb : Forall is_byte seg).
  { unfold seg. apply Forall_prefix. now apply inner_bytes. }
  rewrite telegram_inner in Hfit. cbn [length] in Hfit.
  rewrite length_app in Hfit. cbn [length] in Hfit.
  unfold BUFFER_SIZE in *.
  destruct (receive_loop_quiet seg (started m) rest) as (E & H1 & H2 & H3 & H4 & H5).
  - now rewrite SP.
  - rewrite SL. lia.
  - now rewrite SR.
  - lia.
  - rewrite SI, SL, Hsl. lia.
  - rewrite SI, SH. intros j Hj.
    apply (telegram_quiet (heap_before m) body [ch_bang; a; b; c; e; ch_CR] seg);
      try assumption.
    + lia.
    + rewrite Hsl. reflexivity.
  - fold m' in E, H1, H2, H3, H4, H5.
    rewrite E, H1, H2, H3, H4, H5, SH, SI, SL, SP, Hsl.
    rewrite map_to_u8_bytes by exact Hsb.
    repeat split; reflexivity.
Qed.

(** Reception of a whole telegram. *)
Lemma ReceiveTelegram_complete (m : P1Meter) (body : list Z) (a b c e : Z)
    (rest : list Z) :
  meter_wf m -> DataReady m = false ->
  Forall (fun x => x <> ch_bang) (heap_before m) ->
  Forall no_bang body -> is_byte a -> is_byte b -> is_byte c -> is_byte e ->
  Z.of_nat (length (telegram body a b c e)) <= BUFFER_SIZE + 1 ->
  exists m',
    ReceiveTelegram m (telegram body a b c e ++ rest) = Returned m' rest
    /\ DataReady m' = true
    /\ bufferIndex m' = Z.of_nat (length (telegram body a b c e)) - 1
    /\ firstn (length (telegram body a b c e)) (buffer m')
       = telegram body a b c e
    /\ length (buffer m') = length (buffer m).
Proof.
  intros Hwf Hr Hheap Hbody Ha Hb Hc He Hfit.
  pose proof Hwf as [Hl Hh].
  assert (Hin : length (inner body a b c e) = (length body + 6)%nat)
    by (unfold inner; rewrite length_app; cbn; lia).
  assert (Hpos : (0 < length (buffer m))%nat) by (unfold BUFFER_SIZE in Hl; lia).
  destruct (receive_inner_prefix m body a b c e
              (length (inner body a b c e)) (ch_LF :: rest))
    as (E & H1 & H2 & H3 & H4 & H5); try assumption; [lia|].
  rewrite firstn_all in *.
  set (m2 := fold_left push (inner body a b c e) (started m)) in *.
  assert (Hfit' := Hfit). rewrite telegram_inner in Hfit'.
  cbn [length] in Hfit'. rewrite length_app in Hfit'. cbn [length] in Hfit'.
  unfold BUFFER_SIZE in *.
  assert (Hcons : consulted m2 = ch_bang).
  { unfold consulted. rewrite H1, H2.
    assert (H6 : length (rev (heap_before m) ++ [ch_slash]) = 6%nat)
      by (rewrite length_app, length_rev, Hh; reflexivity).
    rewrite app_nth2 by lia. rewrite H6.
    unfold inner in *. rewrite app_nth2 by lia.
    replace (Z.to_nat (1 + Z.of_nat (length (body ++ [ch_bang; a; b; c; e; ch_CR])) - 1)
             - 6 - length body)%nat with O by lia.
    reflexivity. }
  exists (finish m2 ch_LF).
  rewrite telegram_inner. cbn [app]. rewrite <- app_assoc. cbn [app].
  rewrite ReceiveTelegram_start by exact Hpos.
  rewrite E. cbn [receive_loop]. rewrite H5.
  rewrite receive_byte_spec by (rewrite ?H3, ?H4, ?H2; lia).
  rewrite Hcons. cbn [Z.eqb ch_bang Pos.eqb].
  assert (Hfin : DataReady (finish m2 ch_LF) = true)
    by (unfold finish; apply make_ready_DataReady).
  rewrite receive_loop_ready by exact Hfin.
  split; [reflexivity|]. split; [exact Hfin|]. split; [|split].
  - unfold finish. rewrite make_ready_bufferIndex. cbn [bufferIndex set_buffer].
    rewrite H2. cbn [length]. rewrite length_app. cbn [length]. lia.
  - unfold finish. rewrite make_ready_buffer. cbn [buffer set_buffer].
    cbn [length]. rewrite length_app. cbn [length].
    replace (S (length (inner body a b c e) + 1))
      with (S (Z.to_nat (bufferIndex m2))) by (rewrite H2; lia).
    rewrite list_set_firstn_snoc by (rewrite H3, H2; lia).
    rewrite history_buffer by (rewrite H4; exact Hh).
    rewrite H1, <- app_assoc.
    rewrite skipn_exact by (rewrite length_rev; exact Hh).
    change (to_u8 ch_LF) with ch_LF. reflexivity.
  - unfold finish. rewrite make_ready_buffer. cbn [buffer set_buffer].
    rewrite list_set_length. exact H3.
Qed.

(** Reception of a shorter part of it. *)
Lemma ReceiveTelegram_waits (m : P1Meter) (body : list Z) (a b c e : Z) :
  meter_wf m -> DataReady m = false ->
  Forall (fun x => x <> ch_bang) (heap_before m) ->
  Forall no_bang body -> is_byte a -> is_byte b -> is_byte c -> is_byte e ->
  Z.of_nat (length (telegram body a b c e)) <= BUFFER_SIZE + 1 ->
  forall k, (0 < k < length (telegram body a b c e))%nat ->
    exists m', ReceiveTelegram m (firstn k (telegram body a b c e))
               = Blocked m'.
Proof.
  intros Hwf Hr Hheap Hbody Ha Hb Hc He Hfit.
  pose proof Hwf as [Hl Hh].
  assert (Hin : length (inner body a b c e) = (length body + 6)%nat)
    by (unfold inner; rewrite length_app; cbn; lia).
  assert (Hpos : (0 < length (buffer m))%nat) by (unfold BUFFER_SIZE in Hl; lia).
  intros k Hk.
  rewrite telegram_inner in Hk |- *. cbn [length] in Hk. rewrite length_app in Hk.
  cbn [length] in Hk.
  destruct k as [|k]; [lia|]. cbn [firstn].
  rewrite firstn_app.
  replace (k - length (inner body a b c e))%nat with O by lia.
  cbn [firstn]. 
  destruct (receive_inner_prefix m body a b c e k [])
    as (E & H1 & H2 & H3 & H4 & H5); try assumption; [lia|].
  rewrite ReceiveTelegram_start by exact Hpos.
  rewrite E. cbn [receive_loop]. rewrite H5. eexists. reflexivity.
Qed.

(** C3. The accumulator goes from Receiving to Ready exactly when the byte
    six positions behind the write position is ['!'].  For a telegram
    [/body!ABCD\r\n] whose body holds no ['!'], received into a buffer it
    fits in, with no ['!'] in the five bytes below the buffer:
    [ReceiveTelegram] returns with [DataReady] exactly after the last byte
    of the line ending, with the write position on that byte and the
    telegram in the buffer, and on every shorter non-empty prefix of the
    telegram it is still waiting. *)
Theorem C3_completion_six_behind :
  (forall (m : P1Meter) (b : Z) (m' : P1Meter),
     DataReady m = false ->
     receive_byte m b = Ok m' ->
     (DataReady m' = true <-> lookbehind m' (bufferIndex m - 6) = Ok ch_bang))
  /\
  (forall (m : P1Meter) (body : list Z) (a b c e : Z) (rest : list Z),
     meter_wf m -> DataReady m = false ->
     Forall (fun x => x <> ch_bang) (heap_before m) ->
     Forall no_bang body -> is_byte a -> is_byte b -> is_byte c -> is_byte e ->
     Z.of_nat (length (telegram body a b c e)) <= BUFFER_SIZE + 1 ->
     (exists m',
        ReceiveTelegram m (telegram body a b c e ++ rest) = Returned m' rest
        /\ DataReady m' = true
        /\ bufferIndex m' = Z.of_nat (length (telegram body a b c e)) - 1
        /\ firstn (length (telegram body a b c e)) (buffer m')
           = telegram body a b c e)
     /\
     (forall k, (0 < k < length (telegram body a b c e))%nat ->
        exists m', ReceiveTelegram m (firstn k (telegram body a b c e))
                   = Blocked m')).
Proof.
  split; [exact receive_byte_ready_iff|].
  intros m body a b c e rest Hwf Hr Hheap Hbody Ha Hb Hc He Hfit. split.
  - destruct (ReceiveTelegram_complete m body a b c e rest)
      as (m' & H1 & H2 & H3 & H4 & _); try assumption.
    exists m'. auto.
  - now apply ReceiveTelegram_waits.
Qed.

Lemma C3_completion_six_behind_witness :
  (DataReady (push receiving_meter 67) = true
   <-> lookbehind (push receiving_meter 67) (bufferIndex receiving_meter - 6)
       = Ok ch_bang)
  /\ (exists m',
        ReceiveTelegram sample_meter (telegram [65; 66] 49 50 51 52 ++ [])
          = Returned m' []
        /\ DataReady m' = true
        /\ bufferIndex m' = Z.of_nat (length (telegram [65; 66] 49 50 51 52)) - 1
        /\ firstn (length (telegram [65; 66] 49 50 51 52)) (buffer m')
           = telegram [65; 66] 49 50 51 52).
Proof.
  destruct C3_completion_six_behind as [A B]. split.
  - apply (A receiving_meter 67 (push receiving_meter 67)); reflexivity.
  - apply (B sample_meter [65; 66] 49 50 51 52 []).
    + split; reflexivity.
    + reflexivity.
    + cbn. repeat constructor; discriminate.
    + repeat constructor; unfold is_byte; try lia; discriminate.
    + unfold is_byte; lia.
    + unfold is_byte; lia.
    + unfold is_byte; lia.
    + unfold is_byte; lia.
    + cbn. lia.
Defined.

(** C6, as the specification states it, fails: a ['/'] that arrives
    during reception resets nothing.  After [/AB] the byte ['/'] is
    stored at position 3 and the write position moves to 4; the whole
    stream [/AB/CD!1234\r\n] becomes one telegram, from which a reading is
    decoded whose header text begins with the interrupted capture. *)
Lemma C6_counterexample :
  (exists m', receive_byte receiving_meter ch_slash = Ok m'
              /\ bufferIndex m' = 4 /\ bufferIndex m' <> 1
              /\ firstn 4 (buffer m') = bytes_of_string "/AB/")
  /\ (exists m d m',
        ReceiveTelegram sample_meter preempted_stream = Returned m []
        /\ firstn 13 (buffer m) = preempted_stream
        /\ ProcessTelegram false m = Ok (d, m')
        /\ HeaderInfo d = bytes_of_string "AB/CD!1234" ++ [ch_CR]).
Proof.
  split.
  - eexists. split; [vm_compute; reflexivity|]. vm_compute.
    repeat split; discriminate.
  - match eval vm_compute in (ReceiveTelegram sample_meter preempted_stream) with
    | Returned ?m _ =>
        match eval vm_compute in (ProcessTelegram false m) with
        | Ok (?d, ?m') => exists m, d, m'
        end
    end.
    repeat split; vm_compute; reflexivity.
Qed.

(** One pass of the loop on a ['/']: it is stored at the write position
    like any other byte, the bytes captured so far stay in the buffer, the
    write position either stays (the telegram is complete) or advances by
    one, and the step taken is the one any other byte would have caused. *)
Lemma receive_byte_start_marker (m m' : P1Meter) :
  meter_wf m ->
  receive_byte m ch_slash = Ok m' ->
  firstn (Z.to_nat (bufferIndex m)) (buffer m')
  = firstn (Z.to_nat (bufferIndex m)) (buffer m)
  /\ nth (Z.to_nat (bufferIndex m)) (buffer m') 0 = ch_slash
  /\ ((DataReady m' = true /\ bufferIndex m' = bufferIndex m)
      \/ (DataReady m' = DataReady m /\ bufferIndex m' = bufferIndex m + 1))
  /\ (forall b, exists m'',
        receive_byte m b = Ok m''
        /\ DataReady m'' = DataReady m' /\ bufferIndex m'' = bufferIndex m').
Proof.
  intros [Hl Hh]. unfold receive_byte at 1. unfold BUFFER_SIZE in Hl.
  destruct (store Buffer (buffer m) (bufferIndex m) (to_u8 ch_slash))
    as [buf'| |] eqn:S; cbn [bind]; try discriminate.
  apply store_inv in S. destruct S as [Hi ->].
  change (bufferIndex (set_buffer _ m)) with (bufferIndex m).
  rewrite lookbehind_stored by lia.
  destruct (lookbehind m (bufferIndex m - 6)) as [c| |] eqn:L;
    cbn [bind]; try discriminate.
  assert (Hany : forall b,
    receive_byte m b =
      Ok (if c =? ch_bang then finish m b else push m b)).
  { intros b. unfold receive_byte. rewrite store_ok by lia. cbn [bind].
    change (bufferIndex (set_buffer _ m)) with (bufferIndex m).
    rewrite lookbehind_stored by lia. rewrite L. cbn [bind].
    destruct (c =? ch_bang); reflexivity. }
  change (to_u8 ch_slash) with ch_slash.
  destruct (c =? ch_bang); intros E; inversion E; subst m'; clear E.
  - rewrite make_ready_buffer, make_ready_DataReady, make_ready_bufferIndex.
    cbn [buffer bufferIndex set_buffer].
    rewrite list_set_firstn, list_set_nth_same by lia.
    repeat split; auto.
    intros b. eexists. split; [apply Hany|]. unfold finish.
    rewrite make_ready_DataReady, make_ready_bufferIndex. auto.
  - cbn [buffer bufferIndex DataReady set_buffer set_bufferIndex].
    rewrite list_set_firstn, list_set_nth_same by lia.
    rewrite to_i16_small by lia.
    repeat split; auto.
    intros b. eexists. split; [apply Hany|]. unfold push. cbn.
    rewrite to_i16_small by lia. auto.
Qed.

End AccumulatorClaims.

(** ** Pointers and the C library functions *)

Module LibCFacts.
Import LibC.

Lemma ptr_ok (o : object) (l : list Z) (i : Z) :
  0 <= i <= Z.of_nat (length l) -> ptr o l i = Ok (skipn (Z.to_nat i) l).
Proof.
  intros H. unfold ptr.
  replace (0 <=? i) with true by (symmetry; apply Z.leb_le; lia).
  replace (i <=? Z.of_nat (length l)) with true by (symmetry; apply Z.leb_le; lia).
  reflexivity.
Qed.

Lemma ptr_inv (o : object) (l s : list Z) (i : Z) :
  ptr o l i = Ok s ->
  0 <= i <= Z.of_nat (length l) /\ s = skipn (Z.to_nat i) l.
Proof.
  unfold ptr.
  destruct (Z.leb_spec 0 i), (Z.leb_spec i (Z.of_nat (length l)));
    cbn; intros E; inversion E; auto.
Qed.

(** A position from which the buffer is known to continue with [l]. *)
Lemma skipn_bound {A : Type} (n : nat) (buf l : list A) :
  skipn n buf = l -> l <> [] -> (n < length buf)%nat.
Proof.
  intros E Hl. destruct (Nat.lt_ge_cases n (length buf)) as [|Hge]; [assumption|].
  rewrite skipn_all2 in E by exact Hge. congruence.
Qed.

Lemma skipn_length_eq {A : Type} (n : nat) (buf l : list A) :
  skipn n buf = l -> l <> [] -> length buf = (n + length l)%nat.
Proof.
  intros E Hl. pose proof (skipn_bound n buf l E Hl).
  rewrite <- E, length_skipn. lia.
Qed.

Lemma skipn_further {A : Type} (n k : nat) (buf l : list A) :
  skipn n buf = l -> skipn (n + k) buf = skipn k l.
Proof. intros <-. now rewrite skipn_skipn, Nat.add_comm. Qed.

Lemma ptr_at (buf l : list Z) (s k : Z) :
  0 <= s -> skipn (Z.to_nat s) buf = l -> l <> [] ->
  0 <= k <= Z.of_nat (length l) ->
  ptr Buffer buf (s + k) = Ok (skipn (Z.to_nat k) l).
Proof.
  intros Hs E Hl Hk.
  pose proof (skipn_length_eq _ _ _ E Hl) as Hlen.
  rewrite ptr_ok by lia.
  rewrite Z2Nat.inj_add by lia. f_equal. now apply skipn_further.
Qed.

Lemma strchr_found (pre post : list Z) (c : Z) :
  Forall (quiet_for c) pre ->
  strchr (pre ++ c :: post) c = Some (Some (length pre)).
Proof.
  induction 1 as [|x pre [Hx H0] _ IH]; cbn.
  - now rewrite Z.eqb_refl.
  - replace (x =? c) with false by (symmetry; now apply Z.eqb_neq).
    replace (x =? 0) with false by (symmetry; now apply Z.eqb_neq).
    now rewrite IH.
Qed.

Lemma strncpy_exact (l rest : list Z) :
  Forall (fun x => x <> 0) l -> strncpy (l ++ rest) (length l) = Some l.
Proof.
  induction 1 as [|x l Hx _ IH]; cbn; [reflexivity|].
  replace (x =? 0) with false by (symmetry; now apply Z.eqb_neq).
  now rewrite IH.
Qed.

Lemma strncpy_length (n : nat) :
  forall (src out : list Z), strncpy src n = Some out -> length out = n.
Proof.
  induction n as [|n IH]; intros src out; cbn.
  - intros E. inversion E. reflexivity.
  - destruct src as [|c src]; [discriminate|].
    destruct (c =? 0).
    + intros E. inversion E. cbn. now rewrite repeat_length.
    + destruct (strncpy src n) as [o|] eqn:S; cbn; [|discriminate].
      intros E. inversion E. cbn. f_equal. now apply (IH src).
Qed.

(** *** Decimal and hexadecimal digits *)

Lemma isdigit_range (c : Z) : isdigit c = true <-> 48 <= c <= 57.
Proof. unfold isdigit. rewrite Bool.andb_true_iff, Z.leb_le, Z.leb_le. tauto. Qed.

Lemma digit_value_digit (c : Z) :
  48 <= c <= 57 -> digit_value c = Some (c - 48).
Proof.
  intros H. unfold digit_value.
  replace (isdigit c) with true by (symmetry; now apply isdigit_range).
  reflexivity.
Qed.

Lemma isspace_false (c : Z) : 33 <= c -> isspace c = false.
Proof.
  intros H. unfold isspace.
  replace (c =? 32) with false by (symmetry; apply Z.eqb_neq; lia).
  replace (c <=? 13) with false by (symmetry; apply Z.leb_gt; lia).
  now rewrite Bool.andb_false_r.
Qed.

Lemma hexdigit_cases (c : Z) :
  hexdigit c = true <-> 48 <= c <= 57 \/ 65 <= c <= 70 \/ 97 <= c <= 102.
Proof.
  unfold hexdigit, isdigit.
  rewrite !Bool.orb_true_iff, !Bool.andb_true_iff, !Z.leb_le. tauto.
Qed.

Lemma digit_value_hex (c : Z) :
  hexdigit c = true ->
  digit_value c = Some (hexval c) /\ 0 <= hexval c < 16.
Proof.
  intros H. apply hexdigit_cases in H.
  unfold digit_value, hexval, isdigit, isupper, islower.
  destruct (Z.leb_spec 48 c), (Z.leb_spec c 57), (Z.leb_spec 65 c),
    (Z.leb_spec c 90), (Z.leb_spec c 70), (Z.leb_spec 97 c),
    (Z.leb_spec c 122); cbn; split; try reflexivity; lia.
Qed.

(** [strtoul] in base 16 on four hexadecimal digits reads their value. *)
Lemma strtoul_hex4 (a b c e : Z) :
  hexdigit a = true -> hexdigit b = true ->
  hexdigit c = true -> hexdigit e = true ->
  strtoul [a; b; c; e; 0] 16 = Some (hex4 a b c e)
  /\ 0 <= hex4 a b c e < 65536.
Proof.
  intros Ha Hb Hc He.
  destruct (digit_value_hex a Ha) as [Da Ra], (digit_value_hex b Hb) as [Db Rb],
    (digit_value_hex c Hc) as [Dc Rc], (digit_value_hex e He) as [De Re].
  assert (Hr : 0 <= hex4 a b c e < 65536) by (unfold hex4; lia).
  split; [|exact Hr].
  apply hexdigit_cases in Ha, Hb.
  unfold strtoul. cbn [skip_space].
  rewrite isspace_false by lia.
  unfold skip_sign.
  replace (a =? 45) with false by (symmetry; apply Z.eqb_neq; lia).
  replace (a =? 43) with false by (symmetry; apply Z.eqb_neq; lia).
  unfold skip_hex_prefix.
  replace ((b =? 120) || (b =? 88)) with false
    by (symmetry; apply Bool.orb_false_iff; split; apply Z.eqb_neq; lia).
  rewrite Bool.andb_false_r.
  cbn [accumulate]. rewrite Da, Db, Dc, De.
  replace (hexval a <? 16) with true by (symmetry; apply Z.ltb_lt; lia).
  replace (hexval b <? 16) with true by (symmetry; apply Z.ltb_lt; lia).
  replace (hexval c <? 16) with true by (symmetry; apply Z.ltb_lt; lia).
  replace (hexval e <? 16) with true by (symmetry; apply Z.ltb_lt; lia).
  change (digit_value 0) with (@None Z). cbv beta iota.
  change (0 * 16 + hexval a) with (hexval a).
  fold (hex4 a b c e).
  replace (ULONG_MAX <? hex4 a b c e) with false
    by (symmetry; apply Z.ltb_ge; unfold ULONG_MAX; lia).
  reflexivity.
Qed.

End LibCFacts.

(** ** The decoder: checksum comparison and clean-up *)

Module Decoder.
Import LibC LibCFacts.

Ltac bind_inv H :=
  repeat match type of H with
         | bind ?r _ = Ok _ =>
             let E := fresh "E" in
             destruct r eqn:E; cbn [bind] in H; [|discriminate H..]
         end.

Lemma indexOf_found (buf pre post : list Z) (c start : Z) :
  0 <= start -> Z.of_nat (length buf) <= 32767 -> is_byte c ->
  skipn (Z.to_nat start) buf = pre ++ c :: post ->
  Forall (quiet_for c) pre ->
  indexOf buf c start = Ok (start + Z.of_nat (length pre)).
Proof.
  intros Hs Hl Hc E Hq.
  assert (Hne : pre ++ c :: post <> []) by (destruct pre; discriminate).
  pose proof (skipn_length_eq _ _ _ E Hne) as Hlen.
  rewrite length_app in Hlen. cbn [length] in Hlen.
  unfold indexOf. rewrite to_i16_small by lia.
  rewrite ptr_ok by lia. cbn [bind]. rewrite E.
  rewrite to_u8_small by exact Hc.
  rewrite strchr_found by exact Hq. cbn [past_end bind].
  rewrite to_i16_small by lia. reflexivity.
Qed.

(** The last statements of [ProcessTelegram] on a buffer whose first
    ['!'] follows [pre]. *)
Lemma check_crc_at (cs : bool) (pre post : list Z) (d : P1Data) :
  Z.of_nat (length (pre ++ ch_bang :: post)) <= 32767 ->
  Forall (quiet_for ch_bang) pre ->
  check_crc cs (pre ++ ch_bang :: post) d =
    (copied <- past_end Buffer (pre ++ ch_bang :: post) (strncpy post 4) ;;
     v <- past_end MessageCRC (copied ++ [0]) (strtoul (copied ++ [0]) 16) ;;
     Ok (set_ValidCRC (to_u16 v =? CRC16.crc_bytes cs (pre ++ [ch_bang]))
           (set_CRC (to_u16 v) d))).
Proof.
  intros Hl Hq. unfold check_crc.
  rewrite (indexOf_found _ pre post ch_bang 0);
    [|lia|exact Hl|unfold is_byte, ch_bang; lia|reflexivity|exact Hq].
  cbn [bind]. rewrite Z.add_0_l.
  rewrite length_app in Hl. cbn [length] in Hl.
  rewrite (to_u16_small (Z.of_nat (length pre))) by lia.
  unfold calcCRC16, CRC16.CRC16_IBM_REVERSED.
  rewrite (to_u16_small (Z.of_nat (length pre) + 1)) by lia.
  replace (0 <=? Z.of_nat (length pre) + 1) with true
    by (symmetry; apply Z.leb_le; lia).
  replace (Z.of_nat (length pre) + 1 <=? Z.of_nat (length (pre ++ ch_bang :: post)))
    with true
    by (symmetry; apply Z.leb_le; rewrite length_app; cbn [length]; lia).
  cbn [andb bind].
  replace (Z.to_nat (Z.of_nat (length pre) + 1)) with (length pre + 1)%nat by lia.
  rewrite firstn_app, firstn_all2 by lia.
  replace (length pre + 1 - length pre)%nat with 1%nat by lia.
  cbn [firstn].
  unfold copy_from.
  rewrite ptr_ok by (rewrite length_app; cbn [length]; lia).
  cbn [bind].
  replace (Z.to_nat (Z.of_nat (length pre) + 1)) with (length pre + 1)%nat by lia.
  rewrite skipn_app, skipn_all2 by lia.
  replace (length pre + 1 - length pre)%nat with 1%nat by lia.
  cbn [skipn app]. reflexivity.
Qed.

Lemma memset_buffer_inv (buf cleared : list Z) :
  memset_buffer buf = Ok cleared ->
  BUFFER_SIZE <= Z.of_nat (length buf)
  /\ cleared = repeat 0 (Z.to_nat BUFFER_SIZE) ++ skipn (Z.to_nat BUFFER_SIZE) buf.
Proof.
  unfold memset_buffer. destruct (Z.leb_spec BUFFER_SIZE (Z.of_nat (length buf)));
    intros E; inversion E; auto.
Qed.

(** [ProcessTelegram] ends with the checksum comparison and the clean-up. *)
Lemma ProcessTelegram_inv (cs : bool) (m : P1Meter) (d : P1Data) (m' : P1Meter) :
  ProcessTelegram cs m = Ok (d, m') ->
  exists d0 cleared,
    check_crc cs (buffer m) d0 = Ok d
    /\ memset_buffer (buffer m) = Ok cleared
    /\ m' = set_DataReady false (set_data d (set_buffer cleared m)).
Proof.
  unfold ProcessTelegram. intros H. bind_inv H.
  inversion H; subst. eauto.
Qed.

(** The reading on a buffer whose first ['!'] follows [pre] and is followed
    by four hexadecimal digits. *)
Lemma ProcessTelegram_crc (cs : bool) (m : P1Meter) (pre tail : list Z)
    (a b c e : Z) (d : P1Data) (m' : P1Meter) :
  buffer m = pre ++ ch_bang :: a :: b :: c :: e :: tail ->
  Z.of_nat (length (buffer m)) <= 32767 ->
  Forall (quiet_for ch_bang) pre ->
  hexdigit a = true -> hexdigit b = true ->
  hexdigit c = true -> hexdigit e = true ->
  ProcessTelegram cs m = Ok (d, m') ->
  CRC d = hex4 a b c e
  /\ ValidCRC d = (hex4 a b c e =? CRC16.crc_bytes cs (pre ++ [ch_bang])).
Proof.
  intros Hbuf Hl Hq Ha Hb Hc He H.
  apply ProcessTelegram_inv in H. destruct H as (d0 & cleared & Hcrc & _ & _).
  rewrite Hbuf in Hcrc, Hl. rewrite check_crc_at in Hcrc by assumption.
  assert (Hz : Forall (fun x => x <> 0) [a; b; c; e]).
  { apply hexdigit_cases in Ha, Hb, Hc, He.
    repeat apply Forall_cons; try apply Forall_nil; lia. }
  change (a :: b :: c :: e :: tail) with ([a; b; c; e] ++ tail) in Hcrc.
  change 4%nat with (length [a; b; c; e]) in Hcrc.
  rewrite strncpy_exact in Hcrc by exact Hz. cbn [past_end bind app] in Hcrc.
  destruct (strtoul_hex4 a b c e Ha Hb Hc He) as [Hv Hr].
  rewrite Hv in Hcrc. cbn [past_end bind] in Hcrc.
  rewrite to_u16_small in Hcrc by exact Hr.
  inversion Hcrc; subst d. cbn. auto.
Qed.

End Decoder.

Module DecoderClaims.
Import LibC LibCFacts Decoder Accumulator AccumulatorClaims.

Lemma plainb_plain (l : list Z) : forallb plainb l = true -> Forall plain l.
Proof.
  induction l as [|x l IH]; cbn; [constructor|].
  rewrite Bool.andb_true_iff. intros [Hx Hl]. constructor; [|auto].
  unfold plainb in Hx. rewrite !Bool.andb_true_iff, !Bool.negb_true_iff in Hx.
  destruct Hx as [[[H1 H2] H3] H4].
  apply Z.leb_le in H1. apply Z.ltb_lt in H2.
  apply Z.eqb_neq in H3. apply Z.eqb_neq in H4.
  unfold plain, is_byte. auto.
Qed.

Lemma plain_no_bang (l : list Z) : Forall plain l -> Forall no_bang l.
Proof.
  apply Forall_impl. intros x (H1 & H2 & _). split; assumption.
Qed.

Lemma plain_quiet (l : list Z) : Forall plain l -> Forall (quiet_for ch_bang) l.
Proof.
  apply Forall_impl. intros x (_ & H2 & H3). split; assumption.
Qed.

Lemma hexdigit_byte (c : Z) : hexdigit c = true -> is_byte c.
Proof. intros H. apply hexdigit_cases in H. unfold is_byte. lia. Qed.

Lemma CRC16_whole (cs : bool) (l : list Z) :
  CRC16.CRC16_IBM_REVERSED cs l (Z.of_nat (length l))
  = Ok (CRC16.crc_bytes cs l).
Proof.
  unfold CRC16.CRC16_IBM_REVERSED.
  replace (0 <=? Z.of_nat (length l)) with true by (symmetry; apply Z.leb_le; lia).
  rewrite Z.leb_refl, Nat2Z.id, firstn_all. reflexivity.
Qed.

(** A telegram [/body!abce\r\n] with a plain body and four hexadecimal
    trailer digits is received by [ReceiveTelegram]; the reading that
    [ProcessTelegram] returns for it has [ValidCRC] true exactly when
    [CRC16_IBM_REVERSED] over the bytes from ['/'] through ['!'] gives
    the value of the four digits, and its [CRC] field is that value. *)
Lemma ValidCRC_iff_engine_checksum
    (cs : bool) (m : P1Meter) (body : list Z) (a b c e : Z) (rest : list Z)
    (m1 : P1Meter) (d : P1Data) (m' : P1Meter) :
  meter_wf m -> DataReady m = false ->
  Forall (fun x => x <> ch_bang) (heap_before m) ->
  Forall plain body ->
  hexdigit a = true -> hexdigit b = true ->
  hexdigit c = true -> hexdigit e = true ->
  Z.of_nat (length (telegram body a b c e)) <= BUFFER_SIZE + 1 ->
  ReceiveTelegram m (telegram body a b c e ++ rest) = Returned m1 rest ->
  ProcessTelegram cs m1 = Ok (d, m') ->
  ValidCRC d = (hex4 a b c e =? CRC16.crc_bytes cs (ch_slash :: body ++ [ch_bang]))
  /\ CRC d = hex4 a b c e.
Proof.
  intros Hwf Hr Hheap Hbody Ha Hb Hc He Hfit Hrecv Hproc.
  destruct (ReceiveTelegram_complete m body a b c e rest)
    as (m2 & R1 & R2 & R3 & R4 & R5);
    try assumption; try (now apply plain_no_bang); try (now apply hexdigit_byte).
  rewrite R1 in Hrecv. inversion Hrecv; subst m2. clear Hrecv.
  destruct Hwf as [Hl _]. unfold BUFFER_SIZE in *.
  assert (Hbuf : buffer m1 =
            (ch_slash :: body) ++ ch_bang :: a :: b :: c :: e
              :: [ch_CR; ch_LF]
                 ++ skipn (length (telegram body a b c e)) (buffer m1)).
  { rewrite <- (firstn_skipn (length (telegram body a b c e)) (buffer m1)) at 1.
    rewrite R4. unfold telegram. cbn [app]. rewrite <- app_assoc. reflexivity. }
  destruct (ProcessTelegram_crc cs m1 (ch_slash :: body)
              ([ch_CR; ch_LF] ++ skipn (length (telegram body a b c e)) (buffer m1))
              a b c e d m') as [Hcrc Hvalid]; try assumption.
  - rewrite R5. lia.
  - constructor; [split; discriminate|]. now apply plain_quiet.
  - split; [exact Hvalid|exact Hcrc].
Qed.

(** Where [char] is unsigned, and on a telegram of 7-bit bytes where it
    is signed, the reading that [ProcessTelegram] returns for a received
    telegram [/body!abce\r\n] has [ValidCRC] true exactly when the
    reference CRC-16 of the bytes from ['/'] through ['!'] is the value
    of the four trailer digits, read as hexadecimal in either case, and
    its [CRC] field is that value. *)
Theorem ValidCRC_iff_reference_checksum
    (cs : bool) (m : P1Meter) (body : list Z) (a b c e : Z) (rest : list Z)
    (m1 : P1Meter) (d : P1Data) (m' : P1Meter) :
  meter_wf m -> DataReady m = false ->
  Forall (fun x => x <> ch_bang) (heap_before m) ->
  Forall plain body ->
  cs = false \/ Forall (fun x => x < 128) body ->
  hexdigit a = true -> hexdigit b = true ->
  hexdigit c = true -> hexdigit e = true ->
  Z.of_nat (length (telegram body a b c e)) <= BUFFER_SIZE + 1 ->
  ReceiveTelegram m (telegram body a b c e ++ rest) = Returned m1 rest ->
  ProcessTelegram cs m1 = Ok (d, m') ->
  (ValidCRC d = true <->
   CRC16.ref_crc16 (ch_slash :: body ++ [ch_bang]) 0 = hex4 a b c e)
  /\ CRC d = hex4 a b c e.
Proof.
  intros Hwf Hr Hheap Hbody Hseven Ha Hb Hc He Hfit Hrecv Hproc.
  destruct (ValidCRC_iff_engine_checksum cs m body a b c e rest m1 d m')
    as [Hvalid Hcrc]; try assumption.
  split; [|exact Hcrc].
  assert (Href : CRC16.crc_bytes cs (ch_slash :: body ++ [ch_bang])
                 = CRC16.ref_crc16 (ch_slash :: body ++ [ch_bang]) 0).
  { apply CRC16Facts.crc_bytes_ref.
    assert (Hedge : forall x, x = ch_slash \/ x = ch_bang ->
              0 <= x < 256 /\ to_u16 (char_value cs x) = x).
    { intros x [->| ->]; (split; [unfold ch_slash, ch_bang; lia|]);
        apply CRC16Facts.widen_ascii; unfold ch_slash, ch_bang; lia. }
    constructor; [apply Hedge; now left|].
    apply Forall_app. split; [|constructor; [apply Hedge; now right|constructor]].
    destruct Hseven as [->|H7].
    - eapply Forall_impl; [|exact Hbody]. intros x (Hx & _).
      split; [exact Hx|]. now apply CRC16Facts.widen_unsigned.
    - rewrite Forall_forall in *. intros x Hin.
      destruct (Hbody x Hin) as (Hx & _). specialize (H7 x Hin).
      unfold is_byte in Hx. split; [lia|].
      apply CRC16Facts.widen_ascii. lia. }
  rewrite Hvalid, Href, Z.eqb_eq. split; congruence.
Qed.

Lemma ValidCRC_iff_reference_checksum_witness :
  (ValidCRC sample_reading = true <->
   CRC16.ref_crc16 (ch_slash :: sample_body ++ [ch_bang]) 0
   = hex4 51 70 68 55)
  /\ CRC sample_reading = hex4 51 70 68 55.
Proof.
  apply (ValidCRC_iff_reference_checksum false sample_meter sample_body
           51 70 68 55 [] sample_ready sample_reading sample_after).
  - split; reflexivity.
  - reflexivity.
  - cbn. repeat constructor; discriminate.
  - apply plainb_plain. vm_compute. reflexivity.
  - left. reflexivity.
  - reflexivity.
  - reflexivity.
  - reflexivity.
  - reflexivity.
  - vm_compute. discriminate.
  - vm_compute. reflexivity.
  - vm_compute. reflexivity.
Defined.

(** C1 fails on the code where [char] is signed (the AVR boards).  The
    telegram [/\xC8\r\n!DDBC\r\n] ends in the reference CRC-16 of its
    bytes from ['/'] through ['!'], 0xDDBC.  Received and decoded with
    signed [char], its reading has that value in [CRC] and [ValidCRC]
    false, because the byte 0xC8 is widened with its sign before the XOR
    of [CRC16_IBM_REVERSED]; with unsigned [char] the same telegram is
    valid. *)
Theorem C1_signed_char_rejects_reference_trailer :
  CRC16.ref_crc16 (ch_slash :: [200; 13; 10] ++ [ch_bang]) 0
  = hex4 68 68 66 67
  /\ hex4 68 68 66 67 = 0xDDBC
  /\ (exists d m,
        loop true sample_meter high_byte_telegram = Decoded d m []
        /\ CRC d = 0xDDBC /\ ValidCRC d = false)
  /\ (exists d m,
        loop false sample_meter high_byte_telegram = Decoded d m []
        /\ CRC d = 0xDDBC /\ ValidCRC d = true).
Proof.
  split; [vm_compute; reflexivity|]. split; [vm_compute; reflexivity|].
  split.
  - match eval vm_compute in (loop true sample_meter high_byte_telegram) with
    | Decoded ?d ?m _ => exists d, m
    end. repeat split; vm_compute; reflexivity.
  - match eval vm_compute in (loop false sample_meter high_byte_telegram) with
    | Decoded ?d ?m _ => exists d, m
    end. repeat split; vm_compute; reflexivity.
Qed.

(** C8, as the specification states it, fails.  The two streams differ
    in the byte at position 2 only, which lies between the start marker
    and the terminator of the first; the trailer is the same; the first
    decodes with a valid checksum, and so does the second, in which the
    changed byte is itself taken for the terminator. *)
Lemma C8_counterexample :
  length forged_original = length forged_changed
  /\ (forall i, nth i forged_original 0 <> nth i forged_changed 0 -> i = 2%nat)
  /\ nth 2 forged_original 0 <> nth 2 forged_changed 0
  /\ (exists d m r, loop false sample_meter forged_original = Decoded d m r
                    /\ ValidCRC d = true)
  /\ (exists d m r, loop false sample_meter forged_changed = Decoded d m r
                    /\ ValidCRC d = true).
Proof.
  split; [reflexivity|]. split; [|split; [|split]].
  - intros i. do 17 (destruct i as [|i]; [vm_compute; congruence|]).
    destruct i; vm_compute; congruence.
  - vm_compute. congruence.
  - match eval vm_compute in (loop false sample_meter forged_original) with
    | Decoded ?d ?m ?r => exists d, m, r
    end. split; vm_compute; reflexivity.
  - match eval vm_compute in (loop false sample_meter forged_changed) with
    | Decoded ?d ?m ?r => exists d, m, r
    end. split; vm_compute; reflexivity.
Qed.

(** C8, amended.  Two ready buffers agree except for one byte in front
    of the terminator, which is the first ['!'] in both (the changed byte
    is neither ['!'] nor NUL).  If the reading decoded from the first has
    a valid checksum, every reading decoded from the second has not. *)
Theorem C8_changed_byte_before_terminator_detected
    (cs : bool) (m1 m2 : P1Meter) (pre mid post : list Z) (x y : Z)
    (d1 d2 : P1Data) (m1' m2' : P1Meter) :
  buffer m1 = pre ++ x :: mid ++ ch_bang :: post ->
  buffer m2 = pre ++ y :: mid ++ ch_bang :: post ->
  Z.of_nat (length (buffer m1)) = BUFFER_SIZE + 1 ->
  Forall plain pre -> Forall plain mid -> plain x -> plain y -> x <> y ->
  ProcessTelegram cs m1 = Ok (d1, m1') -> ValidCRC d1 = true ->
  ProcessTelegram cs m2 = Ok (d2, m2') ->
  ValidCRC d2 = false.
Proof.
  intros B1 B2 Hl Hpre Hmid Hx Hy Hne P1 V1 P2.
  apply ProcessTelegram_inv in P1. destruct P1 as (e1 & _ & C1 & _ & _).
  apply ProcessTelegram_inv in P2. destruct P2 as (e2 & _ & C2 & _ & _).
  assert (Hl2 : length (buffer m2) = length (buffer m1)).
  { rewrite B1, B2, !length_app. cbn [length]. rewrite !length_app. reflexivity. }
  unfold BUFFER_SIZE in Hl.
  assert (Q1 : Forall (quiet_for ch_bang) (pre ++ x :: mid)).
  { apply plain_quiet. apply Forall_app. split; [|constructor]; assumption. }
  assert (Q2 : Forall (quiet_for ch_bang) (pre ++ y :: mid)).
  { apply plain_quiet. apply Forall_app. split; [|constructor]; assumption. }
  assert (A1 : buffer m1 = (pre ++ x :: mid) ++ ch_bang :: post)
    by (rewrite B1, <- app_assoc; reflexivity).
  assert (A2 : buffer m2 = (pre ++ y :: mid) ++ ch_bang :: post)
    by (rewrite B2, <- app_assoc; reflexivity).
  rewrite A1 in C1.
  rewrite check_crc_at in C1 by first [assumption | rewrite <- A1; lia].
  rewrite A2 in C2.
  rewrite check_crc_at in C2 by first [assumption | rewrite <- A2, Hl2; lia].
  destruct (strncpy post 4) as [copied|]; cbn [past_end bind] in C1, C2;
    [|discriminate].
  destruct (strtoul (copied ++ [0]) 16) as [v|]; cbn [past_end bind] in C1, C2;
    [|discriminate].
  inversion C1; subst d1. inversion C2; subst d2. cbn in V1 |- *.
  apply Z.eqb_eq in V1. apply Z.eqb_neq. rewrite V1.
  rewrite <- !app_assoc. cbn [app].
  apply CRC16Facts.crc_bytes_one_byte; [apply Hx|apply Hy|exact Hne].
Qed.


Lemma C8_changed_byte_before_terminator_detected_witness :
  ValidCRC changed_reading = false.
Proof.
  apply (C8_changed_byte_before_terminator_detected false
           sample_ready changed_ready [ch_slash] (skipn 1 sample_body)
           (skipn (length sample_telegram - 6) (buffer sample_ready)) 73 74
           sample_reading changed_reading sample_after changed_after).
  - vm_compute. reflexivity.
  - vm_compute. reflexivity.
  - reflexivity.
  - apply plainb_plain. reflexivity.
  - apply plainb_plain. vm_compute. reflexivity.
  - apply (Forall_inv (plainb_plain [73] eq_refl)).
  - apply (Forall_inv (plainb_plain [74] eq_refl)).
  - discriminate.
  - vm_compute. reflexivity.
  - reflexivity.
  - vm_compute. reflexivity.
Defined.

(** A call of [ReceiveTelegram] that returns with a telegram ready has
    stored the start marker and moved on. *)
Lemma receive_loop_index (serial : list Z) :
  forall (m m' : P1Meter) (rest : list Z),
    Z.of_nat (length (buffer m)) <= 32767 -> 1 <= bufferIndex m ->
    receive_loop serial m = Returned m' rest ->
    1 <= bufferIndex m' /\ length (buffer m') = length (buffer m).
Proof.
  induction serial as [|b serial IH]; intros m m' rest Hl Hi; cbn [receive_loop];
    destruct (DataReady m); try (intros E; inversion E; subst; auto; fail).
  unfold receive_byte.
  destruct (store Buffer (buffer m) (bufferIndex m) (to_u8 b)) as [buf'| |] eqn:S;
    cbn [bind]; try discriminate.
  apply store_inv in S. destruct S as [Hb ->].
  destruct (lookbehind _ _) as [c| |]; cbn [bind]; try discriminate.
  destruct (c =? ch_bang); intros E; apply IH in E.
  - rewrite make_ready_buffer in E. cbn in E.
    rewrite list_set_length in E. exact E.
  - rewrite make_ready_buffer. cbn. rewrite list_set_length. exact Hl.
  - rewrite make_ready_bufferIndex. exact Hi.
  - cbn in E. rewrite list_set_length in E. exact E.
  - cbn. rewrite list_set_length. exact Hl.
  - cbn. rewrite to_i16_small by lia. lia.
Qed.

Lemma ReceiveTelegram_ready_index (m0 m : P1Meter) (serial rest : list Z) :
  meter_wf m0 -> DataReady m0 = false ->
  ReceiveTelegram m0 serial = Returned m rest -> DataReady m = true ->
  1 <= bufferIndex m /\ length (buffer m) = length (buffer m0).
Proof.
  intros [Hl _] Hr. unfold ReceiveTelegram. unfold BUFFER_SIZE in Hl.
  destruct (raise_cts_frame m0) as (Fb & _ & _ & Fr & _).
  destruct serial as [|b serial].
  - intros E. inversion E; subst. congruence.
  - destruct (negb (to_u8 b =? ch_slash)).
    + intros E. inversion E; subst. congruence.
    + destruct (store Buffer (buffer (raise_cts m0)) 0 (to_u8 b))
        as [buf'| |] eqn:S; try discriminate.
      apply store_inv in S. destruct S as [_ ->].
      intros E _. apply receive_loop_index in E.
      * cbn in E. rewrite list_set_length, Fb in E. exact E.
      * cbn. rewrite list_set_length, Fb. lia.
      * cbn. lia.
Qed.

(** C10, as the specification states it, fails: [memset] clears
    [BUFFER_SIZE] of the [BUFFER_SIZE + 1] bytes of the buffer.  In a meter
    whose allocation came with 7 in its last byte, that byte is 7 after
    the sample telegram has been received and decoded. *)
Lemma C10_counterexample :
  exists m d m',
    ReceiveTelegram (P1Meter_new [0; 0; 0; 0; 0] 7) sample_telegram
    = Returned m []
    /\ ProcessTelegram false m = Ok (d, m')
    /\ DataReady m' = false
    /\ Z.of_nat (length (GetBuffer m')) = BUFFER_SIZE + 1
    /\ load Buffer (GetBuffer m') BUFFER_SIZE = Ok 7.
Proof.
  match eval vm_compute in
    (ReceiveTelegram (P1Meter_new [0; 0; 0; 0; 0] 7) sample_telegram) with
  | Returned ?m _ =>
      match eval vm_compute in (ProcessTelegram false m) with
      | Ok (?d, ?m') => exists m, d, m'
      end
  end.
  repeat split; vm_compute; reflexivity.
Qed.

(** C10, amended.  After [ProcessTelegram] has returned the reading of a
    received telegram, [DataReady] is false, the first [BUFFER_SIZE] bytes
    of the buffer are zero and the one byte behind them is as it was, but
    the write index is as the reception left it: [GetBufferLength] returns
    the position of the telegram's last byte, not 0, and goes on to do so
    while bytes other than the start marker arrive. *)
Theorem C10_buffer_length_survives_clearing
    (cs : bool) (m0 m : P1Meter) (serial rest : list Z)
    (d : P1Data) (m' : P1Meter) :
  meter_wf m0 -> DataReady m0 = false ->
  ReceiveTelegram m0 serial = Returned m rest -> DataReady m = true ->
  ProcessTelegram cs m = Ok (d, m') ->
  DataReady m' = false
  /\ Z.of_nat (length (GetBuffer m')) = BUFFER_SIZE + 1
  /\ (forall i, 0 <= i < BUFFER_SIZE -> load Buffer (GetBuffer m') i = Ok 0)
  /\ load Buffer (GetBuffer m') BUFFER_SIZE = load Buffer (GetBuffer m) BUFFER_SIZE
  /\ GetBufferLength m' = bufferIndex m
  /\ GetBufferLength m' <> 0
  /\ (forall b more, to_u8 b <> ch_slash ->
        exists m'', ReceiveTelegram m' (b :: more) = Returned m'' more
                    /\ GetBufferLength m'' = GetBufferLength m').
Proof.
  intros Hwf Hr Hrecv Hready Hproc.
  destruct (ReceiveTelegram_ready_index m0 m serial rest Hwf Hr Hrecv Hready)
    as [Hi Hl].
  destruct Hwf as [Hl0 _]. rewrite <- Hl in Hl0.
  apply ProcessTelegram_inv in Hproc.
  destruct Hproc as (d0 & cleared & _ & Hclr & ->).
  apply memset_buffer_inv in Hclr. destruct Hclr as [Hsize ->].
  unfold GetBufferLength, GetBuffer. cbn [DataReady bufferIndex buffer
    set_DataReady set_data set_buffer].
  assert (Hlen : length (repeat 0 (Z.to_nat BUFFER_SIZE)
                         ++ skipn (Z.to_nat BUFFER_SIZE) (buffer m))
                 = length (buffer m)).
  { rewrite length_app, repeat_length, length_skipn. lia. }
  split; [reflexivity|]. split; [rewrite Hlen; exact Hl0|].
  split; [|split; [|split; [reflexivity|split; [lia|]]]].
  - intros i Hi'. unfold load, in_bounds.
    rewrite length_app, repeat_length.
    replace (0 <=? i) with true by (symmetry; apply Z.leb_le; lia).
    replace (i <? _) with true by (symmetry; apply Z.ltb_lt; lia).
    cbn [andb]. f_equal.
    rewrite app_nth1 by (rewrite repeat_length; lia).
    apply nth_repeat.
  - unfold load, in_bounds. rewrite Hlen.
    destruct ((0 <=? BUFFER_SIZE) && (BUFFER_SIZE <? Z.of_nat (length (buffer m))));
      [|reflexivity].
    f_equal. rewrite app_nth2 by (rewrite repeat_length; lia).
    rewrite repeat_length, Nat.sub_diag, nth_skipn, Nat.add_0_r.
    reflexivity.
  - intros b more Hb. unfold ReceiveTelegram.
    replace (to_u8 b =? ch_slash) with false by (symmetry; now apply Z.eqb_neq).
    cbn [negb]. eexists. split; [reflexivity|].
    destruct (raise_cts_frame
                (set_DataReady false
                   (set_data d
                      (set_buffer
                         (repeat 0 (Z.to_nat BUFFER_SIZE)
                          ++ skipn (Z.to_nat BUFFER_SIZE) (buffer m)) m))))
      as (_ & _ & F & _).
    rewrite F. reflexivity.
Qed.

Lemma C10_buffer_length_survives_clearing_witness :
  DataReady sample_after = false
  /\ Z.of_nat (length (GetBuffer sample_after)) = BUFFER_SIZE + 1
  /\ (forall i, 0 <= i < BUFFER_SIZE -> load Buffer (GetBuffer sample_after) i = Ok 0)
  /\ load Buffer (GetBuffer sample_after) BUFFER_SIZE
     = load Buffer (GetBuffer sample_ready) BUFFER_SIZE
  /\ GetBufferLength sample_after = bufferIndex sample_ready
  /\ GetBufferLength sample_after <> 0
  /\ (forall b more, to_u8 b <> ch_slash ->
        exists m'', ReceiveTelegram sample_after (b :: more) = Returned m'' more
                    /\ GetBufferLength m'' = GetBufferLength sample_after).
Proof.
  apply (C10_buffer_length_survives_clearing false sample_meter sample_ready
           sample_telegram [] sample_reading sample_after).
  - split; reflexivity.
  - reflexivity.
  - vm_compute. reflexivity.
  - reflexivity.
  - vm_compute. reflexivity.
Defined.

End DecoderClaims.

(** ** The decoder: the registry chain *)

Module Registry.
Import LibC LibCFacts Decoder.

(** The sub-procedures of the chain write one member of the reading. *)
Lemma power_log_loop_frame (n : nat) (buf : list Z) :
  forall (i index2 : Z) (d d' : P1Data),
    power_log_loop n buf i index2 d = Ok d' ->
    d' = set_PowerFailureLogs (PowerFailureLogs d') d.
Proof.
  induction n as [|n IH]; intros i index2 d d' H; cbn [power_log_loop] in H.
  - inversion H; subst. destruct d'; reflexivity.
  - bind_inv H. apply IH in H. rewrite H. reflexivity.
Qed.

Lemma power_log_frame (buf : list Z) (s : Z) (d d' : P1Data) :
  power_log buf s d = Ok d' ->
  d' = set_PowerFailureLogs (PowerFailureLogs d') d.
Proof.
  unfold power_log. intros H. bind_inv H.
  now apply power_log_loop_frame in H.
Qed.

Lemma mbus_device_type_frame (buf : list Z) (s : Z) (d d' : P1Data) :
  mbus_device_type buf s d = Ok d' ->
  d' = set_MBusDevices (MBusDevices d') d.
Proof. unfold mbus_device_type. intros H. bind_inv H. now inversion H. Qed.

Lemma mbus_equipment_frame (buf : list Z) (s e : Z) (d d' : P1Data) :
  mbus_equipment buf s e d = Ok d' ->
  d' = set_MBusDevices (MBusDevices d') d.
Proof. unfold mbus_equipment. intros H. bind_inv H. now inversion H. Qed.

Lemma mbus_value_frame (buf : list Z) (s : Z) (d d' : P1Data) :
  mbus_value buf s d = Ok d' ->
  d' = set_MBusDevices (MBusDevices d') d.
Proof. unfold mbus_value. intros H. bind_inv H. now inversion H. Qed.

(** One test of the chain. *)
Lemma IF_inv {A : Type} (c : result bool) (t e : result A) (r : A) (P : Prop) :
  (c = Ok true -> t = Ok r -> P) ->
  (c = Ok false -> e = Ok r -> P) ->
  (IF c THEN t ELSE e) = Ok r -> P.
Proof.
  intros Ht He. destruct c as [[|]| |]; cbn [bind]; auto; discriminate.
Qed.

Ltac chain_step :=
  let W := fresh "W" in
  apply IF_inv; intros W.

(** A test that repeats an earlier one cannot succeed. *)
Ltac dead_branch :=
  match goal with
  | W : ?c = Ok true, W' : ?c = Ok false |- _ =>
      rewrite W in W'; discriminate W'
  end.

(** The branch that was taken, once its test is known to hold. *)
Ltac branch_frame :=
  let H := fresh "H" in
  intros H; clear - H;
  lazymatch type of H with
  | power_log _ _ _ = Ok _ =>
      apply power_log_frame in H; rewrite H; reflexivity
  | mbus_device_type _ _ _ = Ok _ =>
      apply mbus_device_type_frame in H; rewrite H; reflexivity
  | mbus_equipment _ _ _ _ = Ok _ =>
      apply mbus_equipment_frame in H; rewrite H; reflexivity
  | mbus_value _ _ _ = Ok _ =>
      apply mbus_value_frame in H; rewrite H; reflexivity
  | _ => bind_inv H; inversion H; reflexivity
  end.

(** No branch of the chain writes [PowerProduced]: the three branches
    that would are guarded by tests that have already failed. *)
Lemma process_line_PowerProduced (buf : list Z) (s e : Z) (d d' : P1Data) :
  process_line buf s e d = Ok d' -> PowerProduced d' = PowerProduced d.
Proof.
  unfold process_line.
  repeat (chain_step; [first [dead_branch | branch_frame]|]).
  intros H. inversion H. reflexivity.
Qed.

Lemma line_loop_PowerProduced (fuel : nat) (buf : list Z) (bi : Z) :
  forall (e : Z) (d d' : P1Data),
    line_loop fuel buf bi e d = Ok d' -> PowerProduced d' = PowerProduced d.
Proof.
  induction fuel as [|fuel IH]; intros e d d' H; cbn [line_loop] in H;
    destruct ((e <? bi) && negb (e =? -1)); try discriminate;
    try (inversion H; reflexivity).
  bind_inv H. apply IH in H. rewrite H.
  now apply process_line_PowerProduced in E0.
Qed.

Lemma check_crc_frame (cs : bool) (buf : list Z) (d d' : P1Data) :
  check_crc cs buf d = Ok d' ->
  d' = set_ValidCRC (ValidCRC d') (set_CRC (CRC d') d).
Proof. unfold check_crc. intros H. bind_inv H. now inversion H. Qed.

(** The parts of [ProcessTelegram]. *)
Lemma ProcessTelegram_parts (cs : bool) (m : P1Meter) (d : P1Data)
    (m' : P1Meter) :
  ProcessTelegram cs m = Ok (d, m') ->
  exists n header e0 d1,
    indexOf (buffer m) ch_LF 0 = Ok e0
    /\ line_loop (length (buffer m)) (buffer m) (bufferIndex m) e0
         (set_HeaderInfo header (set_NumberOfMBusDevices n (data m))) = Ok d1
    /\ check_crc cs (buffer m) d1 = Ok d.
Proof.
  unfold ProcessTelegram. intros H. bind_inv H. inversion H; subst.
  eauto 10.
Qed.

(** The reading keeps the [PowerProduced] the meter held before. *)
Lemma ProcessTelegram_PowerProduced (cs : bool) (m : P1Meter) (d : P1Data)
    (m' : P1Meter) :
  ProcessTelegram cs m = Ok (d, m') -> PowerProduced d = PowerProduced (data m).
Proof.
  intros H. apply ProcessTelegram_parts in H.
  destruct H as (n & header & e0 & d1 & _ & Hloop & Hcrc).
  apply check_crc_frame in Hcrc. rewrite Hcrc. cbn.
  apply line_loop_PowerProduced in Hloop. rewrite Hloop. reflexivity.
Qed.

End Registry.

(** ** The fixed-point rule *)

Module FixedPoint.
Import LibC LibCFacts Decoder Registry.

Lemma IF_false {A : Type} (c : result bool) (t e : result A) :
  c = Ok false -> (IF c THEN t ELSE e) = e.
Proof. intros ->. reflexivity. Qed.

Lemma IF_true {A : Type} (c : result bool) (t e : result A) :
  c = Ok true -> (IF c THEN t ELSE e) = t.
Proof. intros ->. reflexivity. Qed.

(** The test of a code at a position from which the buffer is known. *)
Lemma startsWith_at (buf l lit : list Z) (s : Z) :
  0 <= s -> Z.of_nat (length buf) <= 32767 ->
  skipn (Z.to_nat s) buf = l -> l <> [] ->
  startsWith buf lit s = past_end Buffer buf (strncmp_eq l lit).
Proof.
  intros Hs Hl E Hne. pose proof (skipn_bound _ _ _ E Hne).
  unfold startsWith. rewrite to_u16_small by lia.
  rewrite ptr_ok by lia. cbn [bind]. now rewrite E.
Qed.

Ltac no_match Hs Hl E :=
  rewrite IF_false
    by (rewrite (startsWith_at _ _ _ _ Hs Hl E) by discriminate; reflexivity).

Ltac this_match Hs Hl E :=
  rewrite IF_true
    by (rewrite (startsWith_at _ _ _ _ Hs Hl E) by discriminate; reflexivity).

(** A line that begins with the code of a fixed-point field and an
    opening parenthesis is decoded by the rule of that field. *)
Lemma process_line_dispatch (f : fixed_field) (buf rest : list Z) (s e : Z)
    (d : P1Data) :
  0 <= s -> Z.of_nat (length buf) <= 32767 ->
  skipn (Z.to_nat s) buf = field_code f ++ ch_lparen :: rest ->
  process_line buf s e d =
    (v <- fixed_point_line buf s (field_whole f) (field_frac f) ;;
     Ok (field_store f v d)).
Proof.
  intros Hs Hl E. unfold process_line.
  destruct f as [ | | | | | | [ | | ] | [ | | ] ]; cbn in E;
    repeat no_match Hs Hl E; this_match Hs Hl E; reflexivity.
Qed.


(** *** Runs of decimal digits *)

Lemma digit_quiet (c : Z) (l : list Z) :
  ~ 48 <= c <= 57 -> Forall is_digit l -> Forall (quiet_for c) l.
Proof.
  intros Hc. apply Forall_impl. intros x Hx. unfold is_digit, quiet_for in *. lia.
Qed.

Lemma digit_nonzero (l : list Z) :
  Forall is_digit l -> Forall (fun x => x <> 0) l.
Proof. apply Forall_impl. intros x Hx. unfold is_digit in Hx. lia. Qed.

Lemma fold_digits_shift (l : list Z) :
  forall acc : Z,
    fold_left (fun a c => a * 10 + (c - 48)) l acc
    = acc * 10 ^ Z.of_nat (length l) + decimal_value l.
Proof.
  unfold decimal_value.
  induction l as [|c l IH]; intros acc; cbn [fold_left length].
  - cbn. lia.
  - rewrite IH, (IH (0 * 10 + (c - 48))), Nat2Z.inj_succ, Z.pow_succ_r by lia.
    lia.
Qed.

Lemma decimal_value_app (l1 l2 : list Z) :
  decimal_value (l1 ++ l2)
  = decimal_value l1 * 10 ^ Z.of_nat (length l2) + decimal_value l2.
Proof.
  unfold decimal_value at 1. rewrite fold_left_app.
  fold (decimal_value l1). apply fold_digits_shift.
Qed.

Lemma decimal_value_bound (l : list Z) :
  Forall is_digit l -> 0 <= decimal_value l < 10 ^ Z.of_nat (length l).
Proof.
  induction l as [|c l IH] using rev_ind; intros H.
  - cbn. lia.
  - apply Forall_app in H. destruct H as [Hl Hc].
    inversion Hc as [|? ? Hd _]; subst. unfold is_digit in Hd.
    specialize (IH Hl). rewrite decimal_value_app, length_app.
    cbn [length]. rewrite Nat2Z.inj_add, Z.pow_add_r by lia.
    change (decimal_value [c]) with (0 * 10 + (c - 48)).
    change (10 ^ Z.of_nat 1) with 10. lia.
Qed.

Lemma accumulate_digits (ds rest : list Z) :
  Forall is_digit ds ->
  forall acc : Z,
    accumulate 10 (ds ++ 0 :: rest) acc
    = Some (fold_left (fun a c => a * 10 + (c - 48)) ds acc).
Proof.
  induction 1 as [|c ds Hc _ IH]; intros acc; cbn [app accumulate fold_left].
  - reflexivity.
  - unfold is_digit in Hc. rewrite digit_value_digit by exact Hc.
    replace (c - 48 <? 10) with true by (symmetry; apply Z.ltb_lt; lia).
    apply IH.
Qed.

Lemma skip_hex_prefix_10 (l : list Z) : skip_hex_prefix 10 l = l.
Proof. destruct l as [|c [|x l]]; reflexivity. Qed.

(** [strtoul] in base 10 on up to nine digits reads their value. *)
Lemma strtoul_digits (ds rest : list Z) :
  Forall is_digit ds -> (1 <= length ds <= 9)%nat ->
  strtoul (ds ++ 0 :: rest) 10 = Some (decimal_value ds).
Proof.
  intros Hd Hlen. pose proof (decimal_value_bound ds Hd) as Hb.
  destruct ds as [|c ds]; [cbn in Hlen; lia|].
  pose proof (Forall_inv Hd) as Hc. unfold is_digit in Hc.
  unfold strtoul. cbn [app skip_space].
  rewrite isspace_false by lia.
  unfold skip_sign.
  replace (c =? 45) with false by (symmetry; apply Z.eqb_neq; lia).
  replace (c =? 43) with false by (symmetry; apply Z.eqb_neq; lia).
  rewrite skip_hex_prefix_10.
  change (c :: ds ++ 0 :: rest) with ((c :: ds) ++ 0 :: rest).
  rewrite accumulate_digits by exact Hd.
  fold (decimal_value (c :: ds)).
  assert (10 ^ Z.of_nat (length (c :: ds)) <= 10 ^ 9)
    by (apply Z.pow_le_mono_r; lia).
  replace (ULONG_MAX <? decimal_value (c :: ds)) with false
    by (symmetry; apply Z.ltb_ge; unfold ULONG_MAX; lia).
  reflexivity.
Qed.

Lemma skipn_repeat_zero (n m : nat) :
  skipn n (repeat 0 m) = repeat 0 (m - n).
Proof.
  revert m. induction n as [|n IH]; intros [|m]; cbn; auto.
Qed.

Lemma store_bytes_ok (o : object) (dst bytes : list Z) (off : nat) :
  (off + length bytes <= length dst)%nat ->
  store_bytes o dst (Z.of_nat off) bytes
  = Ok (firstn off dst ++ bytes ++ skipn (off + length bytes) dst).
Proof.
  intros H. unfold store_bytes.
  replace (0 <=? Z.of_nat off) with true by (symmetry; apply Z.leb_le; lia).
  replace (Z.of_nat off + Z.of_nat (length bytes) <=? Z.of_nat (length dst))
    with true by (symmetry; apply Z.leb_le; lia).
  rewrite Nat2Z.id. reflexivity.
Qed.

(** The three statements of the rule on a line [code(w.fr...]. *)
Lemma fixed_point_line_digits (buf code w fr tail : list Z) (s : Z)
    (whole frac : nat) :
  0 <= s -> Z.of_nat (length buf) <= 32767 ->
  skipn (Z.to_nat s) buf = code ++ ch_lparen :: w ++ ch_dot :: fr ++ tail ->
  (length code = 9 \/ length code = 10)%nat ->
  Forall (quiet_for ch_lparen) code ->
  Forall is_digit w -> Forall is_digit fr ->
  length w = whole -> length fr = frac ->
  (1 <= whole)%nat -> (whole + frac <= 9)%nat ->
  fixed_point_line buf s whole frac = Ok (decimal_value (w ++ fr)).
Proof.
  intros Hs Hl E Hcode Hq Hw Hfr Lw Lfr H1 H9.
  set (L := code ++ ch_lparen :: w ++ ch_dot :: fr ++ tail) in *.
  assert (HL : L <> []) by (unfold L; destruct code; discriminate).
  pose proof (skipn_length_eq _ _ _ E HL) as Hlen.
  assert (LL : length L = (length code + 1 + (whole + 1 + (frac + length tail)))%nat).
  { unfold L. rewrite length_app. cbn [length]. rewrite length_app. cbn [length].
    rewrite length_app. lia. }
  assert (A1 : ptr Buffer buf (s + Z.of_nat (length code) + 1)
               = Ok (w ++ ch_dot :: fr ++ tail)).
  { rewrite <- Z.add_assoc. rewrite (ptr_at buf L s) by (assumption || lia).
    f_equal. unfold L.
    change (code ++ ch_lparen :: w ++ ch_dot :: fr ++ tail)
      with (code ++ [ch_lparen] ++ w ++ ch_dot :: fr ++ tail).
    rewrite app_assoc. apply skipn_exact. rewrite length_app. cbn [length]. lia. }
  assert (A2 : indexOf buf ch_dot (s + 10)
               = Ok (s + Z.of_nat (length code) + 1 + Z.of_nat whole)).
  { assert (Hd : ~ 48 <= ch_dot <= 57) by (unfold ch_dot; lia).
    assert (Hb : is_byte ch_dot) by (unfold is_byte, ch_dot; lia).
    destruct Hcode as [Hc|Hc].
    - rewrite (indexOf_found buf w (fr ++ tail) ch_dot (s + 10));
        [rewrite Lw, Hc; f_equal; lia|lia|exact Hl|exact Hb| |now apply digit_quiet].
      rewrite Z2Nat.inj_add by lia. rewrite (skipn_further _ _ _ _ E).
      unfold L.
      change (code ++ ch_lparen :: w ++ ch_dot :: fr ++ tail)
        with (code ++ [ch_lparen] ++ w ++ ch_dot :: fr ++ tail).
      rewrite app_assoc. apply skipn_exact. rewrite length_app, Hc. reflexivity.
    - rewrite (indexOf_found buf (ch_lparen :: w) (fr ++ tail) ch_dot (s + 10));
        [cbn [length]; rewrite Lw, Hc; f_equal; lia|lia|exact Hl|exact Hb| |].
      + rewrite Z2Nat.inj_add by lia. rewrite (skipn_further _ _ _ _ E).
        unfold L. apply skipn_exact. rewrite Hc. reflexivity.
      + constructor; [split; discriminate|now apply digit_quiet]. }
  assert (A3 : ptr Buffer buf (s + Z.of_nat (length code) + 1 + Z.of_nat whole + 1)
               = Ok (fr ++ tail)).
  { replace (s + Z.of_nat (length code) + 1 + Z.of_nat whole + 1)
      with (s + Z.of_nat (length code + 1 + whole + 1)) by lia.
    rewrite (ptr_at buf L s) by (assumption || lia).
    f_equal. rewrite Nat2Z.id. unfold L.
    change (code ++ ch_lparen :: w ++ ch_dot :: fr ++ tail)
      with (code ++ [ch_lparen] ++ w ++ [ch_dot] ++ fr ++ tail).
    rewrite !app_assoc. rewrite <- (app_assoc _ fr tail).
    apply skipn_exact. rewrite !length_app. cbn [length]. lia. }
  unfold fixed_point_line.
  rewrite (indexOf_found buf code (w ++ ch_dot :: fr ++ tail) ch_lparen s);
    [|exact Hs|exact Hl|unfold is_byte, ch_lparen; lia|exact E|exact Hq].
  cbn [bind]. unfold fixed_point, copy_from.
  rewrite A1. cbn [bind].
  rewrite <- Lw at 1. rewrite strncpy_exact by (now apply digit_nonzero).
  cbn [past_end bind].
  pose proof (store_bytes_ok ValueBuffer (repeat 0 10) w 0
                ltac:(rewrite repeat_length; lia)) as S0.
  change (Z.of_nat 0) with 0 in S0. rewrite S0. clear S0.
  cbn [bind firstn app Nat.add]. rewrite skipn_repeat_zero, Lw.
  rewrite A2. cbn [bind]. rewrite A3. cbn [bind].
  rewrite <- Lfr at 1. rewrite strncpy_exact by (now apply digit_nonzero).
  cbn [past_end bind].
  rewrite (store_bytes_ok ValueBuffer (w ++ repeat 0 (10 - whole)) fr whole)
    by (rewrite length_app, repeat_length; lia).
  cbn [bind].
  rewrite firstn_app, firstn_all2 by lia.
  replace (whole - length w)%nat with O by lia. cbn [firstn].
  rewrite app_nil_r.
  rewrite skipn_app, skipn_all2 by lia. cbn [app].
  replace (whole + length fr - length w)%nat with frac by lia.
  rewrite skipn_repeat_zero.
  replace (10 - whole - frac)%nat with (S (9 - whole - frac)) by lia.
  cbn [repeat]. rewrite app_assoc.
  rewrite strtoul_digits;
    [|apply Forall_app; split; assumption|rewrite length_app; lia].
  cbn [past_end bind]. f_equal. apply to_u32_small.
  pose proof (decimal_value_bound (w ++ fr)
                ltac:(apply Forall_app; split; assumption)) as Hb.
  assert (10 ^ Z.of_nat (length (w ++ fr)) <= 10 ^ 9)
    by (apply Z.pow_le_mono_r; rewrite ?length_app; lia).
  lia.
Qed.

End FixedPoint.

Module RegistryClaims.
Import LibC LibCFacts Decoder Registry FixedPoint.

(** *** The wire form of a value *)

Lemma digits_length (w : nat) : forall v, length (digits w v) = w.
Proof.
  induction w as [|w IH]; intros v; cbn [digits]; [reflexivity|].
  rewrite length_app, IH. cbn. lia.
Qed.

Lemma digits_digit (w : nat) : forall v, Forall is_digit (digits w v).
Proof.
  induction w as [|w IH]; intros v; cbn [digits]; [constructor|].
  apply Forall_app. split; [apply IH|].
  constructor; [|constructor]. unfold is_digit.
  pose proof (Z.mod_pos_bound v 10 ltac:(lia)). lia.
Qed.

Lemma digits_value (w : nat) :
  forall v, 0 <= v < 10 ^ Z.of_nat w -> decimal_value (digits w v) = v.
Proof.
  induction w as [|w IH]; intros v Hv; cbn [digits].
  - cbn in Hv. cbn. lia.
  - rewrite Nat2Z.inj_succ, Z.pow_succ_r in Hv by lia.
    rewrite decimal_value_app, IH.
    + change (decimal_value [48 + v mod 10]) with (0 * 10 + (48 + v mod 10 - 48)).
      cbn [length]. change (10 ^ Z.of_nat 1) with 10.
      pose proof (Z.div_mod v 10 ltac:(lia)). lia.
    + split; [apply Z.div_pos; lia|]. apply Z.div_lt_upper_bound; lia.
Qed.

Lemma field_code_shape (f : fixed_field) :
  (length (field_code f) = 9 \/ length (field_code f) = 10)%nat
  /\ Forall (quiet_for ch_lparen) (field_code f).
Proof.
  destruct f as [ | | | | | | [ | | ] | [ | | ] ]; cbn; split; auto;
    repeat constructor; discriminate.
Qed.

Lemma field_widths (f : fixed_field) :
  (1 <= field_whole f)%nat /\ (field_whole f + field_frac f <= 9)%nat.
Proof. destruct f as [ | | | | | | [ | | ] | [ | | ] ]; cbn; lia. Qed.

Lemma field_store_value (f : fixed_field) (v : Z) (d : P1Data) :
  data_wf d -> field_value f (field_store f v d) = v.
Proof.
  intros [Hv Hp].
  destruct f as [ | | | | | | p | p ]; cbn; try reflexivity;
    unfold set_phase; apply list_set_nth_same; destruct p; cbn; lia.
Qed.

(** For each of the twelve fields that the chain decodes with the
    fixed-point rule, a value [v] that fits the digits of the field,
    written as the digits before the point, the point and the digits after
    it behind the code of the field and an opening parenthesis, is decoded
    by the line decoder into the field as [v] again. *)
Theorem fixed_point_round_trip
    (f : fixed_field) (buf : list Z) (s e v : Z) (d : P1Data) :
  Z.of_nat (length buf) <= BUFFER_SIZE + 1 ->
  data_wf d ->
  0 <= v < 10 ^ Z.of_nat (field_whole f + field_frac f) ->
  spells buf s
    (field_code f ++ ch_lparen
       :: render_fixed (field_whole f) (field_frac f) v) ->
  exists d', process_line buf s e d = Ok d' /\ field_value f d' = v.
Proof.
  intros Hl Hd Hv (Hs & rest & E). unfold BUFFER_SIZE in Hl.
  destruct (field_code_shape f) as [Hlen Hq].
  destruct (field_widths f) as [H1 H9].
  set (whole := field_whole f) in *. set (frac := field_frac f) in *.
  assert (Hp : 0 < 10 ^ Z.of_nat frac) by (apply Z.pow_pos_nonneg; lia).
  assert (Hhi : 0 <= v / 10 ^ Z.of_nat frac < 10 ^ Z.of_nat whole).
  { rewrite Nat2Z.inj_add, Z.pow_add_r in Hv by lia.
    split; [apply Z.div_pos; lia|]. apply Z.div_lt_upper_bound; [lia|].
    rewrite Z.mul_comm. lia. }
  assert (Hlo : 0 <= v mod 10 ^ Z.of_nat frac < 10 ^ Z.of_nat frac)
    by (apply Z.mod_pos_bound; lia).
  unfold render_fixed in E.
  assert (E' : skipn (Z.to_nat s) buf =
                 field_code f ++ ch_lparen
                   :: digits whole (v / 10 ^ Z.of_nat frac) ++ ch_dot
                   :: digits frac (v mod 10 ^ Z.of_nat frac) ++ rest).
  { rewrite E. rewrite <- !app_assoc. cbn [app]. rewrite <- !app_assoc.
    reflexivity. }
  rewrite (process_line_dispatch f buf
             (digits whole (v / 10 ^ Z.of_nat frac) ++ ch_dot
                :: digits frac (v mod 10 ^ Z.of_nat frac) ++ rest) s e d);
    [|exact Hs|lia|exact E'].
  fold whole frac.
  rewrite (fixed_point_line_digits buf (field_code f)
             (digits whole (v / 10 ^ Z.of_nat frac))
             (digits frac (v mod 10 ^ Z.of_nat frac)) rest s whole frac);
    try assumption; try lia;
    try apply digits_digit; try apply digits_length.
  cbn [bind]. eexists. split; [reflexivity|].
  rewrite field_store_value by exact Hd.
  rewrite decimal_value_app, !digits_value, digits_length by assumption.
  pose proof (Z.div_mod v (10 ^ Z.of_nat frac) ltac:(lia)). lia.
Qed.


Lemma fixed_point_round_trip_witness :
  exists d', process_line (buffer sample_ready) 108 0 P1Data_zero = Ok d'
             /\ field_value FDeliveredTariff1 d' = 1234567.
Proof.
  apply (fixed_point_round_trip FDeliveredTariff1 (buffer sample_ready)
           108 0 1234567 P1Data_zero).
  - vm_compute. discriminate.
  - split; reflexivity.
  - vm_compute. split; [discriminate|reflexivity].
  - split; [lia|].
    exists (skipn (108 + 20) (buffer sample_ready)). vm_compute. reflexivity.
Defined.

(** *** The lines the loop visits *)

Lemma to_i16_range (z : Z) : -32768 <= to_i16 z < 32768.
Proof. unfold to_i16. pose proof (Z.mod_pos_bound (z + 32768) 65536). lia. Qed.

Lemma line_starts_range (fuel : nat) (buf : list Z) (bi : Z) :
  forall e s, In s (line_starts fuel buf bi e) -> -32768 <= s < 32768.
Proof.
  induction fuel as [|fuel IH]; intros e s; cbn [line_starts];
    destruct ((e <? bi) && negb (e =? -1)); cbn [In]; try tauto.
  intros [<-|H]; [apply to_i16_range|].
  destruct (indexOf buf ch_LF (to_i16 (e + 1) + 1)); cbn [In] in H;
    try tauto. now apply IH in H.
Qed.

(** A property of the reading that one visited line establishes and the
    others keep holds after the loop. *)
Lemma line_loop_establishes (R : P1Data -> Prop) (good : Z -> Prop)
    (buf : list Z) (bi : Z) (fuel : nat) :
  forall (e : Z) (d d' : P1Data),
    (forall s, In s (line_starts fuel buf bi e) ->
       forall e' x x', process_line buf s e' x = Ok x' ->
         (good s -> R x') /\ (R x -> R x')) ->
    line_loop fuel buf bi e d = Ok d' ->
    R d \/ (exists s, In s (line_starts fuel buf bi e) /\ good s) ->
    R d'.
Proof.
  induction fuel as [|fuel IH]; intros e d d' Hline Hloop Hposs;
    cbn [line_loop line_starts] in *;
    destruct ((e <? bi) && negb (e =? -1)).
  - discriminate.
  - inversion Hloop; subst. destruct Hposs as [H|(s & [] & _)]. exact H.
  - bind_inv Hloop.
    destruct (Hline (to_i16 (e + 1)) (or_introl eq_refl) _ _ _ E0) as [Hg Hk].
    apply (IH _ _ _ (fun s Hs => Hline s (or_intror Hs)) Hloop).
    destruct Hposs as [H|(s & [<-|Hs] & Hgood)].
    + left. auto.
    + left. auto.
    + right. exists s. auto.
  - inversion Hloop; subst. destruct Hposs as [H|(s & [] & _)]. exact H.
Qed.

Lemma strncmp_eq_true (lit : list Z) :
  forall l, strncmp_eq l lit = Some true -> exists rest, l = lit ++ rest.
Proof.
  induction lit as [|c lit IH]; intros l.
  - intros _. exists l. reflexivity.
  - destruct l as [|x l]; cbn [strncmp_eq]; [discriminate|].
    destruct (Z.eqb_spec x c) as [->|]; [|discriminate].
    intros H. apply IH in H. destruct H as [rest ->]. exists rest. reflexivity.
Qed.

Lemma startsWith_true_spells (buf lit : list Z) (s : Z) :
  Z.of_nat (length buf) <= 32767 -> -32768 <= s < 32768 ->
  startsWith buf lit s = Ok true -> spells buf s lit.
Proof.
  intros Hl Hs. unfold startsWith.
  destruct (ptr Buffer buf (to_u16 s)) as [l| |] eqn:P; cbn [bind];
    try discriminate.
  apply ptr_inv in P. destruct P as [Hr ->].
  assert (H0 : 0 <= s).
  { destruct (Z_lt_le_dec s 0) as [Hneg|]; [|assumption]. exfalso.
    unfold to_u16 in Hr.
    replace s with ((s + 65536) + (-1) * 65536) in Hr by lia.
    rewrite Z.mod_add, Z.mod_small in Hr by lia. lia. }
  rewrite to_u16_small by lia.
  destruct (strncmp_eq (skipn (Z.to_nat s) buf) lit) as [[|]|] eqn:C;
    cbn [past_end]; try discriminate.
  intros _. apply strncmp_eq_true in C. split; assumption.
Qed.

(** The chain changes [DeliveredTariff1] by its fourth branch only. *)
Lemma process_line_DeliveredTariff1 (buf : list Z) (s e : Z) (d d' : P1Data) :
  process_line buf s e d = Ok d' ->
  DeliveredTariff1 d' = DeliveredTariff1 d
  \/ (startsWith buf OBIS_TARIFF1_DELIVERED s = Ok true
      /\ fixed_point_line buf s 6 3 = Ok (DeliveredTariff1 d')).
Proof.
  unfold process_line.
  do 3 (chain_step; [intros H; left; revert H; branch_frame|]).
  chain_step.
  { intros H. bind_inv H. inversion H; subst. right.
    split; [assumption|]. cbn [DeliveredTariff1 set_DeliveredTariff1].
    reflexivity. }
  repeat (chain_step;
          [first [dead_branch | intros H; left; revert H; branch_frame]|]).
  intros H. inversion H. left. reflexivity.
Qed.

Lemma tariff1_line_value (buf : list Z) (s : Z) :
  Z.of_nat (length buf) <= 32767 -> spells buf s tariff1_line ->
  fixed_point_line buf s 6 3 = Ok 1234567.
Proof.
  intros Hl (Hs & rest & E).
  apply (fixed_point_line_digits buf OBIS_TARIFF1_DELIVERED
           [48; 48; 49; 50; 51; 52] [53; 54; 55]
           (bytes_of_string "*kWh)" ++ rest) s 6 3);
    try assumption; try reflexivity; try (cbn; lia); try (left; reflexivity);
    repeat constructor; unfold is_digit; try lia; discriminate.
Qed.

(** C7. A telegram holds the line [1-0:1.8.1(001234.567*kWh)] at the
    start of one of the lines that the decoder visits, and no other visited
    line begins with the code [1-0:1.8.1]: the reading that
    [ProcessTelegram] returns has [DeliveredTariff1] 1234567. *)
Theorem C7_delivered_tariff1_of_sample_line
    (cs : bool) (m : P1Meter) (d : P1Data) (m' : P1Meter) (s : Z) :
  Z.of_nat (length (buffer m)) = BUFFER_SIZE + 1 ->
  ProcessTelegram cs m = Ok (d, m') ->
  In s (visited_lines m) ->
  spells (buffer m) s tariff1_line ->
  (forall s', In s' (visited_lines m) ->
     spells (buffer m) s' OBIS_TARIFF1_DELIVERED ->
     spells (buffer m) s' tariff1_line) ->
  DeliveredTariff1 d = 1234567.
Proof.
  intros Hl Hproc Hin Hspell Honly. unfold BUFFER_SIZE in Hl.
  apply ProcessTelegram_parts in Hproc.
  destruct Hproc as (n & header & e0 & d1 & He0 & Hloop & Hcrc).
  apply check_crc_frame in Hcrc. rewrite Hcrc. cbn.
  unfold visited_lines in Hin, Honly. rewrite He0 in Hin, Honly.
  refine (line_loop_establishes
            (fun x => DeliveredTariff1 x = 1234567)
            (fun s => spells (buffer m) s tariff1_line)
            _ _ _ _ _ _ _ Hloop _).
  2: { right. exists s. split; assumption. }
  intros s' Hs' e' x x' Hline. split.
  - intros (Hs0 & rest & E).
    rewrite (process_line_dispatch FDeliveredTariff1 (buffer m)
               (skipn 10 (tariff1_line ++ rest)) s' e' x) in Hline;
      [|exact Hs0|lia|rewrite E; reflexivity].
    cbn [field_whole field_frac field_store] in Hline.
    rewrite (tariff1_line_value (buffer m) s') in Hline;
      [|lia|split; [exact Hs0|exists rest; exact E]].
    inversion Hline. reflexivity.
  - intros HR. apply process_line_DeliveredTariff1 in Hline.
    destruct Hline as [->|[Hstart Hval]]; [exact HR|].
    apply startsWith_true_spells in Hstart;
      [|lia|now apply line_starts_range in Hs'].
    apply (Honly s' Hs') in Hstart.
    rewrite (tariff1_line_value (buffer m) s') in Hval by (lia || assumption).
    inversion Hval. reflexivity.
Qed.

Lemma C7_delivered_tariff1_of_sample_line_witness :
  DeliveredTariff1 sample_reading = 1234567.
Proof.
  apply (C7_delivered_tariff1_of_sample_line false sample_ready sample_reading
           sample_after 108).
  - reflexivity.
  - vm_compute. reflexivity.
  - vm_compute. tauto.
  - split; [lia|].
    exists (skipn (108 + 25) (buffer sample_ready)). vm_compute. reflexivity.
  - intros s' Hin (_ & rest & E).
    assert (Hs : s' = 108).
    { revert E. vm_compute in Hin.
      repeat (destruct Hin as [<-|Hin]; [vm_compute; try discriminate; reflexivity|]).
      destruct Hin. }
    subst s'. split; [lia|].
    exists (skipn (108 + 25) (buffer sample_ready)). vm_compute. reflexivity.
Defined.

(** C9 fails on the code for the power produced per phase.  A line with
    the code of one of these three fields and any value, rendered as two
    digits, the point and three digits, matches none of the tests of the
    chain (the branches meant for it test the codes of the power delivered
    a second time) and leaves the whole reading as it was: the line
    [1-0:22.7.0(04.444*kW)] does not give 4444 back, while the line of
    the sibling field, [1-0:21.7.0(04.444*kW)], does. *)
Theorem C9_produced_power_round_trip_fails :
  (forall (p : phase) (v e : Z) (d : P1Data),
     process_line (produced_power_line p v) 0 e d = Ok d)
  /\ produced_power_line L1 4444 = line_buffer "1-0:22.7.0(04.444*kW)"
  /\ (exists d',
        process_line (produced_power_line L1 4444) 0 22 P1Data_zero = Ok d'
        /\ nth 0 (PowerProduced d') 0 = 0
        /\ nth 0 (PowerProduced d') 0 <> 4444)
  /\ (exists d',
        process_line (line_buffer "1-0:21.7.0(04.444*kW)") 0 22 P1Data_zero
        = Ok d'
        /\ nth 0 (PowerDelivered d') 0 = 4444).
Proof.
  split; [|split; [vm_compute; reflexivity|split]].
  - intros p v e d. unfold produced_power_line, render_fixed.
    cbn [digits app].
    generalize (48 + (v / 10 ^ Z.of_nat 3 / 10) mod 10)
               (48 + (v / 10 ^ Z.of_nat 3) mod 10)
               (48 + (v mod 10 ^ Z.of_nat 3 / 10 / 10) mod 10)
               (48 + (v mod 10 ^ Z.of_nat 3 / 10) mod 10)
               (48 + (v mod 10 ^ Z.of_nat 3) mod 10).
    intros x1 x2 x3 x4 x5. destruct p; vm_compute; reflexivity.
  - eexists. split; [vm_compute; reflexivity|].
    split; [reflexivity|discriminate].
  - eexists. split; [vm_compute; reflexivity|]. reflexivity.
Qed.

(** C4 fails on the code: for a failure log that announces four entries
    the loop writes [PowerFailureLogs[3]], outside the three elements of
    the array. *)
Theorem C4_power_log_overrun :
  loop false sample_meter overflow_telegram = Crashed PowerFailureLogsArray 3.
Proof. vm_compute. reflexivity. Qed.

(** C5 fails on the code: the line [1-0:22.7.0(04.444*kW)] is decoded
    without any error and leaves [PowerProduced] as it was. *)
Theorem C5_produced_power_line_ignored :
  exists d m,
    loop false sample_meter produced_telegram = Decoded d m []
    /\ PowerProduced d = PowerProduced (data sample_meter)
    /\ nth 0 (PowerProduced d) 0 <> 4444.
Proof.
  match eval vm_compute in (loop false sample_meter produced_telegram) with
  | Decoded ?d ?m _ => exists d, m
  end.
  split; [vm_compute; reflexivity|]. split; [reflexivity|]. vm_compute. discriminate.
Qed.

End RegistryClaims.

(** ** Further properties of the checksum engine *)

Module CRC16More.
Import CRC16 CRC16Facts.

(** Where [char] is unsigned, [CRC16_IBM_REVERSED] over the first [len]
    bytes of a buffer is the reference reversed CRC-16 (polynomial 0xA001,
    initial value 0) of these bytes. *)
Theorem crc_is_reference_where_char_is_unsigned (buf : list Z) (len : Z) :
  0 <= len <= Z.of_nat (length buf) ->
  Forall is_byte (firstn (Z.to_nat len) buf) ->
  CRC16_IBM_REVERSED false buf len
  = Ok (ref_crc16 (firstn (Z.to_nat len) buf) 0).
Proof.
  intros Hlen H. unfold CRC16_IBM_REVERSED.
  replace (0 <=? len) with true by (symmetry; apply Z.leb_le; lia).
  replace (len <=? Z.of_nat (length buf)) with true
    by (symmetry; apply Z.leb_le; lia).
  cbn [andb]. f_equal.
  apply crc_bytes_ref. eapply Forall_impl; [|exact H].
  intros b Hb. split; [exact Hb|]. now apply widen_unsigned.
Qed.

Lemma crc_is_reference_where_char_is_unsigned_witness :
  CRC16_IBM_REVERSED false [49; 50; 51; 200; 255; 7] 5
  = Ok (ref_crc16 (firstn (Z.to_nat 5) [49; 50; 51; 200; 255; 7]) 0).
Proof.
  apply (crc_is_reference_where_char_is_unsigned
           [49; 50; 51; 200; 255; 7] 5).
  - cbn. lia.
  - repeat constructor; unfold is_byte; lia.
Defined.

(** On 7-bit text the signedness of [char] does not matter:
    [CRC16_IBM_REVERSED] over the first [len] bytes is the reference
    checksum on either kind of target. *)
Theorem crc_is_reference_on_seven_bit_text (cs : bool) (buf : list Z)
    (len : Z) :
  0 <= len <= Z.of_nat (length buf) ->
  Forall (fun b => 0 <= b < 128) (firstn (Z.to_nat len) buf) ->
  CRC16_IBM_REVERSED cs buf len
  = Ok (ref_crc16 (firstn (Z.to_nat len) buf) 0).
Proof.
  intros Hlen H. unfold CRC16_IBM_REVERSED.
  replace (0 <=? len) with true by (symmetry; apply Z.leb_le; lia).
  replace (len <=? Z.of_nat (length buf)) with true
    by (symmetry; apply Z.leb_le; lia).
  cbn [andb]. f_equal.
  apply crc_bytes_ref. eapply Forall_impl; [|exact H].
  intros b Hb. cbv beta in Hb. split; [lia|]. now apply widen_ascii.
Qed.

Lemma crc_is_reference_on_seven_bit_text_witness :
  CRC16_IBM_REVERSED true [47; 65; 33; 200] 3
  = Ok (ref_crc16 (firstn (Z.to_nat 3) [47; 65; 33; 200]) 0).
Proof.
  apply (crc_is_reference_on_seven_bit_text true [47; 65; 33; 200] 3).
  - cbn. lia.
  - repeat constructor; lia.
Defined.

(** Two buffers that differ in exactly one of the bytes covered by the
    checksum have different checksums, on either kind of target. *)
Theorem crc_detects_one_changed_byte
    (cs : bool) (pre post : list Z) (b1 b2 : Z) (c1 c2 : Z) :
  is_byte b1 -> is_byte b2 -> b1 <> b2 ->
  CRC16_IBM_REVERSED cs (pre ++ b1 :: post)
    (Z.of_nat (length (pre ++ b1 :: post))) = Ok c1 ->
  CRC16_IBM_REVERSED cs (pre ++ b2 :: post)
    (Z.of_nat (length (pre ++ b2 :: post))) = Ok c2 ->
  c1 <> c2.
Proof.
  intros H1 H2 Hne E1 E2 Heq. subst c2.
  unfold CRC16_IBM_REVERSED in E1, E2.
  rewrite Z.leb_refl, Nat2Z.id, firstn_all in E1, E2.
  replace (0 <=? Z.of_nat (length (pre ++ b1 :: post))) with true in E1
    by (symmetry; apply Z.leb_le; lia).
  replace (0 <=? Z.of_nat (length (pre ++ b2 :: post))) with true in E2
    by (symmetry; apply Z.leb_le; lia).
  cbn [andb] in E1, E2. inversion E1 as [F1]. inversion E2 as [F2].
  apply (crc_bytes_one_byte cs pre post b1 b2 H1 H2 Hne). congruence.
Qed.

Lemma crc_detects_one_changed_byte_witness : 0xBB3D <> 0xBB79.
Proof.
  apply (crc_detects_one_changed_byte false
           [49; 50; 51; 52] [54; 55; 56; 57] 53 54 0xBB3D 0xBB79).
  - unfold is_byte; lia.
  - unfold is_byte; lia.
  - discriminate.
  - vm_compute. reflexivity.
  - vm_compute. reflexivity.
Defined.

End CRC16More.

(** ** The helper functions *)

Module Helpers.
Import LibC LibCFacts Decoder.

Lemma strchr_spec (c : Z) (s : list Z) :
  forall r, strchr s c = Some r ->
    match r with
    | Some k =>
        (k < length s)%nat /\ nth k s 0 = c
        /\ forall j, (j < k)%nat -> nth j s 0 <> c /\ nth j s 0 <> 0
    | None =>
        exists z, (z < length s)%nat /\ nth z s 0 = 0
                  /\ forall j, (j <= z)%nat -> nth j s 0 <> c
    end.
Proof.
  induction s as [|x s IH]; intros r; cbn [strchr]; [discriminate|].
  destruct (Z.eqb_spec x c) as [->|Hxc].
  - intros E. inversion E; subst. cbn. repeat split; try lia.
  - destruct (Z.eqb_spec x 0) as [->|Hx0].
    + intros E. inversion E; subst. exists O. cbn. repeat split; try lia.
      intros j Hj. replace j with O by lia. exact Hxc.
    + destruct (strchr s c) as [[k|]|] eqn:Hch; intros E; inversion E; subst.
      * destruct (IH _ eq_refl) as (Hk & Hn & Hb). cbn [length nth].
        repeat split; try lia; try assumption;
          destruct j as [|j]; cbn; try assumption; apply Hb; lia.
      * destruct (IH _ eq_refl) as (z & Hz & Hn & Hb). exists (S z).
        cbn [length nth]. repeat split; try lia; try assumption.
        intros [|j] Hj; [exact Hxc|]. apply Hb. lia.
Qed.

(** [indexOf] returns the position of the first occurrence of the
    character at or after the start index, or -1 when the string ends
    before one is found. *)
Theorem indexOf_first_occurrence (buf : list Z) (c start i : Z) :
  Z.of_nat (length buf) <= BUFFER_SIZE + 1 ->
  is_byte c -> 0 <= start < 32768 ->
  indexOf buf c start = Ok i ->
  (i <> -1 ->
     start <= i < Z.of_nat (length buf)
     /\ nth (Z.to_nat i) buf 0 = c
     /\ forall j, start <= j < i ->
          nth (Z.to_nat j) buf 0 <> c /\ nth (Z.to_nat j) buf 0 <> 0)
  /\ (i = -1 ->
     exists z, start <= z < Z.of_nat (length buf)
               /\ nth (Z.to_nat z) buf 0 = 0
               /\ forall j, start <= j <= z -> nth (Z.to_nat j) buf 0 <> c).
Proof.
  intros Hl Hc Hs. unfold BUFFER_SIZE in Hl. unfold indexOf.
  destruct (ptr Buffer buf (to_i16 start)) as [s| |] eqn:P; cbn [bind];
    try discriminate.
  apply ptr_inv in P. destruct P as [Hr ->].
  assert (Hst : to_i16 start = start) by (apply to_i16_small; lia).
  rewrite Hst in *. rewrite to_u8_small by exact Hc.
  destruct (strchr (skipn (Z.to_nat start) buf) c) as [r|] eqn:Hch;
    cbn [past_end bind]; try discriminate.
  apply strchr_spec in Hch. rewrite length_skipn in Hch.
  destruct r as [k|]; intros E; inversion E; subst i; clear E.
  - destruct Hch as (Hk & Hn & Hb). rewrite nth_skipn in Hn.
    rewrite to_i16_small by lia. split; [|lia]. intros _.
    split; [lia|]. split.
    + rewrite Z2Nat.inj_add, Nat2Z.id by lia. exact Hn.
    + intros j Hj. specialize (Hb (Z.to_nat (j - start)) ltac:(lia)).
      rewrite nth_skipn in Hb.
      replace (Z.to_nat start + Z.to_nat (j - start))%nat with (Z.to_nat j)
        in Hb by lia. exact Hb.
  - split; [congruence|]. intros _.
    destruct Hch as (z & Hz & Hn & Hb). rewrite nth_skipn in Hn.
    exists (start + Z.of_nat z). split; [lia|]. split.
    + rewrite Z2Nat.inj_add, Nat2Z.id by lia. exact Hn.
    + intros j Hj. specialize (Hb (Z.to_nat (j - start)) ltac:(lia)).
      rewrite nth_skipn in Hb.
      replace (Z.to_nat start + Z.to_nat (j - start))%nat with (Z.to_nat j)
        in Hb by lia. exact Hb.
Qed.


Lemma indexOf_first_occurrence_witness :
  (18 <> -1 ->
     0 <= 18 < Z.of_nat (length (buffer sample_ready))
     /\ nth (Z.to_nat 18) (buffer sample_ready) 0 = ch_LF
     /\ forall j, 0 <= j < 18 ->
          nth (Z.to_nat j) (buffer sample_ready) 0 <> ch_LF
          /\ nth (Z.to_nat j) (buffer sample_ready) 0 <> 0)
  /\ (18 = -1 ->
     exists z, 0 <= z < Z.of_nat (length (buffer sample_ready))
               /\ nth (Z.to_nat z) (buffer sample_ready) 0 = 0
               /\ forall j, 0 <= j <= z ->
                    nth (Z.to_nat j) (buffer sample_ready) 0 <> ch_LF).
Proof.
  apply (indexOf_first_occurrence (buffer sample_ready) ch_LF 0 18).
  - vm_compute. discriminate.
  - unfold is_byte, ch_LF. lia.
  - lia.
  - vm_compute. reflexivity.
Defined.

Lemma strrchr_spec (c : Z) (s : list Z) :
  c <> 0 ->
  forall r, strrchr s c = Some r ->
    exists z, (z < length s)%nat /\ nth z s 0 = 0
      /\ (forall j, (j < z)%nat -> nth j s 0 <> 0)
      /\ match r with
         | Some k =>
             (k < z)%nat /\ nth k s 0 = c
             /\ forall j, (k < j < z)%nat -> nth j s 0 <> c
         | None => forall j, (j < z)%nat -> nth j s 0 <> c
         end.
Proof.
  intros Hc. induction s as [|x s IH]; intros r; cbn [strrchr]; [discriminate|].
  destruct (Z.eqb_spec x 0) as [->|Hx0].
  - replace (c =? 0) with false by (symmetry; now apply Z.eqb_neq).
    intros E. inversion E; subst. exists O. cbn. repeat split; lia.
  - destruct (strrchr s c) as [r'|] eqn:Hr; [|discriminate].
    destruct (IH _ eq_refl) as (z & Hz & Hn & Hnz & Hm).
    destruct r' as [k|].
    + intros E. inversion E; subst. exists (S z). cbn [length nth].
      destruct Hm as (Hk & Hkc & Hafter).
      repeat split; try lia; try assumption.
      * intros [|j] Hj; [exact Hx0|]. apply Hnz. lia.
      * intros [|j] Hj; [lia|]. apply Hafter. lia.
    + destruct (Z.eqb_spec x c) as [->|Hxc]; intros E; inversion E; subst;
        exists (S z); cbn [length nth]; repeat split; try lia; try assumption.
      * intros [|j] Hj; [exact Hx0|]. apply Hnz. lia.
      * intros [|j] Hj; [lia|]. apply Hm. lia.
      * intros [|j] Hj; [exact Hx0|]. apply Hnz. lia.
      * intros [|j] Hj; [exact Hxc|]. apply Hm. lia.
Qed.

(** [lastIndexOf] searches the string that starts at the given index up
    to its terminator: it returns the position of the last occurrence of
    the character in it, or -1 when there is none. *)
Theorem lastIndexOf_last_occurrence (buf : list Z) (c from i : Z) :
  Z.of_nat (length buf) <= BUFFER_SIZE + 1 ->
  is_byte c -> c <> 0 -> 0 <= from < 65536 ->
  lastIndexOf buf c from = Ok i ->
  exists z, from <= z < Z.of_nat (length buf)
    /\ nth (Z.to_nat z) buf 0 = 0
    /\ (forall j, from <= j < z -> nth (Z.to_nat j) buf 0 <> 0)
    /\ (i <> -1 ->
          from <= i < z /\ nth (Z.to_nat i) buf 0 = c
          /\ forall j, i < j < z -> nth (Z.to_nat j) buf 0 <> c)
    /\ (i = -1 -> forall j, from <= j < z -> nth (Z.to_nat j) buf 0 <> c).
Proof.
  intros Hl Hc Hc0 Hf. unfold BUFFER_SIZE in Hl. unfold lastIndexOf.
  rewrite to_u16_small by lia.
  destruct (ptr Buffer buf from) as [s| |] eqn:P; cbn [bind]; try discriminate.
  apply ptr_inv in P. destruct P as [Hr ->].
  rewrite to_u8_small by exact Hc.
  destruct (strrchr (skipn (Z.to_nat from) buf) c) as [r|] eqn:Hch;
    cbn [past_end bind]; try discriminate.
  apply strrchr_spec in Hch; [|exact Hc0]. rewrite length_skipn in Hch.
  destruct Hch as (z & Hz & Hn & Hnz & Hm).
  assert (Hat : forall j, from <= j ->
            nth (Z.to_nat (j - from)) (skipn (Z.to_nat from) buf) 0
            = nth (Z.to_nat j) buf 0).
  { intros j Hj. rewrite nth_skipn. f_equal. lia. }
  intros E.
  exists (from + Z.of_nat z). split; [lia|]. split.
  { rewrite <- Hat by lia.
    replace (Z.to_nat (from + Z.of_nat z - from)) with z by lia. exact Hn. }
  split.
  { intros j Hj. rewrite <- Hat by lia. apply Hnz. lia. }
  destruct r as [k|]; inversion E; subst i; clear E.
  - destruct Hm as (Hk & Hkc & Hafter).
    rewrite to_i16_small by lia. split; [|lia]. intros _.
    split; [lia|]. split.
    + rewrite <- Hat by lia.
      replace (Z.to_nat (from + Z.of_nat k - from)) with k by lia. exact Hkc.
    + intros j Hj. rewrite <- Hat by lia. apply Hafter. lia.
  - split; [congruence|]. intros _ j Hj.
    rewrite <- Hat by lia. apply Hm. lia.
Qed.

Lemma lastIndexOf_last_occurrence_witness :
  exists z, 0 <= z < Z.of_nat (length (buffer sample_ready))
    /\ nth (Z.to_nat z) (buffer sample_ready) 0 = 0
    /\ (forall j, 0 <= j < z -> nth (Z.to_nat j) (buffer sample_ready) 0 <> 0)
    /\ (896 <> -1 ->
          0 <= 896 < z /\ nth (Z.to_nat 896) (buffer sample_ready) 0 = ch_minus
          /\ forall j, 896 < j < z ->
               nth (Z.to_nat j) (buffer sample_ready) 0 <> ch_minus)
    /\ (896 = -1 ->
          forall j, 0 <= j < z ->
            nth (Z.to_nat j) (buffer sample_ready) 0 <> ch_minus).
Proof.
  apply (lastIndexOf_last_occurrence (buffer sample_ready) ch_minus 0 896).
  - vm_compute. discriminate.
  - unfold is_byte, ch_minus. lia.
  - discriminate.
  - lia.
  - vm_compute. reflexivity.
Defined.


Lemma strncmp_eq_prefix (lit rest : list Z) :
  strncmp_eq (lit ++ rest) lit = Some true.
Proof.
  induction lit as [|c lit IH]; cbn [app].
  - destruct rest; reflexivity.
  - cbn [strncmp_eq]. now rewrite Z.eqb_refl.
Qed.

Lemma strncmp_eq_spells (lit : list Z) :
  forall l, strncmp_eq l lit = Some true -> exists rest, l = lit ++ rest.
Proof.
  induction lit as [|c lit IH]; intros l.
  - intros _. exists l. reflexivity.
  - destruct l as [|x l]; cbn [strncmp_eq]; [discriminate|].
    destruct (Z.eqb_spec x c) as [->|]; [|discriminate].
    intros H. apply IH in H. destruct H as [rest ->]. exists rest. reflexivity.
Qed.

(** [startsWith] answers true exactly when the bytes of the buffer from
    the offset on are those of the string. *)
Theorem startsWith_iff_spells (buf lit : list Z) (s : Z) :
  Z.of_nat (length buf) <= BUFFER_SIZE + 1 ->
  0 <= s < 65536 -> lit <> [] ->
  (startsWith buf lit s = Ok true <-> spells buf s lit).
Proof.
  intros Hl Hs Hlit. unfold BUFFER_SIZE in Hl. unfold startsWith, spells.
  rewrite to_u16_small by lia. split.
  - destruct (ptr Buffer buf s) as [l| |] eqn:P; cbn [bind]; try discriminate.
    apply ptr_inv in P. destruct P as [Hr ->].
    destruct (strncmp_eq (skipn (Z.to_nat s) buf) lit) as [[|]|] eqn:C;
      cbn [past_end]; try discriminate.
    intros _. apply strncmp_eq_spells in C. split; [lia|exact C].
  - intros (_ & rest & E).
    assert (Hne : lit ++ rest <> []) by (destruct lit; [congruence|discriminate]).
    pose proof (skipn_bound _ _ _ E Hne).
    rewrite ptr_ok by lia. cbn [bind]. rewrite E, strncmp_eq_prefix.
    reflexivity.
Qed.

Lemma startsWith_iff_spells_witness :
  startsWith (buffer sample_ready) OBIS_TARIFF1_DELIVERED 108 = Ok true
  <-> spells (buffer sample_ready) 108 OBIS_TARIFF1_DELIVERED.
Proof.
  apply (startsWith_iff_spells (buffer sample_ready) OBIS_TARIFF1_DELIVERED 108).
  - vm_compute. discriminate.
  - lia.
  - discriminate.
Defined.

Lemma list_set_split {A : Type} (l : list A) (i : nat) (v : A) :
  (i < length l)%nat -> list_set l i v = firstn i l ++ v :: skipn (S i) l.
Proof.
  revert i. induction l as [|x l IH]; intros [|i] H; cbn in *; try lia.
  - reflexivity.
  - f_equal. apply IH. lia.
Qed.

Lemma cstring_exact (l rest : list Z) :
  Forall (fun x => x <> 0) l -> cstring (l ++ 0 :: rest) = Some l.
Proof.
  induction 1 as [|x l Hx _ IH]; cbn; [reflexivity|].
  replace (x =? 0) with false by (symmetry; now apply Z.eqb_neq).
  now rewrite IH.
Qed.

Lemma cut_string (buf : list Z) (s e : nat) :
  (s <= e)%nat -> (e < length buf)%nat ->
  (forall j, (s <= j < e)%nat -> nth j buf 0 <> 0) ->
  cstring (skipn s (list_set buf e 0)) = Some (firstn (e - s) (skipn s buf)).
Proof.
  intros Hs He Hnz.
  rewrite list_set_split by lia.
  rewrite skipn_app, length_firstn.
  replace (s - Nat.min e (length buf))%nat with O by lia.
  cbn [skipn].
  replace (skipn s (firstn e buf)) with (firstn (e - s) (skipn s buf)).
  2: { rewrite firstn_skipn_comm. do 2 f_equal. lia. }
  apply cstring_exact.
  apply Forall_nth. intros i d Hi.
  rewrite length_firstn, length_skipn in Hi.
  rewrite (nth_indep _ d 0) by (rewrite length_firstn, length_skipn; lia).
  rewrite nth_firstn.
  replace (i <? e - s)%nat with true by (symmetry; apply Nat.ltb_lt; lia).
  rewrite nth_skipn. apply Hnz. lia.
Qed.

(** [getSubString] returns the bytes from the start index up to, not
    including, the end index, when none of them is NUL. *)
Theorem getSubString_between (buf : list Z) (s e : Z) :
  Z.of_nat (length buf) <= BUFFER_SIZE + 1 ->
  0 <= s <= e -> e < Z.of_nat (length buf) ->
  (forall j, s <= j < e -> nth (Z.to_nat j) buf 0 <> 0) ->
  getSubString buf s e
  = Ok (firstn (Z.to_nat (e - s)) (skipn (Z.to_nat s) buf)).
Proof.
  intros Hl Hs He Hnz. unfold BUFFER_SIZE in Hl. unfold getSubString.
  rewrite !to_u16_small by lia.
  rewrite store_ok by lia. cbn [bind].
  rewrite ptr_ok by (rewrite list_set_length; lia). cbn [bind].
  rewrite cut_string.
  - cbn [past_end]. do 2 f_equal. lia.
  - lia.
  - lia.
  - intros j Hj. specialize (Hnz (Z.of_nat j) ltac:(lia)).
    now rewrite Nat2Z.id in Hnz.
Qed.

Lemma getSubString_between_witness :
  getSubString (buffer sample_ready) 1 18
  = Ok (firstn (Z.to_nat (18 - 1)) (skipn (Z.to_nat 1) (buffer sample_ready))).
Proof.
  apply (getSubString_between (buffer sample_ready) 1 18).
  - vm_compute. discriminate.
  - lia.
  - vm_compute. reflexivity.
  - intros j Hj.
    assert (Hc : forallb (fun x => negb (x =? 0))
                   (firstn 18 (buffer sample_ready)) = true)
      by (vm_compute; reflexivity).
    rewrite forallb_forall in Hc.
    specialize (Hc (nth (Z.to_nat j) (buffer sample_ready) 0)).
    rewrite Bool.negb_true_iff in Hc. apply Z.eqb_neq. apply Hc.
    replace (nth (Z.to_nat j) (buffer sample_ready) 0)
      with (nth (Z.to_nat j) (firstn 18 (buffer sample_ready)) 0).
    + apply nth_In. rewrite length_firstn.
      change (length (buffer sample_ready)) with 1025%nat. lia.
    + rewrite nth_firstn.
      replace (Z.to_nat j <? 18)%nat with true
        by (symmetry; apply Nat.ltb_lt; lia).
      reflexivity.
Defined.


Lemma strlen_string (str rest : list Z) :
  Forall (fun x => x <> 0) str ->
  LibCString.strlen (str ++ 0 :: rest) = Some (length str).
Proof.
  induction 1 as [|x l Hx _ IH]; cbn; [reflexivity|].
  replace (x =? 0) with false by (symmetry; now apply Z.eqb_neq).
  now rewrite IH.
Qed.

Lemma strcmp_eq_string (lit : list Z) :
  Forall (fun x => x <> 0) lit ->
  forall (s rest : list Z),
    Forall (fun x => x <> 0) s ->
    exists b, LibCString.strcmp_eq (s ++ 0 :: rest) lit = Some b
              /\ (b = true <-> s = lit).
Proof.
  induction 1 as [|c lit Hc _ IH]; intros s rest Hs.
  - destruct s as [|x s]; cbn.
    + exists true. split; [reflexivity|tauto].
    + inversion Hs; subst.
      replace (x =? 0) with false by (symmetry; now apply Z.eqb_neq).
      exists false. split; [reflexivity|]. split; discriminate.
  - destruct s as [|x s]; cbn.
    + change (match c with 0 => true | _ => false end) with (0 =? c).
      replace (0 =? c) with false by (symmetry; apply Z.eqb_neq; congruence).
      exists false. split; [reflexivity|]. split; discriminate.
    + inversion Hs; subst. destruct (Z.eqb_spec x c) as [->|Hn].
      * destruct (IH s rest ltac:(assumption)) as (b & E & Hb).
        exists b. split; [exact E|]. rewrite Hb. split; congruence.
      * exists false. split; [reflexivity|]. split; [discriminate|congruence].
Qed.

(** When the string held in the buffer is at least as long as the
    literal, [endsWith] returns whether the literal is its suffix. *)
Theorem endsWith_suffix (str rest lit : list Z) :
  Z.of_nat (length (str ++ 0 :: rest)) <= BUFFER_SIZE + 1 ->
  Forall (fun x => x <> 0) str -> Forall (fun x => x <> 0) lit ->
  (length lit <= length str)%nat ->
  exists b, endsWith (str ++ 0 :: rest) lit = Ok b
            /\ (b = true <-> exists pre, str = pre ++ lit).
Proof.
  intros Hl Hstr Hlit Hle. unfold BUFFER_SIZE in Hl.
  rewrite length_app in Hl. cbn [length] in Hl.
  unfold endsWith. rewrite strlen_string by assumption.
  cbn [past_end bind]. rewrite !to_u16_small by lia.
  rewrite ptr_ok by (rewrite length_app; cbn [length]; lia). cbn [bind].
  replace (Z.to_nat (Z.of_nat (length str) - Z.of_nat (length lit)))
    with (length str - length lit)%nat by lia.
  rewrite skipn_app.
  replace (length str - length lit - length str)%nat with O by lia.
  cbn [skipn].
  assert (Hsk : Forall (fun x => x <> 0) (skipn (length str - length lit) str)).
  { rewrite <- (firstn_skipn (length str - length lit) str) in Hstr.
    apply Forall_app in Hstr. tauto. }
  destruct (strcmp_eq_string lit Hlit _ rest Hsk) as (b & E & Hb).
  exists b. rewrite E. split; [reflexivity|]. rewrite Hb. split.
  - intros Hs. exists (firstn (length str - length lit) str).
    rewrite <- Hs at 2. symmetry. apply firstn_skipn.
  - intros (pre & ->). rewrite length_app.
    replace (length pre + length lit - length lit)%nat
      with (length pre + 0)%nat by lia.
    rewrite skipn_app, Nat.add_0_r, skipn_all.
    replace (length pre - length pre)%nat with O by lia. reflexivity.
Qed.

Lemma endsWith_suffix_witness :
  exists b, endsWith ([47; 65; 33] ++ 0 :: [0; 0]) [65; 33] = Ok b
            /\ (b = true <-> exists pre, [47; 65; 33] = pre ++ [65; 33]).
Proof.
  apply (endsWith_suffix [47; 65; 33] [0; 0] [65; 33]).
  - vm_compute. discriminate.
  - repeat constructor; discriminate.
  - repeat constructor; discriminate.
  - cbn. lia.
Defined.

(** When the literal is longer than the string held in the buffer,
    [endsWith] takes the address of a byte in front of the buffer. *)
Theorem endsWith_longer_literal (str rest lit : list Z) :
  Z.of_nat (length (str ++ 0 :: rest)) <= BUFFER_SIZE + 1 ->
  Forall (fun x => x <> 0) str ->
  (length str < length lit)%nat -> Z.of_nat (length lit) < 65536 ->
  endsWith (str ++ 0 :: rest) lit
  = Fault Buffer (Z.of_nat (length str) - Z.of_nat (length lit)).
Proof.
  intros Hl Hstr Hlt Hlit. unfold BUFFER_SIZE in Hl.
  rewrite length_app in Hl. cbn [length] in Hl.
  unfold endsWith. rewrite strlen_string by assumption.
  cbn [past_end bind]. rewrite !to_u16_small by lia.
  unfold ptr.
  replace (0 <=? Z.of_nat (length str) - Z.of_nat (length lit)) with false
    by (symmetry; apply Z.leb_gt; lia).
  reflexivity.
Qed.

Lemma endsWith_longer_literal_witness :
  endsWith ([33] ++ 0 :: [0; 0]) [65; 33]
  = Fault Buffer (Z.of_nat (length [33]) - Z.of_nat (length [65; 33])).
Proof.
  apply (endsWith_longer_literal [33] [0; 0] [65; 33]).
  - vm_compute. discriminate.
  - repeat constructor; discriminate.
  - cbn. lia.
  - cbn. lia.
Defined.

End Helpers.

Module AccumulatorMore.
Import Accumulator AccumulatorClaims.

(** A start marker followed by [BUFFER_SIZE] bytes without a terminator
    fills the buffer to its last byte; the byte after them is stored one
    position past the end of the buffer. *)
Theorem ReceiveTelegram_overrun (m : P1Meter) (seg : list Z) (b : Z)
    (rest : list Z) :
  meter_wf m -> DataReady m = false ->
  Forall (fun x => x <> ch_bang) (heap_before m) ->
  Forall no_bang seg -> Z.of_nat (length seg) = BUFFER_SIZE ->
  ReceiveTelegram m (ch_slash :: seg ++ b :: rest)
  = Faulted Buffer (BUFFER_SIZE + 1).
Proof.
  intros Hwf Hr Hheap Hseg Hlen. pose proof Hwf as [Hl Hh].
  unfold BUFFER_SIZE in *.
  rewrite ReceiveTelegram_start by lia.
  destruct (started_facts m Hwf) as (SH & SI & SL & SP & SR & _).
  assert (Hbytes : Forall is_byte seg)
    by (eapply Forall_impl; [|exact Hseg]; intros x [Hx _]; exact Hx).
  destruct (receive_loop_quiet seg (started m) (b :: rest))
    as (E & _ & H2 & H3 & H4 & H5).
  - now rewrite SP.
  - rewrite SL. lia.
  - now rewrite SR.
  - lia.
  - rewrite SI, SL. lia.
  - rewrite SH, SI.
    apply (telegram_quiet (heap_before m) seg [] seg); auto.
    + lia.
    + rewrite app_nil_r. symmetry. apply firstn_all.
  - rewrite E. cbn [receive_loop]. rewrite H5.
    unfold receive_byte, store, in_bounds.
    rewrite H2, H3, SI, SL.
    replace (1 + Z.of_nat (length seg) <? Z.of_nat (length (buffer m)))
      with false by (symmetry; apply Z.ltb_ge; lia).
    rewrite Bool.andb_false_r. cbn [bind]. f_equal. lia.
Qed.

Lemma ReceiveTelegram_overrun_witness :
  ReceiveTelegram sample_meter (ch_slash :: repeat 65 1024 ++ 66 :: [])
  = Faulted Buffer (BUFFER_SIZE + 1).
Proof.
  apply (ReceiveTelegram_overrun sample_meter (repeat 65 1024) 66 []).
  - split; reflexivity.
  - reflexivity.
  - cbn. repeat constructor; discriminate.
  - apply Forall_forall. intros x Hx. apply repeat_spec in Hx. subst x.
    split; [unfold is_byte; lia|discriminate].
  - rewrite repeat_length. reflexivity.
Defined.

Lemma raise_cts_pin (m : P1Meter) :
  ctsPin m <> 0xFF ->
  ctsHigh (raise_cts m) = true /\ ctsPin (raise_cts m) = ctsPin m.
Proof.
  intros Hp. unfold raise_cts.
  replace (ctsPin m =? 0xFF) with false by (symmetry; now apply Z.eqb_neq).
  destruct (ctsHigh m) eqn:E; cbn; auto.
Qed.

Lemma make_ready_pin (m : P1Meter) :
  ctsPin m <> 0xFF ->
  ctsHigh (make_ready m) = false /\ ctsPin (make_ready m) = ctsPin m
  /\ hd_error (pin_log (make_ready m)) = Some (PinMode (ctsPin m) false).
Proof.
  intros Hp. unfold make_ready. cbn.
  replace (ctsPin m =? 0xFF) with false by (symmetry; now apply Z.eqb_neq).
  cbn. auto.
Qed.

Lemma receive_loop_cts (serial : list Z) :
  forall (m m' : P1Meter) (rest : list Z),
    ctsPin m <> 0xFF -> DataReady m = false -> ctsHigh m = true ->
    receive_loop serial m = Returned m' rest ->
    DataReady m' = true /\ ctsHigh m' = false
    /\ hd_error (pin_log m') = Some (PinMode (ctsPin m) false).
Proof.
  induction serial as [|b serial IH]; intros m m' rest Hp Hr Hc;
    cbn [receive_loop]; rewrite Hr; [discriminate|].
  unfold receive_byte.
  destruct (store Buffer (buffer m) (bufferIndex m) (to_u8 b)) as [buf'| |];
    cbn [bind]; try discriminate.
  destruct (lookbehind _ _) as [c| |]; cbn [bind]; try discriminate.
  destruct (c =? ch_bang).
  - destruct (make_ready_pin (set_buffer buf' m) Hp) as (A & B & C).
    rewrite receive_loop_ready by apply make_ready_DataReady.
    intros E. inversion E; subst.
    rewrite make_ready_DataReady. auto.
  - intros E. apply IH in E; auto.
Qed.

(** With a CTS pin configured and no telegram pending, a call that returns
    leaves [ctsHigh] the opposite of [DataReady]: the line is requested
    while a telegram is awaited, and the last pin operation of a call that
    completes a telegram switches the pin to input. *)
Theorem ReceiveTelegram_cts_follows_ready (m m' : P1Meter)
    (serial rest : list Z) :
  ctsPin m <> 0xFF -> DataReady m = false ->
  ReceiveTelegram m serial = Returned m' rest ->
  ctsHigh m' = negb (DataReady m')
  /\ (DataReady m' = true ->
      hd_error (pin_log m') = Some (PinMode (ctsPin m) false)).
Proof.
  intros Hp Hr. unfold ReceiveTelegram.
  destruct (raise_cts_pin m Hp) as [Hc Hq].
  destruct (raise_cts_frame m) as (_ & _ & _ & Fr & _). rewrite Hr in Fr.
  assert (Hidle : forall s, Returned (raise_cts m) s = Returned m' rest ->
            ctsHigh m' = negb (DataReady m')
            /\ (DataReady m' = true ->
                hd_error (pin_log m') = Some (PinMode (ctsPin m) false))).
  { intros s E. inversion E; subst. rewrite Hc, Fr. split; [reflexivity|].
    discriminate. }
  destruct serial as [|d serial]; [apply Hidle|].
  destruct (negb (to_u8 d =? ch_slash)); [apply Hidle|].
  destruct (store Buffer (buffer (raise_cts m)) 0 (to_u8 d)) as [buf'| |];
    try discriminate.
  intros E. apply receive_loop_cts in E.
  - destruct E as (A & B & C). cbn in C. rewrite Hq in C.
    rewrite A, B. auto.
  - cbn. rewrite Hq. exact Hp.
  - cbn. exact Fr.
  - cbn. exact Hc.
Qed.

Lemma ReceiveTelegram_cts_follows_ready_witness :
  ctsHigh (finish (fold_left push (inner [65; 66] 49 50 51 52)
                     (started (P1Meter_new_with_pin [0; 0; 0; 0; 0] 0 5)))
             ch_LF)
  = negb (DataReady
            (finish (fold_left push (inner [65; 66] 49 50 51 52)
                       (started (P1Meter_new_with_pin [0; 0; 0; 0; 0] 0 5)))
               ch_LF))
  /\ (DataReady
        (finish (fold_left push (inner [65; 66] 49 50 51 52)
                   (started (P1Meter_new_with_pin [0; 0; 0; 0; 0] 0 5)))
           ch_LF) = true ->
      hd_error
        (pin_log
           (finish (fold_left push (inner [65; 66] 49 50 51 52)
                      (started (P1Meter_new_with_pin [0; 0; 0; 0; 0] 0 5)))
              ch_LF))
      = Some (PinMode (ctsPin (P1Meter_new_with_pin [0; 0; 0; 0; 0] 0 5))
                false)).
Proof.
  apply (ReceiveTelegram_cts_follows_ready
           (P1Meter_new_with_pin [0; 0; 0; 0; 0] 0 5) _
           (telegram [65; 66] 49 50 51 52) []).
  - vm_compute. discriminate.
  - reflexivity.
  - vm_compute. reflexivity.
Defined.

Lemma raise_cts_no_pin (m : P1Meter) : ctsPin m = 0xFF -> raise_cts m = m.
Proof.
  intros Hp. unfold raise_cts. rewrite Hp. cbn.
  now rewrite Bool.andb_false_r.
Qed.

Lemma receive_byte_no_pin (m m' : P1Meter) (b : Z) :
  ctsPin m = 0xFF -> receive_byte m b = Ok m' ->
  ctsPin m' = 0xFF /\ ctsHigh m' = ctsHigh m /\ pin_log m' = pin_log m.
Proof.
  intros Hp. unfold receive_byte.
  destruct (store Buffer (buffer m) (bufferIndex m) (to_u8 b)) as [buf'| |];
    cbn [bind]; try discriminate.
  destruct (lookbehind _ _) as [c| |]; cbn [bind]; try discriminate.
  destruct (c =? ch_bang); intros E; inversion E; subst m'.
  - unfold make_ready. cbn. rewrite Hp. cbn. auto.
  - cbn. auto.
Qed.

Lemma receive_loop_no_pin (serial : list Z) :
  forall (m m' : P1Meter),
    ctsPin m = 0xFF ->
    (exists rest, receive_loop serial m = Returned m' rest)
    \/ receive_loop serial m = Blocked m' ->
    ctsHigh m' = ctsHigh m /\ pin_log m' = pin_log m.
Proof.
  induction serial as [|b serial IH]; intros m m' Hp; cbn [receive_loop];
    destruct (DataReady m).
  - intros [[rest E]|E]; inversion E; subst; auto.
  - intros [[rest E]|E]; inversion E; subst; auto.
  - intros [[rest E]|E]; inversion E; subst; auto.
  - destruct (receive_byte m b) as [m1| |] eqn:R.
    + apply receive_byte_no_pin in R; [|exact Hp].
      destruct R as (A & B & C). intros H. apply IH in H; [|exact A].
      rewrite <- B, <- C. exact H.
    + intros [[rest E]|E]; discriminate.
    + intros [[rest E]|E]; discriminate.
Qed.

(** A meter constructed without a CTS pin performs no pin operation:
    whether a call returns or waits for more bytes, [ctsHigh] and the pins
    are as before. *)
Theorem ReceiveTelegram_without_pin (m m' : P1Meter) (serial : list Z) :
  ctsPin m = 0xFF ->
  (exists rest, ReceiveTelegram m serial = Returned m' rest)
  \/ ReceiveTelegram m serial = Blocked m' ->
  ctsHigh m' = ctsHigh m /\ pin_log m' = pin_log m.
Proof.
  intros Hp. unfold ReceiveTelegram. rewrite raise_cts_no_pin by exact Hp.
  destruct serial as [|d serial].
  - intros [[rest E]|E]; inversion E; subst; auto.
  - destruct (negb (to_u8 d =? ch_slash)).
    + intros [[rest E]|E]; inversion E; subst; auto.
    + destruct (store Buffer (buffer m) 0 (to_u8 d)) as [buf'| |].
      * intros H. apply receive_loop_no_pin in H; [exact H|exact Hp].
      * intros [[rest E]|E]; discriminate.
      * intros [[rest E]|E]; discriminate.
Qed.

Lemma ReceiveTelegram_without_pin_witness :
  ctsHigh (fold_left push [65; 66] (started sample_meter))
  = ctsHigh sample_meter
  /\ pin_log (fold_left push [65; 66] (started sample_meter))
     = pin_log sample_meter.
Proof.
  apply (ReceiveTelegram_without_pin sample_meter _ [ch_slash; 65; 66]).
  - reflexivity.
  - right. vm_compute. reflexivity.
Defined.

(** A start marker read while [DataReady] is still set overwrites the
    first byte of the pending telegram and moves the write index to 1;
    the call returns without reading another byte, and the telegram is
    still announced. *)
Theorem ReceiveTelegram_start_while_ready (m : P1Meter) (serial : list Z) :
  meter_wf m -> DataReady m = true ->
  ReceiveTelegram m (ch_slash :: serial) = Returned (started m) serial
  /\ GetBufferLength (started m) = 1
  /\ DataReady (started m) = true
  /\ nth 0 (GetBuffer (started m)) 0 = ch_slash
  /\ (forall i, (0 < i)%nat ->
        nth i (GetBuffer (started m)) 0 = nth i (buffer m) 0).
Proof.
  intros Hwf Hr. pose proof Hwf as [Hl Hh]. unfold BUFFER_SIZE in Hl.
  destruct (started_facts m Hwf) as (_ & SI & _ & _ & SR & _).
  destruct (raise_cts_frame m) as (Fb & _).
  rewrite ReceiveTelegram_start by lia.
  rewrite receive_loop_ready by (rewrite SR; exact Hr).
  unfold GetBufferLength, GetBuffer. rewrite SI, SR.
  repeat split; auto.
  - unfold started. cbn. rewrite Fb.
    destruct (buffer m); [cbn in Hl; lia|reflexivity].
  - intros i Hi. unfold started. cbn. rewrite Fb.
    apply list_set_nth_other. lia.
Qed.

Lemma ReceiveTelegram_start_while_ready_witness :
  ReceiveTelegram sample_ready (ch_slash :: [65])
  = Returned (started sample_ready) [65]
  /\ GetBufferLength (started sample_ready) = 1
  /\ DataReady (started sample_ready) = true
  /\ nth 0 (GetBuffer (started sample_ready)) 0 = ch_slash
  /\ (forall i, (0 < i)%nat ->
        nth i (GetBuffer (started sample_ready)) 0
        = nth i (buffer sample_ready) 0).
Proof.
  apply (ReceiveTelegram_start_while_ready sample_ready [65]).
  - split; vm_compute; reflexivity.
  - vm_compute. reflexivity.
Defined.

Lemma receive_loop_tail (serial : list Z) :
  forall (m m' : P1Meter) (rest : list Z),
    Z.of_nat (length (buffer m)) <= 32767 -> 0 <= bufferIndex m ->
    receive_loop serial m = Returned m' rest ->
    bufferIndex m <= bufferIndex m'
    /\ forall i, bufferIndex m' < i ->
         nth (Z.to_nat i) (buffer m') 0 = nth (Z.to_nat i) (buffer m) 0.
Proof.
  induction serial as [|b serial IH]; intros m m' rest Hl Hi;
    cbn [receive_loop]; destruct (DataReady m);
    try discriminate;
    try (intros E; inversion E; subst; split; [lia|reflexivity]).
  unfold receive_byte.
  destruct (store Buffer (buffer m) (bufferIndex m) (to_u8 b)) as [buf'| |] eqn:S;
    cbn [bind]; try discriminate.
  apply store_inv in S. destruct S as [Hb ->].
  destruct (lookbehind _ _) as [c| |]; cbn [bind]; try discriminate.
  destruct (c =? ch_bang); intros E; apply IH in E.
  - rewrite make_ready_buffer, make_ready_bufferIndex in E. cbn in E.
    destruct E as [E1 E2]. split; [exact E1|].
    intros i Hlt. rewrite E2 by exact Hlt. apply list_set_nth_other. lia.
  - rewrite make_ready_buffer. cbn. rewrite list_set_length. exact Hl.
  - rewrite make_ready_bufferIndex. cbn. exact Hi.
  - cbn in E. rewrite to_i16_small in E by lia.
    destruct E as [E1 E2]. split; [lia|].
    intros i Hlt. rewrite E2 by exact Hlt. apply list_set_nth_other. lia.
  - cbn. rewrite list_set_length. exact Hl.
  - cbn. rewrite to_i16_small by lia. lia.
Qed.

(** Reception writes no byte above the final write index: what the buffer
    held there is kept, so that in a cleared buffer a telegram that ends
    before the last position is followed by NUL. *)
Theorem ReceiveTelegram_keeps_tail (m m' : P1Meter) (serial rest : list Z) :
  meter_wf m ->
  ReceiveTelegram m serial = Returned m' rest ->
  (forall i, bufferIndex m' < i ->
     nth (Z.to_nat i) (buffer m') 0 = nth (Z.to_nat i) (buffer m) 0)
  /\ (cleared m ->
      forall i, 0 <= i -> bufferIndex m' < i < BUFFER_SIZE ->
        nth (Z.to_nat i) (buffer m') 0 = 0).
Proof.
  intros [Hl _] Hrecv. unfold BUFFER_SIZE in Hl.
  assert (Hframe : forall i, bufferIndex m' < i ->
            nth (Z.to_nat i) (buffer m') 0 = nth (Z.to_nat i) (buffer m) 0).
  { revert Hrecv. unfold ReceiveTelegram.
    destruct (raise_cts_frame m) as (Fb & _).
    destruct serial as [|d serial].
    - intros E. inversion E; subst. now rewrite Fb.
    - destruct (negb (to_u8 d =? ch_slash)).
      + intros E. inversion E; subst. now rewrite Fb.
      + destruct (store Buffer (buffer (raise_cts m)) 0 (to_u8 d))
          as [buf'| |] eqn:S; try discriminate.
        apply store_inv in S. destruct S as [_ ->].
        intros E. apply receive_loop_tail in E.
        * cbn in E. destruct E as [E1 E2]. intros i Hlt.
          rewrite E2 by exact Hlt. rewrite Fb.
          apply list_set_nth_other. lia.
        * cbn. rewrite list_set_length, Fb. lia.
        * cbn. lia. }
  split; [exact Hframe|].
  intros Hc i Hpos Hi. rewrite Hframe by lia. apply Hc. lia.
Qed.

Lemma ReceiveTelegram_keeps_tail_witness :
  (forall i, bufferIndex sample_ready < i ->
     nth (Z.to_nat i) (buffer sample_ready) 0
     = nth (Z.to_nat i) (buffer sample_meter) 0)
  /\ (cleared sample_meter ->
      forall i, 0 <= i -> bufferIndex sample_ready < i < BUFFER_SIZE ->
        nth (Z.to_nat i) (buffer sample_ready) 0 = 0).
Proof.
  apply (ReceiveTelegram_keeps_tail sample_meter sample_ready
           sample_telegram []).
  - split; reflexivity.
  - vm_compute. reflexivity.
Defined.

End AccumulatorMore.

(** ** The decoder: termination, frames and edge cases *)

Module DecoderMore.
Import LibC LibCFacts Decoder Registry FixedPoint.

(** *** No part of the decoder but the line loop consumes fuel *)

Ltac df := unfold fueled; discriminate.

Lemma fueled_Ok {A : Type} (a : A) : fueled (Ok a).
Proof. df. Qed.

Lemma fueled_Fault {A : Type} (o : object) (i : Z) : fueled (@Fault A o i).
Proof. df. Qed.

Lemma fueled_bind {A B : Type} (r : result A) (k : A -> result B) :
  fueled r -> (forall a, fueled (k a)) -> fueled (bind r k).
Proof. destruct r; cbn [bind]; intros Hr Hk; [apply Hk|df|now contradiction Hr]. Qed.

Lemma fueled_ptr (o : object) (l : list Z) (i : Z) : fueled (ptr o l i).
Proof. unfold ptr. destruct (_ && _); df. Qed.

Lemma fueled_past_end {A : Type} (o : object) (l : list Z) (r : option A) :
  fueled (past_end o l r).
Proof. destruct r; df. Qed.

Lemma fueled_store {A : Type} (o : object) (l : list A) (i : Z) (v : A) :
  fueled (store o l i v).
Proof. unfold store. destruct (in_bounds l i); df. Qed.

Lemma fueled_store_bytes (o : object) (dst : list Z) (off : Z) (b : list Z) :
  fueled (store_bytes o dst off b).
Proof. unfold store_bytes. destruct (_ && _); df. Qed.

Lemma fueled_update_elem {A : Type} (o : object) (l : list A) (i : Z)
    (f : A -> result A) :
  (forall x, fueled (f x)) -> fueled (update_elem o l i f).
Proof.
  intros Hf. unfold update_elem.
  destruct (if in_bounds l i then nth_error l (Z.to_nat i) else None);
    [|df].
  apply fueled_bind; [apply Hf|intros; df].
Qed.

Ltac fuel_step :=
  first
    [ apply fueled_Ok | apply fueled_Fault | apply fueled_ptr
    | apply fueled_past_end | apply fueled_store | apply fueled_store_bytes
    | apply fueled_update_elem; intros
    | apply fueled_bind; [|intros]
    | match goal with
      | |- fueled (if ?c then _ else _) => destruct c
      | |- fueled (match ?x with _ => _ end) => destruct x
      end ].

Lemma fueled_indexOf (buf : list Z) (c s : Z) : fueled (indexOf buf c s).
Proof. unfold indexOf. repeat fuel_step. Qed.

Lemma fueled_lastIndexOf (buf : list Z) (c s : Z) :
  fueled (lastIndexOf buf c s).
Proof. unfold lastIndexOf. repeat fuel_step. Qed.

Lemma fueled_startsWith (buf lit : list Z) (s : Z) :
  fueled (startsWith buf lit s).
Proof. unfold startsWith. repeat fuel_step. Qed.

Lemma fueled_getSubString (buf : list Z) (s e : Z) :
  fueled (getSubString buf s e).
Proof. unfold getSubString. repeat fuel_step. Qed.

Lemma fueled_number_at (buf : list Z) (i base : Z) :
  fueled (number_at buf i base).
Proof. unfold number_at. repeat fuel_step. Qed.

Lemma fueled_number_after (buf : list Z) (c s : Z) :
  fueled (number_after buf c s).
Proof.
  unfold number_after.
  apply fueled_bind; [apply fueled_indexOf|intros; apply fueled_number_at].
Qed.

Lemma fueled_copy_from (buf : list Z) (i : Z) (n : nat) :
  fueled (copy_from buf i n).
Proof. unfold copy_from. repeat fuel_step. Qed.

Lemma fueled_copy_stamp (buf : list Z) (i : Z) (dst : list Z) :
  fueled (copy_stamp buf i dst).
Proof.
  unfold copy_stamp.
  apply fueled_bind; [apply fueled_copy_from|intros; apply fueled_store_bytes].
Qed.

Lemma fueled_fixed_point (buf : list Z) (l dt : Z) (w f : nat) :
  fueled (fixed_point buf l dt w f).
Proof.
  unfold fixed_point.
  repeat first [apply fueled_copy_from | apply fueled_indexOf | fuel_step].
Qed.

Lemma fueled_fixed_point_line (buf : list Z) (s : Z) (w f : nat) :
  fueled (fixed_point_line buf s w f).
Proof.
  unfold fixed_point_line.
  apply fueled_bind; [apply fueled_indexOf|intros; apply fueled_fixed_point].
Qed.

Lemma fueled_text_field (buf : list Z) (s e : Z) :
  fueled (text_field buf s e).
Proof.
  unfold text_field.
  apply fueled_bind; [apply fueled_indexOf|intros; apply fueled_getSubString].
Qed.

Lemma fueled_power_log_loop (n : nat) (buf : list Z) :
  forall (i index2 : Z) (d : P1Data),
    fueled (power_log_loop n buf i index2 d).
Proof.
  induction n as [|n IH]; intros i index2 d; cbn [power_log_loop].
  - df.
  - repeat first [apply IH | apply fueled_indexOf | apply fueled_copy_stamp
                 | fuel_step].
Qed.

Lemma fueled_power_log (buf : list Z) (s : Z) (d : P1Data) :
  fueled (power_log buf s d).
Proof.
  unfold power_log.
  repeat first [apply fueled_power_log_loop | apply fueled_indexOf
               | apply fueled_number_at | fuel_step].
Qed.

Lemma fueled_device_number (buf : list Z) (s : Z) :
  fueled (device_number buf s).
Proof.
  unfold device_number.
  apply fueled_bind; [apply fueled_number_after|intros; df].
Qed.

Lemma fueled_mbus_device_type (buf : list Z) (s : Z) (d : P1Data) :
  fueled (mbus_device_type buf s d).
Proof.
  unfold mbus_device_type, to_EMBusDeviceType.
  repeat first [apply fueled_device_number | apply fueled_number_after
               | fuel_step].
Qed.

Lemma fueled_mbus_equipment (buf : list Z) (s e : Z) (d : P1Data) :
  fueled (mbus_equipment buf s e d).
Proof.
  unfold mbus_equipment.
  repeat first [apply fueled_device_number | apply fueled_text_field
               | fuel_step].
Qed.

Lemma fueled_mbus_value (buf : list Z) (s : Z) (d : P1Data) :
  fueled (mbus_value buf s d).
Proof.
  unfold mbus_value.
  repeat first [apply fueled_device_number | apply fueled_indexOf
               | apply fueled_copy_stamp | apply fueled_fixed_point
               | apply fueled_copy_from | fuel_step].
Qed.

Lemma fueled_process_line (buf : list Z) (s e : Z) (d : P1Data) :
  fueled (process_line buf s e d).
Proof.
  unfold process_line.
  repeat first
    [ apply fueled_startsWith | apply fueled_number_after
    | apply fueled_indexOf | apply fueled_copy_stamp
    | apply fueled_text_field | apply fueled_fixed_point_line
    | apply fueled_power_log | apply fueled_mbus_device_type
    | apply fueled_mbus_equipment | apply fueled_mbus_value
    | fuel_step ].
Qed.

Lemma fueled_check_crc (cs : bool) (buf : list Z) (d : P1Data) :
  fueled (check_crc cs buf d).
Proof.
  unfold check_crc, calcCRC16, CRC16.CRC16_IBM_REVERSED.
  repeat first [apply fueled_indexOf | apply fueled_copy_from | fuel_step].
Qed.

(** The result of a search is -1 or a position of the string at or after
    the start. *)
Lemma indexOf_range (buf : list Z) (c start i : Z) :
  Z.of_nat (length buf) <= 32767 -> is_byte c -> 0 <= start < 32768 ->
  indexOf buf c start = Ok i ->
  i = -1
  \/ (start <= i < Z.of_nat (length buf)
      /\ nth (Z.to_nat i) buf 0 = c
      /\ forall j, start <= j < i -> nth (Z.to_nat j) buf 0 <> 0).
Proof.
  intros Hl Hc Hs. unfold indexOf.
  destruct (ptr Buffer buf (to_i16 start)) as [s| |] eqn:P; cbn [bind];
    try df.
  apply ptr_inv in P. destruct P as [Hr ->].
  assert (Hst : to_i16 start = start) by (apply to_i16_small; lia).
  rewrite Hst in *. rewrite to_u8_small by exact Hc.
  destruct (strchr (skipn (Z.to_nat start) buf) c) as [r|] eqn:Hch;
    cbn [past_end bind]; try df.
  apply Helpers.strchr_spec in Hch. rewrite length_skipn in Hch.
  destruct r as [k|]; intros E; inversion E; subst i; clear E; [|now left].
  right. destruct Hch as (Hk & Hn & Hb). rewrite nth_skipn in Hn.
  rewrite to_i16_small by lia. split; [lia|]. split.
  - rewrite Z2Nat.inj_add, Nat2Z.id by lia. exact Hn.
  - intros j Hj. specialize (Hb (Z.to_nat (j - start)) ltac:(lia)).
    rewrite nth_skipn in Hb.
    replace (Z.to_nat start + Z.to_nat (j - start))%nat with (Z.to_nat j)
      in Hb by lia. tauto.
Qed.

(** Every pass of the line loop moves [endOfLine] forward by two
    positions at least. *)
Lemma fueled_line_loop (buf : list Z) (bi : Z) (fuel : nat) :
  Z.of_nat (length buf) <= 32766 ->
  forall (e : Z) (d : P1Data),
    e = -1 \/ (0 <= e < Z.of_nat (length buf)
               /\ Z.of_nat (length buf) - e <= Z.of_nat fuel) ->
    fueled (line_loop fuel buf bi e d).
Proof.
  intros Hl. induction fuel as [|fuel IH]; intros e d He; cbn [line_loop].
  - destruct (e <? bi); cbn [andb]; [|df].
    destruct (Z.eqb_spec e (-1)); cbn [negb]; [df|].
    exfalso. cbn in He. lia.
  - destruct (e <? bi); cbn [andb]; [|df].
    destruct (Z.eqb_spec e (-1)) as [|Hne]; cbn [negb]; [df|].
    destruct He as [|[He Hf]]; [contradiction|].
    rewrite to_i16_small by lia.
    pose proof (fueled_indexOf buf ch_LF (e + 1 + 1)) as Hi.
    destruct (indexOf buf ch_LF (e + 1 + 1)) as [e'| |] eqn:E; cbn [bind];
      try df; [|now contradiction Hi].
    apply indexOf_range in E; [|lia|unfold is_byte, ch_LF; lia|lia].
    apply fueled_bind; [apply fueled_process_line|]. intros d'.
    apply IH. destruct E as [->|(E & _)]; [now left|right]. lia.
Qed.

(** [ProcessTelegram] returns or stops at an access outside an array: the
    line loop ends on every buffer, because the next line end is searched
    for behind the current one. *)
Theorem ProcessTelegram_terminates (cs : bool) (m : P1Meter) :
  Z.of_nat (length (buffer m)) <= BUFFER_SIZE + 1 ->
  fueled (ProcessTelegram cs m).
Proof.
  intros Hl. unfold BUFFER_SIZE in Hl. unfold ProcessTelegram.
  apply fueled_bind; [apply fueled_lastIndexOf|intros last].
  apply fueled_bind; [apply fueled_number_at|intros n].
  apply fueled_bind; [apply fueled_indexOf|intros s].
  pose proof (fueled_indexOf (buffer m) ch_LF 0) as Hi.
  destruct (indexOf (buffer m) ch_LF 0) as [e| |] eqn:E; cbn [bind];
    try df; [|now contradiction Hi].
  apply indexOf_range in E; [|lia|unfold is_byte, ch_LF; lia|lia].
  apply fueled_bind; [apply fueled_getSubString|intros header].
  apply fueled_bind.
  - apply fueled_line_loop; [lia|].
    destruct E as [->|(E & _)]; [now left|right]. lia.
  - intros d1. apply fueled_bind; [apply fueled_check_crc|intros d2].
    unfold memset_buffer. repeat fuel_step.
Qed.

Lemma ProcessTelegram_terminates_witness :
  fueled (ProcessTelegram true sample_ready).
Proof.
  apply (ProcessTelegram_terminates true sample_ready).
  vm_compute. df.
Defined.


(** *** A buffer that holds no telegram *)

Lemma strtoul_empty (rest : list Z) : strtoul (0 :: rest) 10 = Some 0.
Proof.
  unfold strtoul. cbn [skip_space isspace Z.eqb Z.leb Z.compare orb andb].
  cbn [skip_sign Z.eqb]. rewrite skip_hex_prefix_10. reflexivity.
Qed.

Lemma indexOf_empty (rest : list Z) (c : Z) :
  is_byte c -> c <> 0 -> indexOf (0 :: rest) c 0 = Ok (-1).
Proof.
  intros Hc Hne. unfold indexOf. change (to_i16 0) with 0.
  rewrite ptr_ok by (cbn [length]; lia). cbn [bind Z.to_nat skipn strchr].
  rewrite to_u8_small by exact Hc.
  replace (0 =? c) with false by (symmetry; apply Z.eqb_neq; lia).
  reflexivity.
Qed.

(** On a buffer as the constructors and a previous decoding leave it,
    [ProcessTelegram] finds no line end, converts the -1 of the search to
    the end index 65535 and accesses the buffer there. *)
Theorem ProcessTelegram_on_cleared_buffer (cs : bool) (m : P1Meter) :
  meter_wf m -> cleared m ->
  ProcessTelegram cs m = Fault Buffer 65535.
Proof.
  intros [Hl _] Hc. unfold BUFFER_SIZE in Hl.
  specialize (Hc 0 ltac:(unfold BUFFER_SIZE; lia)).
  unfold ProcessTelegram.
  destruct (buffer m) as [|x rest] eqn:Hb; [cbn in Hl; lia|].
  cbn in Hc. subst x.
  assert (Hlast : lastIndexOf (0 :: rest) ch_minus 0 = Ok (-1)).
  { unfold lastIndexOf. change (to_u16 0) with 0.
    rewrite ptr_ok by (cbn [length]; lia). reflexivity. }
  rewrite Hlast. cbn [bind].
  assert (Hn : number_at (0 :: rest) (-1 + 1) 10 = Ok 0).
  { unfold number_at. change (-1 + 1) with 0.
    rewrite ptr_ok by (cbn [length]; lia).
    cbn [bind Z.to_nat skipn]. now rewrite strtoul_empty. }
  rewrite Hn. cbn [bind].
  rewrite !indexOf_empty by (unfold is_byte, ch_slash, ch_LF; lia).
  cbn [bind]. unfold getSubString, store, in_bounds.
  change (-1 + 1) with 0.
  change (to_u16 (-1)) with 65535.
  replace (65535 <? Z.of_nat (length (0 :: rest))) with false
    by (symmetry; apply Z.ltb_ge; lia).
  reflexivity.
Qed.

Lemma ProcessTelegram_on_cleared_buffer_witness :
  ProcessTelegram false sample_after = Fault Buffer 65535.
Proof.
  apply (ProcessTelegram_on_cleared_buffer false sample_after).
  - split; reflexivity.
  - intros i Hi.
    assert (Hall : forallb (fun x => x =? 0)
                     (firstn (Z.to_nat BUFFER_SIZE) (buffer sample_after))
                   = true) by (vm_compute; reflexivity).
    rewrite forallb_forall in Hall. apply Z.eqb_eq. apply Hall.
    replace (nth (Z.to_nat i) (buffer sample_after) 0)
      with (nth (Z.to_nat i)
              (firstn (Z.to_nat BUFFER_SIZE) (buffer sample_after)) 0).
    + apply nth_In. rewrite length_firstn.
      change (length (buffer sample_after)) with 1025%nat.
      unfold BUFFER_SIZE in *. lia.
    + rewrite nth_firstn.
      replace (Z.to_nat i <? Z.to_nat BUFFER_SIZE)%nat with true
        by (symmetry; apply Nat.ltb_lt; unfold BUFFER_SIZE in *; lia).
      reflexivity.
Defined.

(** *** The header *)

Lemma process_line_HeaderInfo (buf : list Z) (s e : Z) (d d' : P1Data) :
  process_line buf s e d = Ok d' -> HeaderInfo d' = HeaderInfo d.
Proof.
  unfold process_line.
  repeat (chain_step; [first [dead_branch | branch_frame]|]).
  intros H. inversion H. reflexivity.
Qed.

Lemma line_loop_HeaderInfo (fuel : nat) (buf : list Z) (bi : Z) :
  forall (e : Z) (d d' : P1Data),
    line_loop fuel buf bi e d = Ok d' -> HeaderInfo d' = HeaderInfo d.
Proof.
  induction fuel as [|fuel IH]; intros e d d' H; cbn [line_loop] in H;
    destruct ((e <? bi) && negb (e =? -1)); try discriminate;
    try (inversion H; reflexivity).
  bind_inv H. apply IH in H. rewrite H.
  now apply process_line_HeaderInfo in E0.
Qed.

(** For a buffer that begins with the start marker, [HeaderInfo] of the
    reading holds the bytes between the marker and the first line feed,
    the carriage return in front of the line feed included. *)
Theorem ProcessTelegram_HeaderInfo (cs : bool) (m : P1Meter) (d : P1Data)
    (m' : P1Meter) :
  Z.of_nat (length (buffer m)) <= BUFFER_SIZE + 1 ->
  nth 0 (buffer m) 0 = ch_slash ->
  ProcessTelegram cs m = Ok (d, m') ->
  exists e,
    indexOf (buffer m) ch_LF 0 = Ok e /\ 1 <= e
    /\ HeaderInfo d = firstn (Z.to_nat (e - 1)) (skipn 1 (buffer m)).
Proof.
  intros Hl H0 H. unfold BUFFER_SIZE in Hl. unfold ProcessTelegram in H.
  destruct (lastIndexOf (buffer m) ch_minus 0) as [last| |]; cbn [bind] in H;
    try discriminate.
  destruct (number_at (buffer m) (last + 1) 10) as [n| |]; cbn [bind] in H;
    try discriminate.
  assert (Hne : buffer m <> []) by (intros E; rewrite E in H0; discriminate).
  assert (Hs : indexOf (buffer m) ch_slash 0 = Ok 0).
  { apply (indexOf_found (buffer m) [] (skipn 1 (buffer m)) ch_slash 0);
      try lia; [unfold is_byte, ch_slash; lia| |constructor].
    destruct (buffer m) as [|x rest]; [contradiction|].
    cbn in H0. now subst x. }
  rewrite Hs in H. cbn [bind] in H.
  destruct (indexOf (buffer m) ch_LF 0) as [e| |] eqn:He; cbn [bind] in H;
    try discriminate.
  destruct (getSubString (buffer m) (0 + 1) e) as [header| |] eqn:Hh;
    cbn [bind] in H; try discriminate.
  destruct (line_loop _ _ _ _ _) as [d1| |] eqn:Hloop; cbn [bind] in H;
    try discriminate.
  destruct (check_crc cs (buffer m) d1) as [d2| |] eqn:Hcrc; cbn [bind] in H;
    try discriminate.
  destruct (memset_buffer (buffer m)); cbn [bind] in H; try discriminate.
  inversion H; subst. clear H.
  apply check_crc_frame in Hcrc. apply line_loop_HeaderInfo in Hloop.
  rewrite Hcrc. cbn. rewrite Hloop. cbn.
  pose proof He as Hr.
  apply indexOf_range in Hr; [|lia|unfold is_byte, ch_LF; lia|lia].
  destruct Hr as [->|(Hr & Hn & Hnz)].
  - exfalso. unfold getSubString, store, in_bounds in Hh.
    change (to_u16 (-1)) with 65535 in Hh.
    replace (65535 <? Z.of_nat (length (buffer m))) with false in Hh
      by (symmetry; apply Z.ltb_ge; lia).
    discriminate.
  - assert (He1 : 1 <= e).
    { destruct (Z.eq_dec e 0) as [->|]; [|lia].
      cbn in Hn. rewrite H0 in Hn. discriminate. }
    exists e. split; [reflexivity|]. split; [exact He1|].
    unfold getSubString in Hh. rewrite !to_u16_small in Hh by lia.
    rewrite store_ok in Hh by lia. cbn [bind] in Hh.
    rewrite ptr_ok in Hh by (rewrite list_set_length; lia). cbn [bind] in Hh.
    change (Z.to_nat (0 + 1)) with 1%nat in Hh.
    rewrite Helpers.cut_string in Hh.
    + cbn [past_end] in Hh. inversion Hh. do 2 f_equal. lia.
    + lia.
    + lia.
    + intros j Hj. specialize (Hnz (Z.of_nat j) ltac:(lia)).
      now rewrite Nat2Z.id in Hnz.
Qed.

Lemma ProcessTelegram_HeaderInfo_witness :
  exists e,
    indexOf (buffer sample_ready) ch_LF 0 = Ok e /\ 1 <= e
    /\ HeaderInfo sample_reading
       = firstn (Z.to_nat (e - 1)) (skipn 1 (buffer sample_ready)).
Proof.
  apply (ProcessTelegram_HeaderInfo false sample_ready sample_reading
           sample_after).
  - vm_compute. discriminate.
  - reflexivity.
  - vm_compute. reflexivity.
Defined.


(** *** Fields that no line of the telegram names *)

Lemma ProcessTelegram_PowerProduced_witness :
  PowerProduced produced_reading = PowerProduced (data produced_ready).
Proof.
  apply (ProcessTelegram_PowerProduced false produced_ready produced_reading
           produced_after).
  vm_compute. reflexivity.
Defined.

(** The branch that was taken leaves the field as it was. *)
Ltac field_frame :=
  let H := fresh "H" in
  intros H; left; clear - H;
  lazymatch type of H with
  | power_log _ _ _ = Ok _ =>
      apply power_log_frame in H; rewrite H; reflexivity
  | mbus_device_type _ _ _ = Ok _ =>
      apply mbus_device_type_frame in H; rewrite H; reflexivity
  | mbus_equipment _ _ _ _ = Ok _ =>
      apply mbus_equipment_frame in H; rewrite H; reflexivity
  | mbus_value _ _ _ = Ok _ =>
      apply mbus_value_frame in H; rewrite H; reflexivity
  | _ =>
      bind_inv H; inversion H;
      first [ reflexivity
            | cbn; unfold set_phase; apply list_set_nth_other; discriminate ]
  end.

Ltac field_branch :=
  first [ dead_branch
        | match goal with
          | W : startsWith _ _ _ = Ok true |- _ => intros _; right; exact W
          end
        | field_frame ].

(** The chain writes a fixed-point field only in the branch of the code
    of the field. *)
Lemma process_line_field (f : fixed_field) (buf : list Z) (s e : Z)
    (d d' : P1Data) :
  process_line buf s e d = Ok d' ->
  field_value f d' = field_value f d
  \/ startsWith buf (field_code f) s = Ok true.
Proof.
  unfold process_line.
  destruct f as [ | | | | | | [ | | ] | [ | | ] ];
    cbn [field_value field_code phase_index];
    repeat (chain_step; [field_branch|]);
    intros H; inversion H; left; reflexivity.
Qed.

(** A fixed-point field whose code begins none of the lines that the
    decoder visits has, in the reading, the value it had in the reading
    before: [ProcessTelegram] resets nothing. *)
Theorem ProcessTelegram_keeps_unnamed_field (f : fixed_field) (cs : bool)
    (m : P1Meter) (d : P1Data) (m' : P1Meter) :
  Z.of_nat (length (buffer m)) <= BUFFER_SIZE + 1 ->
  ProcessTelegram cs m = Ok (d, m') ->
  (forall s, In s (visited_lines m) ->
     ~ spells (buffer m) s (field_code f)) ->
  field_value f d = field_value f (data m).
Proof.
  intros Hl Hproc Hnone. unfold BUFFER_SIZE in Hl.
  apply ProcessTelegram_parts in Hproc.
  destruct Hproc as (n & header & e0 & d1 & He0 & Hloop & Hcrc).
  apply check_crc_frame in Hcrc.
  unfold visited_lines in Hnone. rewrite He0 in Hnone.
  assert (H1 : field_value f d1 = field_value f (data m)).
  { refine (RegistryClaims.line_loop_establishes
              (fun x => field_value f x = field_value f (data m))
              (fun _ => False) _ _ _ _ _ _ _ Hloop _).
    - intros s Hs e' x x' Hline. split; [tauto|]. intros HR.
      apply (process_line_field f) in Hline.
      destruct Hline as [->|Hstart]; [exact HR|].
      apply RegistryClaims.startsWith_true_spells in Hstart;
        [|lia|now apply RegistryClaims.line_starts_range in Hs].
      now apply Hnone in Hstart.
    - left. destruct f as [ | | | | | | [ | | ] | [ | | ] ]; reflexivity. }
  rewrite <- H1, Hcrc.
  destruct f as [ | | | | | | [ | | ] | [ | | ] ]; reflexivity.
Qed.

Lemma ProcessTelegram_keeps_unnamed_field_witness :
  field_value (FVoltage L2) produced_reading
  = field_value (FVoltage L2) (data produced_ready).
Proof.
  apply (ProcessTelegram_keeps_unnamed_field (FVoltage L2) false
           produced_ready produced_reading produced_after).
  - vm_compute. discriminate.
  - vm_compute. reflexivity.
  - intros s Hin (_ & rest & E). revert E. vm_compute in Hin.
    repeat (destruct Hin as [<-|Hin]; [vm_compute; discriminate|]).
    destruct Hin.
Defined.


(** *** The plain-integer fields *)

Lemma accumulate_stop (ds : list Z) (c : Z) (rest : list Z) :
  Forall is_digit ds -> ~ is_digit c ->
  forall acc : Z,
    accumulate 10 (ds ++ c :: rest) acc
    = Some (fold_left (fun a x => a * 10 + (x - 48)) ds acc).
Proof.
  intros Hd Hc. induction Hd as [|x ds Hx _ IH]; intros acc;
    cbn [app accumulate fold_left].
  - unfold is_digit in Hc. unfold digit_value, isdigit, isupper, islower.
    destruct (Z.leb_spec 48 c), (Z.leb_spec c 57); cbn [andb]; try lia;
      destruct (Z.leb_spec 65 c), (Z.leb_spec c 90); cbn [andb];
      try reflexivity;
      try (replace (c - 65 + 10 <? 10) with false
             by (symmetry; apply Z.ltb_ge; lia); reflexivity);
      destruct (Z.leb_spec 97 c), (Z.leb_spec c 122); cbn [andb];
      try reflexivity;
      replace (c - 97 + 10 <? 10) with false
        by (symmetry; apply Z.ltb_ge; lia); reflexivity.
  - unfold is_digit in Hx. rewrite digit_value_digit by exact Hx.
    replace (x - 48 <? 10) with true by (symmetry; apply Z.ltb_lt; lia).
    apply IH.
Qed.

(** [strtoul] reads the digits up to the first other character and
    saturates. *)
Lemma strtoul_digits_stop (ds : list Z) (c : Z) (rest : list Z) :
  Forall is_digit ds -> ds <> [] -> ~ is_digit c ->
  strtoul (ds ++ c :: rest) 10 = Some (saturate (decimal_value ds)).
Proof.
  intros Hd Hne Hc. destruct ds as [|x ds]; [contradiction|].
  pose proof (Forall_inv Hd) as Hx. unfold is_digit in Hx.
  unfold strtoul. cbn [app skip_space].
  rewrite isspace_false by lia.
  unfold skip_sign.
  replace (x =? 45) with false by (symmetry; apply Z.eqb_neq; lia).
  replace (x =? 43) with false by (symmetry; apply Z.eqb_neq; lia).
  rewrite skip_hex_prefix_10.
  change (x :: ds ++ c :: rest) with ((x :: ds) ++ c :: rest).
  rewrite accumulate_stop by assumption.
  reflexivity.
Qed.

Lemma process_line_number_dispatch (f : number_field) (buf rest : list Z)
    (s e : Z) (d : P1Data) :
  0 <= s -> Z.of_nat (length buf) <= 32767 ->
  skipn (Z.to_nat s) buf = number_code f ++ ch_lparen :: rest ->
  process_line buf s e d =
    (v <- number_after buf ch_lparen s ;; Ok (number_store f v d)).
Proof.
  intros Hs Hl E. unfold process_line.
  destruct f as [ | | | | [ | | ] | [ | | ] | [ | | ] ]; cbn in E;
    repeat no_match Hs Hl E; this_match Hs Hl E; reflexivity.
Qed.

Lemma number_code_quiet (f : number_field) :
  Forall (quiet_for ch_lparen) (number_code f).
Proof.
  destruct f as [ | | | | [ | | ] | [ | | ] | [ | | ] ]; cbn;
    repeat constructor; discriminate.
Qed.

Lemma number_store_value (f : number_field) (v : Z) (d : P1Data) :
  counters_wf d -> number_value f (number_store f v d) = number_wrap f v.
Proof.
  intros (H1 & H2 & H3).
  destruct f as [ | | | | p | p | p ]; cbn; try reflexivity;
    unfold set_phase; apply list_set_nth_same; destruct p; cbn; lia.
Qed.

(** A line that begins with the code of a plain-integer field, an opening
    parenthesis and a run of digits stores the number the digits denote,
    saturated at [ULONG_MAX] by [strtoul] and then cut to the width of the
    member: a byte for the version and the tariff indicator, 32 bits for
    the others. *)
Theorem process_line_number_field (f : number_field) (buf : list Z)
    (s e : Z) (d : P1Data) (ds : list Z) (c : Z) (rest : list Z) :
  0 <= s -> Z.of_nat (length buf) <= BUFFER_SIZE + 1 ->
  skipn (Z.to_nat s) buf = number_code f ++ ch_lparen :: ds ++ c :: rest ->
  Forall is_digit ds -> ds <> [] -> ~ is_digit c ->
  process_line buf s e d
  = Ok (number_store f (saturate (decimal_value ds)) d)
  /\ (counters_wf d ->
      number_value f (number_store f (saturate (decimal_value ds)) d)
      = number_wrap f (saturate (decimal_value ds))).
Proof.
  intros Hs Hl E Hd Hne Hc. unfold BUFFER_SIZE in Hl.
  split; [|apply number_store_value].
  rewrite (process_line_number_dispatch f buf (ds ++ c :: rest))
    by (assumption || lia).
  unfold number_after.
  rewrite (indexOf_found buf (number_code f) (ds ++ c :: rest) ch_lparen s);
    [|exact Hs|lia|unfold is_byte, ch_lparen; lia|exact E
     |apply number_code_quiet].
  cbn [bind]. unfold number_at.
  set (L := number_code f ++ ch_lparen :: ds ++ c :: rest) in *.
  assert (HL : L <> []) by (unfold L; destruct (number_code f); discriminate).
  rewrite <- Z.add_assoc.
  rewrite (ptr_at buf L s);
    [|exact Hs|exact E|exact HL
     |unfold L; rewrite length_app; cbn [length]; lia].
  cbn [bind].
  replace (skipn (Z.to_nat (Z.of_nat (length (number_code f)) + 1)) L)
    with (ds ++ c :: rest).
  - rewrite strtoul_digits_stop by assumption. reflexivity.
  - unfold L.
    change (number_code f ++ ch_lparen :: ds ++ c :: rest)
      with (number_code f ++ [ch_lparen] ++ ds ++ c :: rest).
    rewrite app_assoc. symmetry. apply skipn_exact.
    rewrite length_app. cbn [length]. lia.
Qed.

Lemma process_line_number_field_witness :
  process_line (line_buffer "1-3:0.2.8(300)") 0 16 P1Data_zero
  = Ok (number_store NVersion (saturate (decimal_value [51; 48; 48]))
          P1Data_zero)
  /\ (counters_wf P1Data_zero ->
      number_value NVersion
        (number_store NVersion (saturate (decimal_value [51; 48; 48]))
           P1Data_zero)
      = number_wrap NVersion (saturate (decimal_value [51; 48; 48]))).
Proof.
  apply (process_line_number_field NVersion
           (line_buffer "1-3:0.2.8(300)") 0 16 P1Data_zero
           [51; 48; 48] ch_rparen [ch_CR; ch_LF; 0]).
  - lia.
  - vm_compute. discriminate.
  - reflexivity.
  - repeat constructor; unfold is_digit; lia.
  - discriminate.
  - unfold is_digit, ch_rparen. lia.
Defined.

(** *** The text fields *)

Lemma process_line_text_dispatch (k : text_kind) (buf rest : list Z)
    (s e : Z) (d : P1Data) :
  0 <= s -> Z.of_nat (length buf) <= 32767 ->
  skipn (Z.to_nat s) buf = text_code k ++ ch_lparen :: rest ->
  process_line buf s e d =
    (v <- text_field buf s e ;; Ok (text_store k v d)).
Proof.
  intros Hs Hl E. unfold process_line.
  destruct k; cbn in E;
    repeat no_match Hs Hl E; this_match Hs Hl E; reflexivity.
Qed.

(** A line that begins with the code of a text field and an opening
    parenthesis stores the bytes from behind the parenthesis up to the
    third byte from the line end: on a line that ends in [)\r\n] the
    text between the parentheses. *)
Theorem process_line_text_field (k : text_kind) (buf : list Z) (s e : Z)
    (d : P1Data) (txt rest : list Z) :
  0 <= s -> Z.of_nat (length buf) <= BUFFER_SIZE + 1 ->
  skipn (Z.to_nat s) buf = text_code k ++ ch_lparen :: txt ++ rest ->
  Forall (fun x => x <> 0) txt ->
  e = s + Z.of_nat (length (text_code k)) + 1 + Z.of_nat (length txt) + 2 ->
  e < Z.of_nat (length buf) ->
  process_line buf s e d = Ok (text_store k txt d).
Proof.
  intros Hs Hl E Htxt He Hlt. unfold BUFFER_SIZE in Hl.
  rewrite (process_line_text_dispatch k buf (txt ++ rest))
    by (assumption || lia).
  unfold text_field.
  rewrite (indexOf_found buf (text_code k) (txt ++ rest) ch_lparen s);
    [|exact Hs|lia|unfold is_byte, ch_lparen; lia|exact E
     |destruct k; cbn; repeat constructor; discriminate].
  cbn [bind]. unfold getSubString.
  rewrite !to_u16_small by lia.
  rewrite store_ok by lia. cbn [bind].
  rewrite ptr_ok by (rewrite list_set_length; lia). cbn [bind].
  assert (Hsk : skipn (Z.to_nat (s + Z.of_nat (length (text_code k)) + 1)) buf
                = txt ++ rest).
  { rewrite <- Z.add_assoc, Z2Nat.inj_add by lia.
    rewrite (skipn_further _ _ _ _ E).
    change (text_code k ++ ch_lparen :: txt ++ rest)
      with (text_code k ++ [ch_lparen] ++ txt ++ rest).
    rewrite app_assoc. apply skipn_exact.
    rewrite length_app. cbn [length]. lia. }
  rewrite Helpers.cut_string.
  - cbn [past_end bind]. rewrite Hsk.
    replace (Z.to_nat (e - 2)
             - Z.to_nat (s + Z.of_nat (length (text_code k)) + 1))%nat
      with (length txt) by lia.
    rewrite firstn_app, firstn_all, Nat.sub_diag. cbn [firstn].
    now rewrite app_nil_r.
  - lia.
  - lia.
  - intros j Hj.
    replace j with (Z.to_nat (s + Z.of_nat (length (text_code k)) + 1)
                    + (j - Z.to_nat (s + Z.of_nat (length (text_code k)) + 1)))%nat
      by lia.
    rewrite <- nth_skipn, Hsk, app_nth1 by lia.
    rewrite Forall_forall in Htxt. apply Htxt. apply nth_In. lia.
Qed.

Lemma process_line_text_field_witness :
  process_line (line_buffer "0-0:96.13.0(303132)") 0 20 P1Data_zero
  = Ok (text_store TTextMessage [51; 48; 51; 49; 51; 50] P1Data_zero).
Proof.
  apply (process_line_text_field TTextMessage
           (line_buffer "0-0:96.13.0(303132)") 0 20 P1Data_zero
           [51; 48; 51; 49; 51; 50] [ch_rparen; ch_CR; ch_LF; 0]).
  - lia.
  - vm_compute. discriminate.
  - reflexivity.
  - repeat constructor; discriminate.
  - reflexivity.
  - vm_compute. reflexivity.
Defined.


(** *** The power failure log *)

Lemma list_set_nth_error {A : Type} (l : list A) (i j : nat) (v : A) :
  i <> j -> nth_error (list_set l i v) j = nth_error l j.
Proof.
  revert i j. induction l as [|x l IH]; intros [|i] [|j] H; cbn; auto;
    try lia.
Qed.

Lemma update_elem_inv {A : Type} (o : object) (l l' : list A) (i : Z)
    (f : A -> result A) :
  update_elem o l i f = Ok l' ->
  0 <= i < Z.of_nat (length l) /\ length l' = length l
  /\ forall j, j <> Z.to_nat i -> nth_error l' j = nth_error l j.
Proof.
  unfold update_elem, in_bounds.
  destruct (Z.leb_spec 0 i), (Z.ltb_spec i (Z.of_nat (length l)));
    cbn [andb]; try discriminate.
  destruct (nth_error l (Z.to_nat i)) as [x|]; [|discriminate].
  destruct (f x) as [x'| |]; cbn [bind]; try discriminate.
  intros E. inversion E; subst. split; [lia|]. split.
  - apply list_set_length.
  - intros j Hj. apply list_set_nth_error. lia.
Qed.

(** The loop over the log writes the elements from [i] on, one for each
    pass, and each of them must exist. *)
Lemma power_log_loop_capacity (n : nat) (buf : list Z) :
  forall (i index2 : Z) (d d' : P1Data),
    0 <= i -> i + Z.of_nat n <= 256 ->
    power_log_loop n buf i index2 d = Ok d' ->
    (n <> O -> i + Z.of_nat n <= Z.of_nat (length (PowerFailureLogs d)))
    /\ length (PowerFailureLogs d') = length (PowerFailureLogs d)
    /\ forall j, (j < Z.to_nat i \/ Z.to_nat i + n <= j)%nat ->
         nth_error (PowerFailureLogs d') j = nth_error (PowerFailureLogs d) j.
Proof.
  induction n as [|n IH]; intros i index2 d d' Hi Hn H;
    cbn [power_log_loop] in H.
  - inversion H; subst. repeat split; auto. congruence.
  - destruct (indexOf buf ch_lparen (index2 + 1)) as [f1| |];
      cbn [bind] in H; try discriminate.
    destruct (update_elem _ _ _ _) as [logs1| |] eqn:U1; cbn [bind] in H;
      try discriminate.
    destruct (indexOf buf ch_lparen (to_u16 f1 + 1)) as [f2| |];
      cbn [bind] in H; try discriminate.
    destruct (update_elem _ _ _ _) as [logs2| |] eqn:U2 in H;
      cbn [bind] in H; try discriminate.
    apply update_elem_inv in U1. destruct U1 as (B1 & L1 & K1).
    apply update_elem_inv in U2. cbn in U2. destruct U2 as (B2 & L2 & K2).
    destruct n as [|n].
    + cbn [power_log_loop] in H. inversion H; subst. cbn.
      split; [intros _; lia|]. split; [congruence|].
      intros j Hj. rewrite K2, K1 by lia. reflexivity.
    + rewrite to_u8_small in H by lia.
      apply IH in H; [|lia|lia]. cbn in H.
      destruct H as (H1 & H2 & H3). specialize (H1 ltac:(discriminate)).
      split; [intros _; lia|]. split; [congruence|].
      intros j Hj. rewrite H3, K2, K1 by lia. reflexivity.
Qed.

(** When the rule of the power failure log returns, the count that the
    line declares is within the capacity of [PowerFailureLogs]; the array
    keeps its size, and the entries from the count on are as before. *)
Theorem power_log_within_capacity (buf : list Z) (s : Z) (d d' : P1Data)
    (n : Z) :
  power_log buf s d = Ok d' ->
  declared_logs buf s = Ok n ->
  n <= Z.of_nat (length (PowerFailureLogs d))
  /\ length (PowerFailureLogs d') = length (PowerFailureLogs d)
  /\ forall j, (Z.to_nat n <= j)%nat ->
       nth_error (PowerFailureLogs d') j = nth_error (PowerFailureLogs d) j.
Proof.
  unfold power_log, declared_logs.
  destruct (indexOf buf ch_lparen s) as [lparen| |]; cbn [bind];
    try discriminate.
  destruct (number_at buf (to_u16 (lparen + 1)) 10) as [count| |];
    cbn [bind]; try discriminate.
  intros H E. inversion E; subst n. clear E.
  assert (Hc : 0 <= to_u8 count < 256)
    by (unfold to_u8; apply Z.mod_pos_bound; lia).
  apply power_log_loop_capacity in H; [|lia|lia].
  rewrite Z2Nat.id in H by lia.
  destruct H as (H1 & H2 & H3). split; [|split].
  - destruct (Z.eq_dec (to_u8 count) 0) as [->|Hne]; [lia|].
    apply H1. lia.
  - exact H2.
  - intros j Hj. apply H3. right. cbn. lia.
Qed.

Lemma power_log_within_capacity_witness :
  2 <= Z.of_nat (length (PowerFailureLogs P1Data_zero))
  /\ length (PowerFailureLogs sample_reading)
     = length (PowerFailureLogs P1Data_zero)
  /\ forall j, (Z.to_nat 2 <= j)%nat ->
       nth_error (PowerFailureLogs sample_reading) j
       = nth_error (PowerFailureLogs P1Data_zero) j.
Proof.
  apply (power_log_within_capacity (buffer sample_ready) 318 P1Data_zero
           (set_PowerFailureLogs (PowerFailureLogs sample_reading)
              P1Data_zero) 2).
  - vm_compute. reflexivity.
  - vm_compute. reflexivity.
Defined.

(** *** The submeter channels *)

Lemma strtoul_channel (k : Z) (rest : list Z) :
  0 <= k <= 9 -> strtoul ((48 + k) :: 58 :: rest) 10 = Some k.
Proof.
  intros Hk.
  change ((48 + k) :: 58 :: rest) with ([48 + k] ++ 58 :: rest).
  rewrite strtoul_digits_stop;
    [|repeat constructor; unfold is_digit; lia|discriminate
     |unfold is_digit; lia].
  unfold saturate, decimal_value. cbn [fold_left].
  replace (ULONG_MAX <? 0 * 10 + (48 + k - 48)) with false
    by (symmetry; apply Z.ltb_ge; unfold ULONG_MAX; lia).
  f_equal. lia.
Qed.

(** What the statements of a device-type line [0-k:24.1.0(digits] read:
    the line reaches the branch of the device type, the channel is [k] and
    the number behind the parenthesis is that of the digits. *)
Lemma submeter_line_parts (buf : list Z) (s e : Z) (d : P1Data)
    (k : Z) (ds : list Z) (c : Z) (rest : list Z) :
  0 <= s -> Z.of_nat (length buf) <= BUFFER_SIZE + 1 ->
  0 <= k <= 9 ->
  skipn (Z.to_nat s) buf = mbus_type_line k (ds ++ c :: rest) ->
  Forall is_digit ds -> ds <> [] -> ~ is_digit c ->
  process_line buf s e d = mbus_device_type buf s d
  /\ device_number buf s = Ok k
  /\ number_after buf ch_lparen s = Ok (saturate (decimal_value ds)).
Proof.
  intros Hs Hl Hk E Hd Hne Hc. unfold BUFFER_SIZE in Hl.
  assert (Hl' : Z.of_nat (length buf) <= 32767) by lia.
  assert (Hsl : (Z.to_nat s < length buf)%nat)
    by (apply (skipn_bound _ _ _ E); discriminate).
  split; [|split].
  - unfold process_line.
    assert (Hcase : k = 0 \/ k = 1 \/ k = 2 \/ k = 3 \/ k = 4 \/ k = 5
                    \/ k = 6 \/ k = 7 \/ k = 8 \/ k = 9) by lia.
    repeat (destruct Hcase as [->|Hcase]); try subst k; cbn in E;
      repeat no_match Hs Hl' E;
      rewrite IF_true; try reflexivity;
      unfold startsWith; rewrite to_u16_small by lia;
      rewrite (ptr_at buf _ s 3 Hs E) by (try discriminate; cbn; lia);
      reflexivity.
  - unfold device_number, number_after.
    rewrite (indexOf_found buf [48]
               ((48 + k) :: OBIS_DEVICE_TYPE ++ ch_lparen :: ds ++ c :: rest)
               ch_minus s);
      [|exact Hs|exact Hl'|unfold is_byte, ch_minus; lia|exact E
       |repeat constructor; discriminate].
    cbn [bind length]. unfold number_at.
    rewrite <- Z.add_assoc.
    rewrite (ptr_at buf _ s (Z.of_nat 1 + 1) Hs E)
      by (try discriminate; cbn; lia).
    cbn [bind]. change (Z.to_nat (Z.of_nat 1 + 1)) with 2%nat.
    unfold mbus_type_line. cbn [skipn app OBIS_DEVICE_TYPE].
    rewrite strtoul_channel by exact Hk. cbn [past_end bind].
    f_equal. unfold to_i8.
    replace ((k + 128) mod 256) with (k + 128)
      by (symmetry; apply Z.mod_small; lia).
    lia.
  - unfold number_after.
    rewrite (indexOf_found buf (48 :: ch_minus :: (48 + k) :: OBIS_DEVICE_TYPE)
               (ds ++ c :: rest) ch_lparen s);
      [|exact Hs|exact Hl'|unfold is_byte, ch_lparen; lia|exact E|].
    2: { repeat constructor; try discriminate; unfold ch_lparen; lia. }
    cbn [bind length OBIS_DEVICE_TYPE]. unfold number_at.
    rewrite <- Z.add_assoc.
    rewrite (ptr_at buf _ s (Z.of_nat 10 + 1) Hs E)
      by (try discriminate; cbn; lia).
    cbn [bind]. change (Z.to_nat (Z.of_nat 10 + 1)) with 11%nat.
    unfold mbus_type_line. cbn [skipn app OBIS_DEVICE_TYPE].
    rewrite strtoul_digits_stop by assumption. reflexivity.
Qed.

(** The device-type line of the submeter on channel [k], for [k] from 1
    to 3 and a type number up to 255, stores the number as the
    [DeviceType] of the element [k - 1] of [MBusDevices] and changes
    nothing else. *)
Theorem process_line_submeter_channel (buf : list Z) (s e : Z) (d : P1Data)
    (k : Z) (ds : list Z) (c : Z) (rest : list Z) :
  0 <= s -> Z.of_nat (length buf) <= BUFFER_SIZE + 1 ->
  1 <= k <= 3 ->
  skipn (Z.to_nat s) buf = mbus_type_line k (ds ++ c :: rest) ->
  Forall is_digit ds -> ds <> [] -> ~ is_digit c ->
  decimal_value ds <= OBIS_DEV_TYPE_WATER ->
  length (MBusDevices d) = 3%nat ->
  exists dev,
    nth_error (MBusDevices d) (Z.to_nat (k - 1)) = Some dev
    /\ process_line buf s e d
       = Ok (set_MBusDevices
               (list_set (MBusDevices d) (Z.to_nat (k - 1))
                  (MBusDevice.set_DeviceType (decimal_value ds) dev)) d).
Proof.
  intros Hs Hl Hk E Hd Hne Hc Hv Hlen.
  destruct (submeter_line_parts buf s e d k ds c rest)
    as (Hdisp & Hnum & Htype); try assumption; try lia.
  pose proof (decimal_value_bound ds Hd) as Hb.
  unfold OBIS_DEV_TYPE_WATER in Hv.
  assert (Hsat : saturate (decimal_value ds) = decimal_value ds).
  { unfold saturate.
    replace (ULONG_MAX <? decimal_value ds) with false; [reflexivity|].
    symmetry. apply Z.ltb_ge. unfold ULONG_MAX. lia. }
  assert (Hconv : to_EMBusDeviceType (decimal_value ds)
                  = Ok (decimal_value ds)).
  { unfold to_EMBusDeviceType, OBIS_DEV_TYPE_WATER.
    replace (0 <=? decimal_value ds) with true
      by (symmetry; apply Z.leb_le; lia).
    replace (decimal_value ds <=? 255) with true
      by (symmetry; apply Z.leb_le; lia).
    reflexivity. }
  rewrite Hdisp. unfold mbus_device_type. rewrite Hnum. cbn [bind].
  unfold update_elem, in_bounds. rewrite Hlen, Htype, Hsat.
  replace (0 <=? k - 1) with true by (symmetry; apply Z.leb_le; lia).
  replace (k - 1 <? Z.of_nat 3) with true by (symmetry; apply Z.ltb_lt; lia).
  cbn [andb].
  destruct (MBusDevices d) as [|d1 [|d2 [|d3 [|]]]]; try discriminate.
  assert (Hcase : k = 1 \/ k = 2 \/ k = 3) by lia.
  destruct Hcase as [-> | [-> | ->]].
  - change (Z.to_nat (1 - 1)) with 0%nat. cbn [nth_error bind].
    rewrite Hconv. exists d1. split; reflexivity.
  - change (Z.to_nat (2 - 1)) with 1%nat. cbn [nth_error bind].
    rewrite Hconv. exists d2. split; reflexivity.
  - change (Z.to_nat (3 - 1)) with 2%nat. cbn [nth_error bind].
    rewrite Hconv. exists d3. split; reflexivity.
Qed.

Lemma process_line_submeter_channel_witness :
  exists dev,
    nth_error (MBusDevices P1Data_zero) (Z.to_nat (2 - 1)) = Some dev
    /\ process_line (line_buffer "0-2:24.1.0(003)") 0 16 P1Data_zero
       = Ok (set_MBusDevices
               (list_set (MBusDevices P1Data_zero) (Z.to_nat (2 - 1))
                  (MBusDevice.set_DeviceType (decimal_value [48; 48; 51])
                     dev)) P1Data_zero).
Proof.
  apply (process_line_submeter_channel (line_buffer "0-2:24.1.0(003)") 0 16
           P1Data_zero 2 [48; 48; 51] ch_rparen [ch_CR; ch_LF; 0]).
  - lia.
  - vm_compute. discriminate.
  - lia.
  - reflexivity.
  - repeat constructor; unfold is_digit; lia.
  - discriminate.
  - unfold is_digit, ch_rparen. lia.
  - vm_compute. discriminate.
  - reflexivity.
Defined.

(** The device-type line of a submeter on channel 0 or on one of the
    channels 4 to 9 addresses the element [k - 1] of [MBusDevices], which
    the array of three elements does not have. *)
Theorem process_line_submeter_channel_outside (buf : list Z) (s e : Z)
    (d : P1Data) (k : Z) (ds : list Z) (c : Z) (rest : list Z) :
  0 <= s -> Z.of_nat (length buf) <= BUFFER_SIZE + 1 ->
  k = 0 \/ 4 <= k <= 9 ->
  skipn (Z.to_nat s) buf = mbus_type_line k (ds ++ c :: rest) ->
  Forall is_digit ds -> ds <> [] -> ~ is_digit c ->
  length (MBusDevices d) = 3%nat ->
  process_line buf s e d = Fault MBusDevicesArray (k - 1).
Proof.
  intros Hs Hl Hk E Hd Hne Hc Hlen.
  destruct (submeter_line_parts buf s e d k ds c rest)
    as (Hdisp & Hnum & _); try assumption; try lia.
  rewrite Hdisp. unfold mbus_device_type. rewrite Hnum. cbn [bind].
  unfold update_elem, in_bounds. rewrite Hlen.
  replace ((0 <=? k - 1) && (k - 1 <? Z.of_nat 3)) with false; [reflexivity|].
  symmetry. apply Bool.andb_false_iff.
  destruct Hk as [->|Hk]; [left; reflexivity|right]. apply Z.ltb_ge. lia.
Qed.

Lemma process_line_submeter_channel_outside_witness :
  process_line (line_buffer "0-4:24.1.0(003)") 0 16 P1Data_zero
  = Fault MBusDevicesArray (4 - 1).
Proof.
  apply (process_line_submeter_channel_outside
           (line_buffer "0-4:24.1.0(003)") 0 16
           P1Data_zero 4 [48; 48; 51] ch_rparen [ch_CR; ch_LF; 0]).
  - lia.
  - vm_compute. discriminate.
  - right. lia.
  - reflexivity.
  - repeat constructor; unfold is_digit; lia.
  - discriminate.
  - unfold is_digit, ch_rparen. lia.
  - reflexivity.
Defined.

(** *** The time stamp *)

(** The time-stamp line copies 13 bytes into [DateTime] and leaves the
    fourteenth byte of the array as it was: the string is terminated only
    if that byte was NUL before. *)
Theorem process_line_time_stamp (buf : list Z) (s e : Z) (d : P1Data)
    (stamp rest : list Z) :
  0 <= s -> Z.of_nat (length buf) <= BUFFER_SIZE + 1 ->
  skipn (Z.to_nat s) buf = OBIS_DATETIME ++ ch_lparen :: stamp ++ rest ->
  length stamp = 13%nat -> Forall (fun x => x <> 0) stamp ->
  length (DateTime d) = 14%nat ->
  process_line buf s e d
  = Ok (set_DateTime (stamp ++ skipn 13 (DateTime d)) d).
Proof.
  intros Hs Hl E Hlen Hnz Hdt. unfold BUFFER_SIZE in Hl.
  assert (Hl' : Z.of_nat (length buf) <= 32767) by lia.
  unfold process_line. cbn in E.
  no_match Hs Hl' E. this_match Hs Hl' E.
  rewrite (indexOf_found buf OBIS_DATETIME (stamp ++ rest) ch_lparen s);
    [|exact Hs|exact Hl'|unfold is_byte, ch_lparen; lia|exact E
     |repeat constructor; discriminate].
  cbn [bind]. unfold copy_stamp, copy_from.
  rewrite <- Z.add_assoc.
  rewrite (ptr_at buf _ s _ Hs E) by (try discriminate; cbn; lia).
  cbn [bind]. change (Z.to_nat (Z.of_nat (length OBIS_DATETIME) + 1))
    with 10%nat. cbn [skipn].
  rewrite <- Hlen at 1. rewrite strncpy_exact by exact Hnz.
  cbn [past_end bind].
  pose proof (store_bytes_ok DateTimeField (DateTime d) stamp 0
                ltac:(lia)) as S0.
  change (Z.of_nat 0) with 0 in S0. rewrite S0. clear S0.
  cbn [bind firstn app Nat.add]. rewrite Hlen. reflexivity.
Qed.

Lemma process_line_time_stamp_witness :
  process_line (line_buffer "0-0:1.0.0(101209113020W)") 0 25 P1Data_zero
  = Ok (set_DateTime
          (bytes_of_string "101209113020W"
           ++ skipn 13 (DateTime P1Data_zero)) P1Data_zero).
Proof.
  apply (process_line_time_stamp (line_buffer "0-0:1.0.0(101209113020W)")
           0 25 P1Data_zero (bytes_of_string "101209113020W")
           [ch_rparen; ch_CR; ch_LF; 0]).
  - lia.
  - vm_compute. discriminate.
  - reflexivity.
  - reflexivity.
  - repeat constructor; discriminate.
  - reflexivity.
Defined.

End DecoderMore.

(** ** A start marker inside a capture *)

Module PreemptionClaims.
Import LibC LibCFacts Accumulator AccumulatorClaims Decoder Registry.

Lemma plain_byte (l : list Z) : Forall plain l -> Forall no_bang l.
Proof. apply Forall_impl. intros x (H1 & H2 & _). split; assumption. Qed.

Lemma plain_start_marker : plain ch_slash.
Proof. unfold plain, is_byte, ch_slash, ch_bang. lia. Qed.

Lemma hexdigit_is_byte (c : Z) : hexdigit c = true -> is_byte c.
Proof.
  unfold hexdigit, isdigit, is_byte. intros H.
  repeat match type of H with
         | (_ || _) = true => apply Bool.orb_true_iff in H; destruct H as [H|H]
         end;
    apply Bool.andb_true_iff in H; destruct H as [H1 H2];
    apply Z.leb_le in H1; apply Z.leb_le in H2; lia.
Qed.

(** The header of the reading for a buffer that begins with the start
    marker: the bytes in front of a line feed [e] that no NUL precedes. *)
Lemma reading_header (cs : bool) (m : P1Meter) (d : P1Data) (m' : P1Meter) :
  Z.of_nat (length (buffer m)) <= BUFFER_SIZE + 1 ->
  nth 0 (buffer m) 0 = ch_slash ->
  ProcessTelegram cs m = Ok (d, m') ->
  exists e,
    1 <= e < Z.of_nat (length (buffer m))
    /\ nth (Z.to_nat e) (buffer m) 0 = ch_LF
    /\ HeaderInfo d = firstn (Z.to_nat (e - 1)) (skipn 1 (buffer m)).
Proof.
  intros Hl H0 H. unfold BUFFER_SIZE in Hl. unfold ProcessTelegram in H.
  destruct (lastIndexOf (buffer m) ch_minus 0) as [last| |]; cbn [bind] in H;
    try discriminate.
  destruct (number_at (buffer m) (last + 1) 10) as [n| |]; cbn [bind] in H;
    try discriminate.
  assert (Hne : buffer m <> []) by (intros E; rewrite E in H0; discriminate).
  assert (Hs : indexOf (buffer m) ch_slash 0 = Ok 0).
  { apply (indexOf_found (buffer m) [] (skipn 1 (buffer m)) ch_slash 0);
      try lia; [unfold is_byte, ch_slash; lia| |constructor].
    destruct (buffer m) as [|x rest]; [contradiction|].
    cbn in H0. now subst x. }
  rewrite Hs in H. cbn [bind] in H.
  destruct (indexOf (buffer m) ch_LF 0) as [e| |] eqn:He; cbn [bind] in H;
    try discriminate.
  destruct (getSubString (buffer m) (0 + 1) e) as [header| |] eqn:Hh;
    cbn [bind] in H; try discriminate.
  destruct (line_loop _ _ _ _ _) as [d1| |] eqn:Hloop; cbn [bind] in H;
    try discriminate.
  destruct (check_crc cs (buffer m) d1) as [d2| |] eqn:Hcrc; cbn [bind] in H;
    try discriminate.
  destruct (memset_buffer (buffer m)); cbn [bind] in H; try discriminate.
  inversion H; subst. clear H.
  apply check_crc_frame in Hcrc.
  apply DecoderMore.line_loop_HeaderInfo in Hloop.
  rewrite Hcrc. cbn. rewrite Hloop. cbn.
  apply DecoderMore.indexOf_range in He;
    [|lia|unfold is_byte, ch_LF; lia|lia].
  destruct He as [->|(Hr & Hn & Hnz)].
  - exfalso. unfold getSubString, store, in_bounds in Hh.
    change (to_u16 (-1)) with 65535 in Hh.
    replace (65535 <? Z.of_nat (length (buffer m))) with false in Hh
      by (symmetry; apply Z.ltb_ge; lia).
    discriminate.
  - assert (He1 : 1 <= e).
    { destruct (Z.eq_dec e 0) as [->|]; [|lia].
      cbn in Hn. rewrite H0 in Hn. discriminate. }
    exists e. split; [lia|]. split; [exact Hn|].
    unfold getSubString in Hh. rewrite !to_u16_small in Hh by lia.
    rewrite store_ok in Hh by lia. cbn [bind] in Hh.
    rewrite ptr_ok in Hh by (rewrite list_set_length; lia). cbn [bind] in Hh.
    change (Z.to_nat (0 + 1)) with 1%nat in Hh.
    rewrite Helpers.cut_string in Hh.
    + cbn [past_end] in Hh. inversion Hh. do 2 f_equal. lia.
    + lia.
    + lia.
    + intros j Hj. specialize (Hnz (Z.of_nat j) ltac:(lia)).
      now rewrite Nat2Z.id in Hnz.
Qed.

(** C6, amended.  A ['/'] that arrives while a telegram is being captured
    is stored at the write position like any other byte and resets
    nothing.  One pass of the loop on it keeps the bytes captured so far
    and moves the write position on by one, or completes the telegram.
    For every stream [/pre/post!abce\r\n]: after the second ['/'] the
    accumulator still waits, with [/pre/] in the buffer and the write
    position behind it; at the end of the stream the whole of it is in
    the buffer as one telegram, and every reading decoded from it has a
    checksum computed from the first ['/'] on and, when [pre] holds no
    line feed, a header that begins with [pre] and the second ['/'].
    Only the ['/'] that is the first byte read by a call moves the write
    position to the start of the buffer. *)
Theorem C6_start_marker_is_appended :
  (forall (m m' : P1Meter),
     meter_wf m ->
     receive_byte m ch_slash = Ok m' ->
     firstn (Z.to_nat (bufferIndex m)) (buffer m')
     = firstn (Z.to_nat (bufferIndex m)) (buffer m)
     /\ nth (Z.to_nat (bufferIndex m)) (buffer m') 0 = ch_slash
     /\ ((DataReady m' = true /\ bufferIndex m' = bufferIndex m)
         \/ (DataReady m' = DataReady m /\ bufferIndex m' = bufferIndex m + 1))
     /\ (forall b, exists m'',
           receive_byte m b = Ok m''
           /\ DataReady m'' = DataReady m' /\ bufferIndex m'' = bufferIndex m'))
  /\
  (forall (m : P1Meter) (pre post : list Z) (a b c e : Z) (rest : list Z),
     meter_wf m -> DataReady m = false ->
     Forall (fun x => x <> ch_bang) (heap_before m) ->
     Forall plain pre -> Forall plain post ->
     hexdigit a = true -> hexdigit b = true ->
     hexdigit c = true -> hexdigit e = true ->
     Z.of_nat (length (telegram (pre ++ ch_slash :: post) a b c e))
     <= BUFFER_SIZE + 1 ->
     (exists m1,
        ReceiveTelegram m (ch_slash :: pre ++ [ch_slash]) = Blocked m1
        /\ bufferIndex m1 = Z.of_nat (length pre) + 2
        /\ firstn (length pre + 2) (buffer m1) = ch_slash :: pre ++ [ch_slash])
     /\
     (exists m2,
        ReceiveTelegram m (telegram (pre ++ ch_slash :: post) a b c e ++ rest)
        = Returned m2 rest
        /\ DataReady m2 = true
        /\ firstn (length (telegram (pre ++ ch_slash :: post) a b c e))
             (buffer m2)
           = telegram (pre ++ ch_slash :: post) a b c e
        /\ forall (cs : bool) (d : P1Data) (m3 : P1Meter),
             ProcessTelegram cs m2 = Ok (d, m3) ->
             ValidCRC d
             = (hex4 a b c e
                =? CRC16.crc_bytes cs
                     (ch_slash :: (pre ++ ch_slash :: post) ++ [ch_bang]))
             /\ (Forall (fun x => x <> ch_LF) pre ->
                 exists tail, HeaderInfo d = pre ++ ch_slash :: tail)))
  /\
  (forall (m : P1Meter) (serial : list Z),
     meter_wf m ->
     ReceiveTelegram m (ch_slash :: serial) = receive_loop serial (started m)
     /\ bufferIndex (started m) = 1
     /\ nth 0 (buffer (started m)) 0 = ch_slash).
Proof.
  split; [exact receive_byte_start_marker|]. split.
  - intros m pre post a b c e rest Hwf Hr Hheap Hpre Hpost Ha Hb Hc He Hfit.
    set (body := pre ++ ch_slash :: post) in *.
    assert (Hbody : Forall plain body).
    { apply Forall_app. split; [exact Hpre|].
      constructor; [exact plain_start_marker|exact Hpost]. }
    pose proof Hwf as [Hl Hh].
    assert (Hpos : (0 < length (buffer m))%nat)
      by (unfold BUFFER_SIZE in Hl; lia).
    split.
    + destruct (receive_inner_prefix m body a b c e (length pre + 1) [])
        as (E & H1 & H2 & H3 & H4 & H5); try assumption;
        try (now apply plain_byte); try (now apply hexdigit_is_byte).
      { unfold inner, body. rewrite !length_app. cbn [length]. lia. }
      assert (Hseg : firstn (length pre + 1) (inner body a b c e)
                     = pre ++ [ch_slash]).
      { unfold inner, body. rewrite <- !app_assoc. cbn [app].
        change (pre ++ ch_slash :: post ++ ch_bang :: [a; b; c; e; ch_CR])
          with (pre ++ [ch_slash] ++ post ++ ch_bang :: [a; b; c; e; ch_CR]).
        rewrite app_assoc. rewrite firstn_app.
        replace (length pre + 1 - length (pre ++ [ch_slash]))%nat with O
          by (rewrite length_app; cbn; lia).
        cbn [firstn]. rewrite app_nil_r. apply firstn_all2.
        rewrite length_app. cbn. lia. }
      rewrite Hseg in *. rewrite app_nil_r in E.
      set (m1 := fold_left push (pre ++ [ch_slash]) (started m)) in *.
      exists m1. rewrite ReceiveTelegram_start by exact Hpos.
      rewrite E. cbn [receive_loop]. rewrite H5.
      split; [reflexivity|]. split; [rewrite H2; lia|].
      replace (length pre + 2)%nat with (Z.to_nat (bufferIndex m1))
        by (rewrite H2; lia).
      rewrite history_buffer by (rewrite H4; exact Hh).
      rewrite H1, <- app_assoc.
      rewrite skipn_exact by (rewrite length_rev; exact Hh).
      reflexivity.
    + destruct (ReceiveTelegram_complete m body a b c e rest)
        as (m2 & R1 & R2 & R3 & R4 & R5); try assumption;
        try (now apply plain_byte); try (now apply hexdigit_is_byte).
      exists m2. split; [exact R1|]. split; [exact R2|]. split; [exact R4|].
      intros cs d m3 Hproc.
      destruct (DecoderClaims.ValidCRC_iff_engine_checksum
                  cs m body a b c e rest m2 d m3) as [Hvalid _];
        try assumption.
      split; [exact Hvalid|].
      intros Hlf.
      assert (Hbuf : buffer m2
                     = ch_slash :: pre ++ ch_slash
                         :: (post ++ ch_bang :: [a; b; c; e; ch_CR; ch_LF])
                            ++ skipn (length (telegram body a b c e))
                                 (buffer m2)).
      { rewrite <- (firstn_skipn (length (telegram body a b c e)) (buffer m2))
          at 1.
        rewrite R4. unfold telegram, body. cbn [app].
        rewrite <- !app_assoc. reflexivity. }
      destruct (reading_header cs m2 d m3) as (x & Hx & Hn & Hh');
        [rewrite R5; exact (Z.eq_le_incl _ _ Hl)|rewrite Hbuf; reflexivity
        |exact Hproc|].
      assert (Hfar : Z.of_nat (length pre) + 2 <= x).
      { destruct (Z_le_gt_dec (Z.of_nat (length pre) + 2) x) as [|Hgt];
          [assumption|]. exfalso.
        rewrite Hbuf in Hn.
        destruct (Z.to_nat x) as [|j] eqn:Hj; [lia|].
        cbn [nth] in Hn.
        destruct (Nat.lt_ge_cases j (length pre)) as [Hlt|Hge].
        - rewrite app_nth1 in Hn by exact Hlt.
          rewrite Forall_forall in Hlf. apply (Hlf (nth j pre 0)); [|exact Hn].
          apply nth_In. exact Hlt.
        - rewrite app_nth2 in Hn by exact Hge.
          replace (j - length pre)%nat with O in Hn by lia.
          cbn in Hn. discriminate. }
      rewrite Hh', Hbuf. cbn [skipn].
      rewrite firstn_app.
      rewrite firstn_all2 by lia.
      replace (Z.to_nat (x - 1) - length pre)%nat
        with (S (Z.to_nat (x - 1) - length pre - 1)) by lia.
      cbn [firstn]. eexists. reflexivity.
  - intros m serial Hwf. pose proof Hwf as [Hl Hh].
    destruct (started_facts m Hwf) as (_ & SI & _).
    destruct (raise_cts_frame m) as (Fb & _).
    split; [apply ReceiveTelegram_start; unfold BUFFER_SIZE in Hl; lia|].
    split; [exact SI|].
    unfold started. cbn. rewrite Fb.
    destruct (buffer m); [cbn in Hl; unfold BUFFER_SIZE in Hl; lia|reflexivity].
Qed.

Lemma C6_start_marker_is_appended_witness :
  (firstn (Z.to_nat (bufferIndex receiving_meter))
     (buffer (push receiving_meter ch_slash))
   = firstn (Z.to_nat (bufferIndex receiving_meter)) (buffer receiving_meter)
   /\ nth (Z.to_nat (bufferIndex receiving_meter))
        (buffer (push receiving_meter ch_slash)) 0 = ch_slash
   /\ ((DataReady (push receiving_meter ch_slash) = true
        /\ bufferIndex (push receiving_meter ch_slash)
           = bufferIndex receiving_meter)
       \/ (DataReady (push receiving_meter ch_slash)
           = DataReady receiving_meter
           /\ bufferIndex (push receiving_meter ch_slash)
              = bufferIndex receiving_meter + 1))
   /\ (forall b, exists m'',
         receive_byte receiving_meter b = Ok m''
         /\ DataReady m'' = DataReady (push receiving_meter ch_slash)
         /\ bufferIndex m'' = bufferIndex (push receiving_meter ch_slash)))
  /\
  ((exists m1,
      ReceiveTelegram sample_meter (ch_slash :: [65; 66] ++ [ch_slash])
      = Blocked m1
      /\ bufferIndex m1 = Z.of_nat (length [65; 66]) + 2
      /\ firstn (length [65; 66] + 2) (buffer m1)
         = ch_slash :: [65; 66] ++ [ch_slash])
   /\
   (exists m2,
      ReceiveTelegram sample_meter
        (telegram ([65; 66] ++ ch_slash :: [67; 68]) 49 50 51 52 ++ [])
      = Returned m2 []
      /\ DataReady m2 = true
      /\ firstn (length (telegram ([65; 66] ++ ch_slash :: [67; 68])
                           49 50 51 52)) (buffer m2)
         = telegram ([65; 66] ++ ch_slash :: [67; 68]) 49 50 51 52
      /\ forall (cs : bool) (d : P1Data) (m3 : P1Meter),
           ProcessTelegram cs m2 = Ok (d, m3) ->
           ValidCRC d
           = (hex4 49 50 51 52
              =? CRC16.crc_bytes cs
                   (ch_slash :: ([65; 66] ++ ch_slash :: [67; 68])
                    ++ [ch_bang]))
           /\ (Forall (fun x => x <> ch_LF) [65; 66] ->
               exists tail, HeaderInfo d = [65; 66] ++ ch_slash :: tail)))
  /\
  (ReceiveTelegram receiving_meter (ch_slash :: [65])
   = receive_loop [65] (started receiving_meter)
   /\ bufferIndex (started receiving_meter) = 1
   /\ nth 0 (buffer (started receiving_meter)) 0 = ch_slash).
Proof.
  destruct C6_start_marker_is_appended as (A & B & C). split; [|split].
  - apply (A receiving_meter (push receiving_meter ch_slash)).
    + split; reflexivity.
    + vm_compute. reflexivity.
  - apply (B sample_meter [65; 66] [67; 68] 49 50 51 52 []).
    + split; reflexivity.
    + reflexivity.
    + cbn. repeat constructor; discriminate.
    + repeat constructor; unfold is_byte; try lia; discriminate.
    + repeat constructor; unfold is_byte; try lia; discriminate.
    + reflexivity.
    + reflexivity.
    + reflexivity.
    + reflexivity.
    + cbn. lia.
  - apply (C receiving_meter [65]). split; reflexivity.
Defined.

End PreemptionClaims.
